(** * County enrichment of property records: model and properties

    A shallow embedding of the Python sources
    - [geocoder.py]       (class [CensusGeocoder]),
    - [data_processor.py] (class [CountyDataProcessor]),
    - [utils.py]          (classes [DataAnalyzer] and [DataCleaner]),
    followed by the properties established about them.

    Modelling conventions.
    - Python [str] is [string], holding the text in UTF-8.  White space,
      digits and upper-casing follow Python's rules for the code points
      below 128; there a character from 128 on is carried along as a
      caseless symbol that is neither white space nor a digit.
      Title-casing follows the Unicode character database for every
      character; the database is a parameter ([PyStr.Unicode]).
    - A cell of a frame is text or null ([NaN]); this is what pandas holds
      in an object column read from a comma-separated file.
    - A [DataFrame] is its list of column names and its rows in order; the
      row label is the position (the [RangeIndex] that [read_csv] builds).
    - Exceptions are values of [exn]; fallible code returns a [result].
      Interrupts from outside ([KeyboardInterrupt]) are not modelled.
    - Mutable objects (the frame, the counters, the outside world reached
      through the geocoder) are threaded through a state monad.
    - What lies outside the program is a parameter of the function that
      meets it: the network, the console that [print] writes to (in the
      exception handlers of [geocode_address] and in [export_by_county]),
      the file system, the aggregates that pandas computes for a price
      column.  The progress lines of the pipeline and of the caching
      example are left out: there the console takes every text. *)

From Stdlib Require Import ZArith Uint63 Ascii Floats.PrimFloat Floats.SpecFloat Floats.FloatOps.
From Stdlib Require String.
From stdpp Require Import gmap strings list fin_maps sorting pretty.

Set Warnings "-register-all,-clear-no-such-hyp".
Local Open Scope string_scope.
Local Open Scope Z_scope.

(* ===================================================================== *)
(** * Definitions *)
(* ===================================================================== *)

(** ** Python string operations *)

Module PyStr.

Definition code (c : ascii) : N := N_of_ascii c.

(** [str.isspace] on one character: TAB, LF, VT, FF, CR, the four
    separators FS, GS, RS, US, and the space. *)
Definition is_space (c : ascii) : bool :=
  ((9 <=? code c) && (code c <=? 13) || (28 <=? code c) && (code c <=? 32))%N.

Definition is_lower (c : ascii) : bool := ((97 <=? code c) && (code c <=? 122))%N.
Definition is_upper (c : ascii) : bool := ((65 <=? code c) && (code c <=? 90))%N.
Definition is_cased (c : ascii) : bool := is_lower c || is_upper c.
Definition is_digit (c : ascii) : bool := ((48 <=? code c) && (code c <=? 57))%N.

Definition upper_char (c : ascii) : ascii :=
  if is_lower c then ascii_of_N (code c - 32) else c.
Definition lower_char (c : ascii) : ascii :=
  if is_upper c then ascii_of_N (code c + 32) else c.

Fixpoint map_chars (f : ascii → ascii) (s : string) : string :=
  match s with
  | EmptyString => EmptyString
  | String c s' => String (f c) (map_chars f s')
  end.

Fixpoint filter_chars (p : ascii → bool) (s : string) : string :=
  match s with
  | EmptyString => EmptyString
  | String c s' => if p c then String c (filter_chars p s') else filter_chars p s'
  end.

(** [s.upper()] *)
Definition upper (s : string) : string := map_chars upper_char s.

(** [s.lstrip()], [s.rstrip()], [s.strip()] *)
Fixpoint lstrip (s : string) : string :=
  match s with
  | EmptyString => EmptyString
  | String c s' => if is_space c then lstrip s' else s
  end.

Fixpoint rstrip (s : string) : string :=
  match s with
  | EmptyString => EmptyString
  | String c s' =>
      match rstrip s' with
      | EmptyString => if is_space c then EmptyString else String c EmptyString
      | r => String c r
      end
  end.

Definition strip (s : string) : string := rstrip (lstrip s).

(** *** Characters beyond ASCII: [s.title()]

    A Python text is a sequence of code points.  [chars] cuts the UTF-8
    text into its characters: a character begins at every byte that is
    not a continuation byte (128 to 191). *)
Definition is_continuation (c : ascii) : bool := ((128 <=? code c) && (code c <? 192))%N.

Definition continues (s : string) : bool :=
  match s with
  | String d _ => is_continuation d
  | EmptyString => false
  end.

Fixpoint chars (s : string) : list string :=
  match s with
  | EmptyString => []
  | String c s' =>
      match continues s', chars s' with
      | true, ch :: rest => String c ch :: rest
      | _, l => String c EmptyString :: l
      end
  end.

(** What [str.title] takes from the Unicode character database of the
    interpreter: the full lower-case and title-case mappings of a
    character (up to three characters long), and the properties Cased and
    Case_Ignorable. *)
Record Unicode := mkUnicode {
  lower_full : string → string;
  title_full : string → string;
  cased : string → bool;
  case_ignorable : string → bool
}.

(** U+03A3, U+03C3 and U+03C2. *)
Definition capital_sigma : string := "Σ".
Definition small_sigma : string := "σ".
Definition final_small_sigma : string := "ς".

(** The one mapping that looks at the context: a capital sigma is
    lower-cased to the final form when a cased character precedes it and
    none follows, characters that are Case_Ignorable not counting.
    [before] lists the characters to the left, the nearest first. *)
Definition final_sigma (u : Unicode) (before after : list string) : bool :=
  match List.find (λ c, negb (case_ignorable u c)) before with
  | Some c => cased u c
  | None => false
  end
  && match List.find (λ c, negb (case_ignorable u c)) after with
     | Some c => negb (cased u c)
     | None => true
     end.

Definition lower_at (u : Unicode) (before : list string) (c : string)
    (after : list string) : string :=
  if String.eqb c capital_sigma
  then if final_sigma u before after then final_small_sigma else small_sigma
  else lower_full u c.

(** [s.title()]: a character that follows a cased character is
    lower-cased, any other character is title-cased. *)
Fixpoint title_from (u : Unicode) (before : list string) (previous_is_cased : bool)
    (cs : list string) : list string :=
  match cs with
  | [] => []
  | c :: after =>
      (if previous_is_cased then lower_at u before c after else title_full u c)
      :: title_from u (c :: before) (cased u c) after
  end.

Definition title (u : Unicode) (s : string) : string :=
  String.concat "" (title_from u [] false (chars s)).

(** [re.sub(r'\D', '', s)]: drop every character that is not a digit. *)
Definition remove_non_digits (s : string) : string := filter_chars is_digit s.

(** [s.replace(' ', '_')] *)
Definition replace_space_by_underscore (s : string) : string :=
  map_chars (λ c, if Ascii.eqb c " " then "_"%char else c) s.

(** [sub in s] for two strings *)
Definition contains (sub s : string) : bool :=
  match String.index 0 sub s with Some _ => true | None => false end.

End PyStr.

(** ** Exceptions and results *)

Inductive exn :=
  | KeyError (key : string)
  | IndexError
  | TypeError
  | AttributeError
  | ConnectionError        (* requests.exceptions.ConnectionError *)
  | Timeout                (* requests.exceptions.Timeout *)
  | HTTPError (status : Z) (* requests.exceptions.HTTPError *)
  | JSONDecodeError        (* requests.exceptions.JSONDecodeError, a RequestException *)
  | UnicodeEncodeError
  | OSError.

Inductive result (A : Type) :=
  | Ok (a : A)
  | Raise (e : exn).
Arguments Ok {A} a.
Arguments Raise {A} e.

Global Instance result_ret : MRet result := λ A a, Ok a.
Global Instance result_bind : MBind result := λ A B k r,
  match r with
  | Ok a => k a
  | Raise e => Raise e
  end.

(** ** Frames *)

Inductive cell :=
  | NaN
  | Str (s : string).

Global Instance cell_eq_dec : EqDecision cell.
Proof. solve_decision. Defined.

Abbreviation Row := (gmap string cell).

Record DataFrame := mkDataFrame {
  columns : list string;
  rows : list Row
}.

(** [pd.isna(v)] and [Series.isna()] on one cell *)
Definition isna (v : cell) : bool :=
  match v with NaN => true | Str _ => false end.

(** [str(v)], and [Series.astype(str)] on one cell: null becomes the text
    ["nan"]. *)
Definition astype_str (v : cell) : string :=
  match v with NaN => "nan" | Str s => s end.

(** [len(df)] *)
Definition len (df : DataFrame) : Z := Z.of_nat (length (rows df)).

(** [df[name]]: the cells of a column in row order, [KeyError] when the
    frame has no such column.  Frames are rectangular (every row has a cell
    for every column), so the default of the total lookup is never read. *)
Definition getcol (df : DataFrame) (name : string) : result (list cell) :=
  if bool_decide (name ∈ columns df)
  then Ok ((λ r : Row, default NaN (r !! name)) <$> rows df)
  else Raise (KeyError name).

(** [row[name]] on a row handed out by [iterrows] *)
Definition row_getitem (row : Row) (name : string) : result cell :=
  match row !! name with
  | Some v => Ok v
  | None => Raise (KeyError name)
  end.

(** Every row carries exactly the columns of the frame. *)
Definition rectangular (df : DataFrame) : bool :=
  forallb (λ r : Row, bool_decide (dom r = list_to_set (columns df))) (rows df).

(** [series.sum()] of a boolean series *)
Definition sum_true (mask : list bool) : Z :=
  Z.of_nat (length (filter (λ b, b = true) mask)).

(** ** The console

    The lines that the modelled functions print, and [print] as the
    caller's console gives it: it returns, or it raises what writing the
    line raises ([UnicodeEncodeError] when the encoding of the stream has
    no bytes for a character of the line).
    - [Error_geocoding]: [f"Error geocoding {street_address}: {e}"]
    - [Unexpected_error_for]: [f"Unexpected error for {street_address}: {e}"]
    - [Created]: [f"Created: {filename} ({len(group_df)} properties)"] *)
Inductive message :=
  | Error_geocoding (street_address : cell) (e : exn)
  | Unexpected_error_for (street_address : cell) (e : exn)
  | Created (filename : string) (properties : Z).

(** An operation of the outside that goes well on every argument: a
    console that takes every line, a file system that grants every
    request. *)
Definition succeeds {A : Type} : A → result unit := λ _, Ok tt.

(** ** geocoder.py *)

Module Geocoder.

(** What [response.json()] returns: Python values built from JSON.  An
    object is a dictionary keyed by strings. *)
Inductive json :=
  | JNull
  | JBool (b : bool)
  | JInt (z : Z)
  | JFloat (f : float)
  | JStr (s : string)
  | JArr (l : list json)
  | JObj (m : gmap string json).

(** Truth value of a Python value, as tested by [if v] and [v and ...]. *)
Definition truthy (v : json) : bool :=
  match v with
  | JNull => false
  | JBool b => b
  | JInt z => negb (z =? 0)
  | JFloat f => negb (PrimFloat.eqb f 0%float)
  | JStr s => negb (String.eqb s "")
  | JArr l => match l with [] => false | _ => true end
  | JObj m => negb (bool_decide (m = ∅))
  end.

(** [key in v] for a string [key] *)
Definition py_in (key : string) (v : json) : result bool :=
  match v with
  | JObj m => Ok (bool_decide (is_Some (m !! key)))
  | JArr l => Ok (existsb (λ x, match x with JStr s => String.eqb s key | _ => false end) l)
  | JStr s => Ok (PyStr.contains key s)
  | _ => Raise TypeError
  end.

(** [v[key]] for a string [key] *)
Definition getitem (v : json) (key : string) : result json :=
  match v with
  | JObj m => match m !! key with Some x => Ok x | None => Raise (KeyError key) end
  | _ => Raise TypeError
  end.

(** [v[0]]; a dictionary parsed from JSON has no integer key. *)
Definition getitem0 (v : json) : result json :=
  match v with
  | JArr (x :: _) => Ok x
  | JArr [] => Raise IndexError
  | JStr (String c _) => Ok (JStr (String c EmptyString))
  | JStr EmptyString => Raise IndexError
  | JObj _ => Raise (KeyError "0")
  | _ => Raise TypeError
  end.

(** [len(v)] *)
Definition py_len (v : json) : result Z :=
  match v with
  | JStr s => Ok (Z.of_nat (String.length s))
  | JArr l => Ok (Z.of_nat (length l))
  | JObj m => Ok (Z.of_nat (size m))
  | _ => Raise TypeError
  end.

(** [v.get(key, dflt)]; only dictionaries have the method. *)
Definition py_get (v : json) (key : string) (dflt : json) : result json :=
  match v with
  | JObj m => Ok (default dflt (m !! key))
  | _ => Raise AttributeError
  end.

(** [v and len(v) > 0] used as a condition *)
Definition nonempty (v : json) : result bool :=
  if truthy v then n ← py_len v; Ok (0 <? n) else Ok false.

(** The statements of [geocode_address] after [data = response.json()]:
    the extraction of the county from the parsed response.  Every [if]
    without a match falls through to the final [return None]. *)
Definition extract_county (data : json) : result json :=
  has_result ← py_in "result" data;
  has_matches ←
    (if has_result : bool
     then r ← getitem data "result"; py_in "addressMatches" r
     else Ok false);
  if has_matches : bool then
    r ← getitem data "result";
    matches ← getitem r "addressMatches";
    some_match ← nonempty matches;
    if some_match : bool then
      match_ ← getitem0 matches;
      has_geo ← py_in "geographies" match_;
      has_counties ←
        (if has_geo : bool
         then g ← getitem match_ "geographies"; py_in "Counties" g
         else Ok false);
      if has_counties : bool then
        g ← getitem match_ "geographies";
        counties ← getitem g "Counties";
        some_county ← nonempty counties;
        if some_county : bool then
          first ← getitem0 counties;
          county_name ← py_get first "NAME" (JStr "");
          Ok county_name
        else Ok JNull
      else Ok JNull
    else Ok JNull
  else Ok JNull.

(** The query sent to the endpoint. *)
Definition params (street_address city state zipcode : cell) : list (string * cell) :=
  [ ("street", street_address); ("city", city); ("state", state);
    ("zip", zipcode); ("benchmark", Str "Public_AR_Current");
    ("vintage", Str "Current_Current"); ("format", Str "json") ].

(** What the network does with one request: no connection, no answer
    within the timeout, or a response with a status code and a body that
    parses as JSON ([Some]) or does not ([None]). *)
Inductive api_outcome :=
  | NoConnection
  | TimedOut
  | Responded (status : Z) (body : option json).

(** [requests.get(url, params=params, timeout=10)] *)
Definition requests_get (o : api_outcome) : result (Z * option json) :=
  match o with
  | NoConnection => Raise ConnectionError
  | TimedOut => Raise Timeout
  | Responded status body => Ok (status, body)
  end.

(** [response.raise_for_status()]: the library raises [HTTPError] for the
    client and server error codes, 400 to 599, and for no other code. *)
Definition raise_for_status (status : Z) : result unit :=
  if (400 <=? status) && (status <? 600) then Raise (HTTPError status) else Ok tt.

(** [response.json()] *)
Definition response_json (body : option json) : result json :=
  match body with
  | Some data => Ok data
  | None => Raise JSONDecodeError
  end.

(** The body of the [try] block. *)
Definition geocode_address_try (http : list (string * cell) → api_outcome)
    (street_address city state zipcode : cell) : result json :=
  response ← requests_get (http (params street_address city state zipcode));
  _ ← raise_for_status response.1;
  data ← response_json response.2;
  extract_county data.

(** The classes caught by [except requests.exceptions.RequestException]. *)
Definition is_RequestException (e : exn) : bool :=
  match e with
  | ConnectionError | Timeout | HTTPError _ | JSONDecodeError => true
  | _ => false
  end.

(** [CensusGeocoder.geocode_address]: both handlers print a line and
    return [None]; the second one, [except Exception], takes every
    exception the first one leaves.  An exception raised by [print] inside
    a handler is not caught by the other handler and leaves the
    function. *)
Definition geocode_address (print : message → result unit)
    (http : list (string * cell) → api_outcome)
    (street_address city state zipcode : cell) : result json :=
  match geocode_address_try http street_address city state zipcode with
  | Ok county_name => Ok county_name
  | Raise e =>
      if is_RequestException e
      then _ ← print (Error_geocoding street_address e); Ok JNull
      else _ ← print (Unexpected_error_for street_address e); Ok JNull
  end.

End Geocoder.

(** ** data_processor.py *)

Module DataProcessor.

(** [self.stats] *)
Record Stats := mkStats {
  total : Z;
  needs_geocoding : Z;
  geocoded : Z;
  failed : Z;
  already_had_county : Z
}.

(** The counters as [__init__] creates them. *)
Definition stats_init : Stats := mkStats 0 0 0 0 0.

(** [CountyDataProcessor._needs_geocoding] *)
Definition _needs_geocoding (county_value : cell) : bool :=
  if isna county_value then true
  else
    let county_str := PyStr.upper (PyStr.strip (astype_str county_value)) in
    String.eqb county_str "" || String.eqb county_str "UNKNOWN".

(** One entry of the boolean series that [identify_missing_counties]
    builds from the county column:
    [isna() | (astype(str).str.strip() == '') | (astype(str).str.upper() == 'UNKNOWN')]. *)
Definition needs_geocoding_mask (county_value : cell) : bool :=
  isna county_value
  || String.eqb (PyStr.strip (astype_str county_value)) ""
  || String.eqb (PyStr.upper (astype_str county_value)) "UNKNOWN".

(** [df[mask].iterrows()]: the rows whose mask entry is true, each with
    its label, in frame order; [i] is the label of the first row. *)
Fixpoint select_from (i : nat) (mask : list bool) (rs : list Row) : list (nat * Row) :=
  match mask, rs with
  | b :: mask', r :: rs' =>
      if b then (i, r) :: select_from (S i) mask' rs' else select_from (S i) mask' rs'
  | _, _ => []
  end.

Definition select_rows (mask : list bool) (rs : list Row) : list (nat * Row) :=
  select_from 0 mask rs.

(** [if county:] on the optional string that the geocoder returns *)
Definition truthy (county : option string) : bool :=
  match county with
  | Some s => negb (String.eqb s "")
  | None => false
  end.

(** [df.at[idx, 'CountyName'] = county].  The label is always one of the
    frame's own, so the enlargement pandas performs on a new label is
    not reached. *)
Definition set_county (idx : nat) (county : string) (df : DataFrame) : DataFrame :=
  mkDataFrame (columns df)
              (alter (λ r : Row, <["CountyName" := Str county]> r) idx (rows df)).

Section Pipeline.

(** Everything outside the processor that a lookup can depend on or
    change (the network, the clock, a cache inside the geocoder).  The
    geocoder is any object with the interface of [CensusGeocoder]: a lookup
    of the declared type [Optional[str]] and a wait. *)
Context {World : Type}.

(** [self.geocoder.geocode_address] and [self.geocoder.wait] *)
Variable geocode_address : cell → cell → cell → cell → World → option string * World.
Variable wait : World → World.

(** The objects a run mutates. *)
Record State := mkState {
  world : World;
  stats : Stats;
  frame : DataFrame
}.

(** Computations that read and write the state and may raise; what was
    written before an exception stays written. *)
Definition M (A : Type) : Type := State → result A * State.

Global Instance M_ret : MRet M := λ A a s, (Ok a, s).
Global Instance M_bind : MBind M := λ A B k m s,
  match m s with
  | (Ok a, s') => k a s'
  | (Raise e, s') => (Raise e, s')
  end.
Definition lift {A} (r : result A) : M A := λ s, (r, s).
Definition get_frame : M DataFrame := λ s, (Ok (frame s), s).
Definition modify_frame (f : DataFrame → DataFrame) : M unit :=
  λ s, (Ok tt, mkState (world s) (stats s) (f (frame s))).
Definition modify_stats (f : Stats → Stats) : M unit :=
  λ s, (Ok tt, mkState (world s) (f (stats s)) (frame s)).
Definition modify_world (f : World → World) : M unit :=
  λ s, (Ok tt, mkState (f (world s)) (stats s) (frame s)).
Definition call_geocoder (street_address city state zipcode : cell)
  : M (option string) :=
  λ s, let '(county, w) := geocode_address street_address city state zipcode (world s) in
       (Ok county, mkState w (stats s) (frame s)).

(** [load_csv], given the frame that [pd.read_csv(filepath)] returns *)
Definition load_csv (file : DataFrame) : M DataFrame :=
  modify_frame (λ _, file);;
  modify_stats (λ st, mkStats (len file) (needs_geocoding st) (geocoded st)
                              (failed st) (already_had_county st));;
  mret file.

(** [identify_missing_counties] *)
Definition identify_missing_counties (df : DataFrame) : M (list (nat * Row)) :=
  county ← lift (getcol df "CountyName");
  let mask := needs_geocoding_mask <$> county in
  modify_stats (λ st, mkStats (total st) (sum_true mask) (geocoded st)
                              (failed st) (already_had_county st));;
  modify_stats (λ st, mkStats (total st) (needs_geocoding st) (geocoded st)
                              (failed st) (len df - sum_true mask));;
  mret (select_rows mask (rows df)).

(** [process_row]; the frame it updates is the one in the state.  In the
    first branch of [if county:] the county is a text that is not empty. *)
Definition process_row (idx : nat) (row : Row)
    (progress_num total_to_process : nat) : M bool :=
  street_address ← lift (row_getitem row "StreetAddress");
  city ← lift (row_getitem row "City");
  state ← lift (row_getitem row "State");
  zipcode ← lift (row_getitem row "Zipcode");
  county ← call_geocoder street_address city state zipcode;
  if truthy county then
    modify_frame (set_county idx (default "" county));;
    modify_stats (λ st, mkStats (total st) (needs_geocoding st) (geocoded st + 1)
                                (failed st) (already_had_county st));;
    mret true
  else
    modify_stats (λ st, mkStats (total st) (needs_geocoding st) (geocoded st)
                                (failed st + 1) (already_had_county st));;
    mret false.

(** The loop of [process_dataframe] over [enumerate(missing_df.iterrows(), 1)]. *)
Fixpoint process_rows (progress_callback : option (nat → nat → World → World))
    (items : list (nat * Row)) (progress_num total_to_process : nat) : M unit :=
  match items with
  | [] => mret tt
  | (idx, row) :: rest =>
      process_row idx row progress_num total_to_process;;
      modify_world wait;;
      match progress_callback with
      | Some callback => modify_world (callback progress_num total_to_process)
      | None => mret tt
      end;;
      process_rows progress_callback rest (S progress_num) total_to_process
  end.

(** [process_dataframe] *)
Definition process_dataframe (progress_callback : option (nat → nat → World → World))
  : M DataFrame :=
  df ← get_frame;
  missing_df ← identify_missing_counties df;
  let total_to_process := length missing_df in
  process_rows progress_callback missing_df 1 total_to_process;;
  get_frame.

(** [process_csv_file]: load, process, and hand back the frame that
    [save_csv] writes to the output file. *)
Definition process_csv_file (input_file : DataFrame) : M DataFrame :=
  load_csv input_file;;
  df ← process_dataframe None;
  mret df.

(** A processor right after construction, about to work on [df]. *)
Definition fresh (w : World) (df : DataFrame) : State := mkState w stats_init df.

End Pipeline.

End DataProcessor.

(** ** utils.py *)

Module Utils.

(** *** Numbers as numpy and Python print them *)

(** A numpy [int64] count converted to [float64]. *)
Definition float_of_int64 (z : Z) : float :=
  if z <? 0 then PrimFloat.opp (PrimFloat.of_uint63 (Uint63.of_Z (- z)))
  else PrimFloat.of_uint63 (Uint63.of_Z z).

(** The integer nearest to [num / den], ties to even, for [0 <= num] and
    [0 < den]. *)
Definition round_half_even (num den : Z) : Z :=
  let q := num / den in
  let r := num mod den in
  if 2 * r <? den then q
  else if den <? 2 * r then q + 1
  else if Z.even q then q else q + 1.

(** [f"{x:.1f}"]: the decimal with one fractional digit nearest to the
    exact value of the float, and the names Python prints for the values
    that are not finite. *)
Definition format_1f (x : float) : string :=
  match Prim2SF x with
  | S754_nan => "nan"
  | S754_infinity false => "inf"
  | S754_infinity true => "-inf"
  | S754_zero s => (if s then "-" else "") +:+ "0.0"
  | S754_finite s m e =>
      let tenths :=
        if 0 <=? e then Z.pos m * 10 * 2 ^ e
        else round_half_even (Z.pos m * 10) (2 ^ (- e)) in
      (if s then "-" else "") +:+ pretty (tenths / 10) +:+ "." +:+ pretty (tenths mod 10)
  end.

(** *** DataAnalyzer *)

(** [df['CountyName'].isna().sum()] *)
Definition missing_count (df : DataFrame) : result Z :=
  county ← getcol df "CountyName";
  Ok (sum_true (isna <$> county)).

(** [analysis['price_stats']] when the data has a price: four floats. *)
Record PriceStats := mkPriceStats {
  mean : float;
  median : float;
  minimum : float;
  maximum : float
}.

(** The keys of the dictionary returned by [analyze_csv] that report the
    size of the data, the missing counties and the prices;
    [price_stats] is [None] for the empty dictionary.  The frequency
    tables are the subject of [Reports] below. *)
Record Analysis := mkAnalysis {
  total_properties : Z;
  missing_county : Z;
  price_stats : option PriceStats
}.

Section Analyze.

(** The aggregates [float(df['Price'].mean())], [.median()], [.min()],
    [.max()] of a price column as pandas computes them; an exception when
    it cannot, as for a column that holds text. *)
Variable price_statistics : list cell → result PriceStats.

(** [DataAnalyzer.analyze_csv], given the frame read from the file.  The
    columns are read in the order of the source: the county twice (for
    its table and for the count of nulls), the city and the zip code (for
    their tables), each with a [KeyError] when the column is not there;
    the table of home types and the prices are read only when the frame
    has the column. *)
Definition analyze_csv (df : DataFrame) : result Analysis :=
  _ ← getcol df "CountyName";
  missing ← missing_count df;
  _ ← getcol df "City";
  _ ← getcol df "Zipcode";
  _ ← (if bool_decide ("HomeType" ∈ columns df) then getcol df "HomeType" else Ok []);
  price ← (if bool_decide ("Price" ∈ columns df)
           then prices ← getcol df "Price";
                stats ← price_statistics prices;
                Ok (Some stats)
           else Ok None);
  Ok (mkAnalysis (len df) missing price).

End Analyze.

(** The dictionary returned by [compare_csvs]. *)
Record Comparison := mkComparison {
  original_missing : Z;
  updated_missing : Z;
  records_updated : Z;
  success_rate : string
}.

(** [DataAnalyzer.compare_csvs], given the frames read from the two
    files.  The counts are numpy integers, so the quotient is a numpy
    [float64] division: a zero divisor yields [nan] or an infinity (with a
    warning), not an exception. *)
Definition compare_csvs (df_original df_updated : DataFrame) : result Comparison :=
  original_missing ← missing_count df_original;
  updated_missing ← missing_count df_updated;
  let rate :=
    PrimFloat.mul
      (PrimFloat.div (float_of_int64 (original_missing - updated_missing))
                     (float_of_int64 original_missing))
      (float_of_int64 100) in
  Ok (mkComparison original_missing updated_missing
                   (original_missing - updated_missing)
                   (format_1f rate +:+ "%")).

(** Order of group keys: Python compares strings by code point. *)
Definition str_le (a b : string) : Prop := String.leb a b = true.

Global Instance str_le_dec a b : Decision (str_le a b).
Proof. unfold str_le. apply _. Defined.

(** The keys of [df.groupby('CountyName')]: the distinct values of the
    column, nulls dropped, in sorted order. *)
Definition group_keys (county : list cell) : list string :=
  merge_sort str_le
    (remove_dups (omap (λ v, match v with Str s => Some s | NaN => None end) county)).

(** The group of a key: the rows whose county is exactly that value. *)
Definition group_rows (county_name : string) (rs : list Row) : list Row :=
  filter (λ r : Row, r !! "CountyName" = Some (Str county_name)) rs.

(** The name of the file written for a county. *)
Definition county_filename (output_dir county_name : string) : string :=
  output_dir +:+ "/" +:+ PyStr.replace_space_by_underscore county_name +:+ ".csv".

Section Exporting.

(** The outside as [export_by_county] meets it:
    - [makedirs]: [os.makedirs(output_dir, exist_ok=True)], which returns
      or raises;
    - [create]: what opening a file of that name for writing does when
      [to_csv] asks for it: it returns, or it raises ([OSError] when the
      directory of the name is not there, as for a county name with a
      slash in a fresh output directory) and no file is written;
    - [print]: the console. *)
Variable makedirs : string → result unit.
Variable create : string → result unit.
Variable print : message → result unit.

(** The loop over the groups.  A file written by [to_csv] holds the frame
    it was given.  The test [pd.notna(county_name)] holds for every group
    key, as [groupby] drops the null key.  An exception ends the loop and
    leaves the files written so far. *)
Fixpoint export_groups (df : DataFrame) (output_dir : string) (keys : list string)
    (files_created : list string) (disk : gmap string DataFrame)
  : result (list string) * gmap string DataFrame :=
  match keys with
  | [] => (Ok files_created, disk)
  | county_name :: rest =>
      let group_df := mkDataFrame (columns df) (group_rows county_name (rows df)) in
      let filename := county_filename output_dir county_name in
      match create filename with
      | Raise e => (Raise e, disk)
      | Ok _ =>
          let disk := <[filename := group_df]> disk in
          let files_created := (files_created ++ [filename])%list in
          match print (Created filename (len group_df)) with
          | Raise e => (Raise e, disk)
          | Ok _ => export_groups df output_dir rest files_created disk
          end
      end
  end.

(** [DataAnalyzer.export_by_county], given the frame read from the input
    file and the files already on disk; returns [files_created], or the
    exception that ended the run, and the files afterwards. *)
Definition export_by_county (df : DataFrame) (output_dir : string)
    (disk : gmap string DataFrame) : result (list string) * gmap string DataFrame :=
  match makedirs output_dir with
  | Raise e => (Raise e, disk)
  | Ok _ =>
      match getcol df "CountyName" with
      | Raise e => (Raise e, disk)
      | Ok county => export_groups df output_dir (group_keys county) [] disk
      end
  end.

End Exporting.

(** *** DataCleaner *)

(** [df[name] = f(df[name])]: rewrite one column cell by cell. *)
Definition map_column (name : string) (f : cell → cell) (df : DataFrame) : DataFrame :=
  mkDataFrame (columns df) ((λ r : Row, alter f name r) <$> rows df).

(** [DataCleaner.clean_phone_numbers] *)
Definition clean_phone_numbers (df : DataFrame) : DataFrame :=
  if bool_decide ("BrokerPhoneNumber" ∈ columns df)
  then map_column "BrokerPhoneNumber"
                  (λ v, Str (PyStr.remove_non_digits (astype_str v))) df
  else df.

(** [DataCleaner.normalize_addresses]; the string accessor of an object
    column leaves null cells null.  [u] is the character database of the
    interpreter. *)
Definition normalize_addresses (u : PyStr.Unicode) (df : DataFrame) : DataFrame :=
  if bool_decide ("StreetAddress" ∈ columns df)
  then map_column "StreetAddress"
                  (λ v, match v with
                        | NaN => NaN
                        | Str s => Str (PyStr.title u (PyStr.strip s))
                        end) df
  else df.

(** [series.fillna(default_value)] on one cell *)
Definition fillna (default_value : string) (v : cell) : cell :=
  match v with NaN => Str default_value | Str s => Str s end.

(** [DataCleaner.fill_missing_values]; [defaults] is [None] or the items
    of the dictionary in order.  The in-place fill of [df[column]] writes
    through to the frame. *)
Definition fill_items (df : DataFrame) (items : list (string * string)) : DataFrame :=
  foldl (λ df (item : string * string),
           let '(column, default_value) := item in
           if bool_decide (column ∈ columns df)
           then map_column column (fillna default_value) df
           else df)
        df items.

Definition fill_missing_values (df : DataFrame)
    (defaults : option (list (string * string))) : DataFrame :=
  match defaults with
  | None | Some [] => df
  | Some items => fill_items df items
  end.

End Utils.

(** ** Auxiliary definitions for the proofs *)

(** Text of ASCII characters only. *)
Fixpoint is_ascii (s : string) : bool :=
  match s with
  | EmptyString => true
  | String c s' => (PyStr.code c <? 128)%N && is_ascii s'
  end.

(** The title-casing of ASCII text written out byte by byte: upper case
    for title case, and no character depends on its neighbours. *)
Definition title_char (previous_is_cased : bool) (c : ascii) : ascii :=
  if previous_is_cased then PyStr.lower_char c else PyStr.upper_char c.

Fixpoint ascii_title_from (previous_is_cased : bool) (s : string) : string :=
  match s with
  | EmptyString => EmptyString
  | String c s' =>
      String (title_char previous_is_cased c) (ascii_title_from (PyStr.is_cased c) s')
  end.

Definition ascii_title (s : string) : string := ascii_title_from false s.

(** What every version of the character database says about the
    characters of ASCII: the letters are the cased characters, and they
    map to one another. *)
Definition ascii_rules (u : PyStr.Unicode) : Prop :=
  ∀ c : ascii, (PyStr.code c < 128)%N →
    PyStr.lower_full u (String c EmptyString) = String (PyStr.lower_char c) EmptyString ∧
    PyStr.title_full u (String c EmptyString) = String (PyStr.upper_char c) EmptyString ∧
    PyStr.cased u (String c EmptyString) = PyStr.is_cased c.

(** U+0130, the capital I with a dot above, and U+0307, the combining
    dot above. *)
Definition capital_I_with_dot : string := String "196" (String "176" EmptyString).
Definition combining_dot_above : string := String "204" (String "135" EmptyString).

(** What the character database says about these two: the capital
    letter is cased and its lower case is an [i] followed by the combining
    dot; the combining dot is not cased and maps to itself. *)
Definition dotted_I_rules (u : PyStr.Unicode) : Prop :=
  PyStr.cased u capital_I_with_dot = true ∧
  PyStr.lower_full u capital_I_with_dot = "i" +:+ combining_dot_above ∧
  PyStr.cased u combining_dot_above = false ∧
  PyStr.lower_full u combining_dot_above = combining_dot_above.

(** The street addresses of a frame are ASCII text. *)
Definition ascii_addresses (df : DataFrame) : Prop :=
  ∀ (r : Row) s, r ∈ rows df → r !! "StreetAddress" = Some (Str s) → is_ascii s = true.

(** The line that the handlers of [geocode_address] print for an
    exception. *)
Definition handler_message (street_address : cell) (e : exn) : message :=
  if Geocoder.is_RequestException e
  then Error_geocoding street_address e
  else Unexpected_error_for street_address e.

(** The exception that [requests] raises for an outcome of the network,
    if it raises one. *)
Definition transport_exn (o : Geocoder.api_outcome) : option exn :=
  match o with
  | Geocoder.NoConnection => Some ConnectionError
  | Geocoder.TimedOut => Some Timeout
  | Geocoder.Responded status body =>
      if (400 <=? status) && (status <? 600) then Some (HTTPError status)
      else match body with None => Some JSONDecodeError | Some _ => None end
  end.

(** What [fill_missing_values] does to one row of a frame with columns
    [cols]. *)
Definition fill_row (cols : list string) (items : list (string * string)) (r : Row) : Row :=
  foldl (λ (r : Row) (item : string * string),
           if bool_decide (item.1 ∈ cols) then alter (Utils.fillna item.2) item.1 r else r)
        r items.

(** The first county of a parsed response of the shape
    [{ result: { addressMatches: [ { geographies: { Counties: [ {..} ] } } ] } }],
    when the response has that shape. *)
Definition first_county (data : Geocoder.json) : option (gmap string Geocoder.json) :=
  match data with
  | Geocoder.JObj d =>
      match d !! "result" with
      | Some (Geocoder.JObj r) =>
          match r !! "addressMatches" with
          | Some (Geocoder.JArr (Geocoder.JObj m :: _)) =>
              match m !! "geographies" with
              | Some (Geocoder.JObj g) =>
                  match g !! "Counties" with
                  | Some (Geocoder.JArr (Geocoder.JObj c :: _)) => Some c
                  | _ => None
                  end
              | _ => None
              end
          | _ => None
          end
      | _ => None
      end
  | _ => None
  end.

(** The value of a result once the handlers of [geocode_address] have
    turned an exception into [None]. *)
Definition caught (r : result Geocoder.json) : Geocoder.json :=
  match r with Ok v => v | Raise _ => Geocoder.JNull end.

(** The outcomes that make [requests] raise: no connection, a timeout, a
    status from 400 to 599, a body that is not JSON. *)
Definition transport_error (o : Geocoder.api_outcome) : bool :=
  match o with
  | Geocoder.NoConnection | Geocoder.TimedOut => true
  | Geocoder.Responded status body =>
      (400 <=? status) && (status <? 600)
      || match body with None => true | Some _ => false end
  end.

(** The two patterns that [extract_county] repeats: two nested keys
    tested with [in] and then read, and the first item of a non-empty
    value. *)
Definition two_keys (v : Geocoder.json) (k1 k2 : string)
    (K : Geocoder.json → result Geocoder.json) : result Geocoder.json :=
  has1 ← Geocoder.py_in k1 v;
  has2 ← (if has1 : bool
          then x ← Geocoder.getitem v k1; Geocoder.py_in k2 x
          else Ok false);
  if has2 : bool then
    x ← Geocoder.getitem v k1;
    y ← Geocoder.getitem x k2;
    K y
  else Ok Geocoder.JNull.

Definition first_item (v : Geocoder.json)
    (K : Geocoder.json → result Geocoder.json) : result Geocoder.json :=
  some ← Geocoder.nonempty v;
  if some : bool then x ← Geocoder.getitem0 v; K x else Ok Geocoder.JNull.

(** The columns that the pipeline reads. *)
Definition required_columns : list string :=
  ["StreetAddress"; "City"; "State"; "Zipcode"; "CountyName"].

Definition has_columns (df : DataFrame) (names : list string) : bool :=
  forallb (λ c, bool_decide (c ∈ columns df)) names.

(** The county cell of a row, as [df['CountyName']] lists it. *)
Definition county_of (r : Row) : cell := default NaN (r !! "CountyName").

(** [only_county sel f f']: frame [f'] has the columns and the number of
    rows of [f]; each row differs from the row of [f] at most in its county
    cell, and not at all outside the positions in [sel]. *)
Definition only_county (sel : nat → Prop) (f f' : DataFrame) : Prop :=
  columns f' = columns f ∧
  length (rows f') = length (rows f) ∧
  ∀ i (r : Row), rows f !! i = Some r →
    ∃ r' : Row, rows f' !! i = Some r' ∧
      (∀ c, c ≠ "CountyName" → r' !! c = r !! c) ∧
      (¬ sel i → r' = r).

(** The four address cells of a row are there. *)
Definition has_address (row : Row) : Prop :=
  is_Some (row !! "StreetAddress") ∧ is_Some (row !! "City") ∧
  is_Some (row !! "State") ∧ is_Some (row !! "Zipcode").

(** The price cell of a row, as [df['Price']] lists it. *)
Definition price_of (r : Row) : cell := default NaN (r !! "Price").

(** The counters after a successful and after a failed lookup. *)
Definition count_geocoded (st : DataProcessor.Stats) : DataProcessor.Stats :=
  DataProcessor.mkStats (DataProcessor.total st) (DataProcessor.needs_geocoding st)
    (DataProcessor.geocoded st + 1) (DataProcessor.failed st)
    (DataProcessor.already_had_county st).

Definition count_failed (st : DataProcessor.Stats) : DataProcessor.Stats :=
  DataProcessor.mkStats (DataProcessor.total st) (DataProcessor.needs_geocoding st)
    (DataProcessor.geocoded st) (DataProcessor.failed st + 1)
    (DataProcessor.already_had_county st).

(** The state after the steps of the loop that follow [process_row]: the
    wait and the optional callback, which touch the world only. *)
Definition after_row {World : Type} (wait : World → World)
    (progress_callback : option (nat → nat → World → World))
    (progress_num total_to_process : nat)
    (s : @DataProcessor.State World) : @DataProcessor.State World :=
  DataProcessor.mkState
    (match progress_callback with
     | Some callback => callback progress_num total_to_process (wait (DataProcessor.world s))
     | None => wait (DataProcessor.world s)
     end) (DataProcessor.stats s) (DataProcessor.frame s).

(** The number of rows that [identify_missing_counties] selects. *)
Definition selected_count (df : DataFrame) : Z :=
  Z.of_nat (length (filter (λ r : Row,
    DataProcessor.needs_geocoding_mask (county_of r) = true) (rows df))).

(** The number of rows whose county cell is null. *)
Definition null_count (df : DataFrame) : Z :=
  Z.of_nat (length (filter (λ r : Row, isna (county_of r) = true) (rows df))).

(** ** Sample data *)

Module Sample.
Import Geocoder.

(** A response of the expected shape whose first county is [county]. *)
Definition response_with (county : gmap string json) : json :=
  JObj {[ "result" :=
    JObj {[ "addressMatches" :=
      JArr [ JObj {[ "geographies" :=
        JObj {[ "Counties" := JArr [ JObj county ] ]} ]} ] ]} ]}.

Definition fulton : json := response_with {[ "NAME" := JStr "Fulton County" ]}.
Definition nameless : json := response_with ∅.

(** A network that answers every request with [status] and [data]. *)
Definition answering (status : Z) (data : json) : list (string * cell) → api_outcome :=
  λ _, Responded status (Some data).

Definition street : cell := Str "55 Trinity Ave SW".
Definition city : cell := Str "Atlanta".
Definition state : cell := Str "GA".
Definition zipcode : cell := Str "30303".

(** A property record with the given county cell, and frames of such
    records. *)
Definition header : list string :=
  ["StreetAddress"; "City"; "State"; "Zipcode"; "CountyName"].

Definition property (county : cell) : Row :=
  list_to_map [ ("StreetAddress", street); ("City", city); ("State", state);
                ("Zipcode", zipcode); ("CountyName", county) ].

Definition properties (counties : list cell) : DataFrame :=
  mkDataFrame header (property <$> counties).

(** A geocoder stub that answers every lookup with [answer] and has no
    state, and the wait of such a stub. *)
Definition always (answer : option string)
  : cell → cell → cell → cell → unit → option string * unit :=
  λ _ _ _ _ w, (answer, w).

Definition no_wait : unit → unit := λ w, w.

(** The three-row data set of the specification's scenarios. *)
Definition three_rows : DataFrame := properties [Str "Fulton"; Str ""; Str "UNKNOWN"].

End Sample.

(** ** Further definitions: observing and summarising a run *)

(** The address cells that [process_row] reads from a row and hands to the
    geocoder. *)
Definition address_of (r : Row) : cell * cell * cell * cell :=
  (default NaN (r !! "StreetAddress"), default NaN (r !! "City"),
   default NaN (r !! "State"), default NaN (r !! "Zipcode")).

(** The first of the four address columns that a row lacks, in the order in
    which [process_row] reads them. *)
Definition first_missing (row : Row) : option string :=
  List.find (λ k, bool_decide (row !! k = None))
            ["StreetAddress"; "City"; "State"; "Zipcode"].

(** A geocoder whose answer depends on the address alone and that has no
    state of its own. *)
Definition stateless {World : Type} (f : cell → cell → cell → cell → option string)
  : cell → cell → cell → cell → World → option string * World :=
  λ a b c d w, (f a b c d, w).

(** The answer of such a geocoder for a row. *)
Definition answer_for (f : cell → cell → cell → cell → option string) (r : Row)
  : option string :=
  let '(a, b, c, d) := address_of r in f a b c d.

(** What a run with such a geocoder does to one row: a selected row with a
    usable answer gets the answer as its county, every other row stays. *)
Definition enrich_row (f : cell → cell → cell → cell → option string) (r : Row) : Row :=
  if DataProcessor.needs_geocoding_mask (county_of r) && DataProcessor.truthy (answer_for f r)
  then <["CountyName" := Str (default "" (answer_for f r))]> r
  else r.

(** The rows that a run selects. *)
Definition selected_rows (df : DataFrame) : list Row :=
  filter (λ r : Row, DataProcessor.needs_geocoding_mask (county_of r) = true) (rows df).

(** Among the selected rows, those for which such a geocoder has a usable
    answer, and those for which it has none. *)
Definition answered_count (f : cell → cell → cell → cell → option string)
    (df : DataFrame) : Z :=
  Z.of_nat (length (filter (λ r : Row, DataProcessor.truthy (answer_for f r) = true)
                           (selected_rows df))).

Definition unanswered_count (f : cell → cell → cell → cell → option string)
    (df : DataFrame) : Z :=
  Z.of_nat (length (filter (λ r : Row, DataProcessor.truthy (answer_for f r) = false)
                           (selected_rows df))).

(** The first of the four address columns that a frame lacks. *)
Definition first_missing_column (df : DataFrame) : option string :=
  List.find (λ k, bool_decide (k ∉ columns df))
            ["StreetAddress"; "City"; "State"; "Zipcode"].

(** A record of what a run asks of the outside: the addresses looked up,
    the number of waits, and the calls of the progress callback. *)
Record Trace := mkTrace {
  lookups : list (cell * cell * cell * cell);
  waits : nat;
  progress : list (nat * nat)
}.

Definition traced_geocoder {W : Type}
    (g : cell → cell → cell → cell → W → option string * W)
  : cell → cell → cell → cell → W * Trace → option string * (W * Trace) :=
  λ a b c d wt,
    let '(county, w) := g a b c d wt.1 in
    (county, (w, mkTrace (lookups wt.2 ++ [(a, b, c, d)]) (waits wt.2) (progress wt.2))).

Definition traced_wait {W : Type} (wait : W → W) : W * Trace → W * Trace :=
  λ wt, (wait wt.1, mkTrace (lookups wt.2) (S (waits wt.2)) (progress wt.2)).

Definition traced_callback {W : Type} : nat → nat → W * Trace → W * Trace :=
  λ current total wt,
    (wt.1, mkTrace (lookups wt.2) (waits wt.2) (progress wt.2 ++ [(current, total)])).

(** ** examples.py: the caching geocoder of [example_6_custom_geocoder] *)

Module Examples.
Import Geocoder.

(** The cache of a [CustomGeocoder] and the requests that have gone out
    through it. *)
Record Cached := mkCached {
  cache : gmap string json;
  sent : list (list (string * cell))
}.

(** [f"{street_address}|{city}|{state}|{zipcode}"] *)
Definition cache_key (street_address city state zipcode : cell) : string :=
  astype_str street_address +:+ "|" +:+ astype_str city +:+ "|"
  +:+ astype_str state +:+ "|" +:+ astype_str zipcode.

(** [super().geocode_address(...)]: one request goes out, answered by the
    network according to the requests sent before it.  The example runs
    on a console that takes every line. *)
Definition census_lookup
    (http : list (list (string * cell)) → list (string * cell) → api_outcome)
    (street_address city state zipcode : cell)
    (sent : list (list (string * cell)))
  : result json * list (list (string * cell)) :=
  (geocode_address succeeds (http sent) street_address city state zipcode,
   (sent ++ [params street_address city state zipcode])%list).

(** [CustomGeocoder.geocode_address] *)
Definition cached_geocode_address
    (http : list (list (string * cell)) → list (string * cell) → api_outcome)
    (street_address city state zipcode : cell) (s : Cached) : result json * Cached :=
  let cache_key := cache_key street_address city state zipcode in
  match cache s !! cache_key with
  | Some hit => (Ok hit, s)
  | None =>
      match census_lookup http street_address city state zipcode (sent s) with
      | (Ok result_, sent') => (Ok result_, mkCached (<[cache_key := result_]> (cache s)) sent')
      | (Raise e, sent') => (Raise e, mkCached (cache s) sent')
      end
  end.

(** A series of lookups through one caching geocoder, as in the example;
    the answers come back in order. *)
Fixpoint cached_lookups
    (http : list (list (string * cell)) → list (string * cell) → api_outcome)
    (addresses : list (cell * cell * cell * cell)) (s : Cached)
  : result (list json) * Cached :=
  match addresses with
  | [] => (Ok [], s)
  | (a, b, c, d) :: rest =>
      match cached_geocode_address http a b c d s with
      | (Ok v, s') =>
          match cached_lookups http rest s' with
          | (Ok vs, s'') => (Ok (v :: vs), s'')
          | (Raise e, s'') => (Raise e, s'')
          end
      | (Raise e, s') => (Raise e, s')
      end
  end.

End Examples.

(** The cache key and the query of an address given as one value. *)
Definition address_key (address : cell * cell * cell * cell) : string :=
  let '(a, b, c, d) := address in Examples.cache_key a b c d.

Definition address_params (address : cell * cell * cell * cell) : list (string * cell) :=
  let '(a, b, c, d) := address in Geocoder.params a b c d.

(** The distinct cache keys of a series of addresses. *)
Definition distinct_keys (addresses : list (cell * cell * cell * cell)) : gset string :=
  list_to_set (address_key <$> addresses).

(** ** utils.py: the frequency tables of [analyze_csv] and the command line *)

Module Reports.

(** [series.value_counts().to_dict()]: the values that are not null, each
    with the number of its occurrences.  The order of the entries is not
    modelled. *)
Definition value_counts (col : list cell) : gmap string nat :=
  foldr (λ v (m : gmap string nat),
           match v with
           | Str s => <[s := S (default 0%nat (m !! s))]> m
           | NaN => m
           end) ∅ col.

(** The keys [counties], [missing_county] and [property_types] of the
    dictionary of [analyze_csv], computed in the order of the source, which
    reads the columns [City] and [Zipcode] in between ([KeyError] when one
    is not there).  The tables of the ten most frequent cities and zip
    codes are not modelled, nor are the price statistics: the model is for
    frames without a [Price] column. *)
Record Tables := mkTables {
  total_properties : Z;
  counties : gmap string nat;
  missing_county : Z;
  property_types : gmap string nat
}.

Definition analyze_csv_tables (df : DataFrame) : result Tables :=
  county ← getcol df "CountyName";
  _ ← getcol df "City";
  _ ← getcol df "Zipcode";
  types ← (if bool_decide ("HomeType" ∈ columns df)
           then home_type ← getcol df "HomeType"; Ok (value_counts home_type)
           else Ok ∅);
  Ok (mkTables (len df) (value_counts county) (sum_true (isna <$> county)) types).

End Reports.

Module Cli.

(** What the script ends up doing: which function it calls on which
    paths, or which text it prints. *)
Inductive action :=
  | PrintHelp
  | PrintUsageAnalyze
  | PrintUsageCompare
  | GenerateReport (filepath : string)
  | CompareCsvs (original updated : string).

(** [sys.argv[i]] *)
Definition argv_at (argv : list string) (i : nat) : result string :=
  match argv !! i with
  | Some a => Ok a
  | None => Raise IndexError
  end.

(** [cli_analyze] *)
Definition cli_analyze (argv : list string) : result action :=
  if (length argv <? 2)%nat then Ok PrintUsageAnalyze
  else filepath ← argv_at argv 1; Ok (GenerateReport filepath).

(** [cli_compare] *)
Definition cli_compare (argv : list string) : result action :=
  if (length argv <? 3)%nat then Ok PrintUsageCompare
  else
    original ← argv_at argv 2;
    updated ← argv_at argv 3;
    Ok (CompareCsvs original updated).

(** The block under [if __name__ == "__main__"] of utils.py *)
Definition main (argv : list string) : result action :=
  if (1 <? length argv)%nat then
    command ← argv_at argv 1;
    if String.eqb command "compare" then cli_compare argv else cli_analyze argv
  else Ok PrintHelp.

End Cli.

(** ** config.py *)

Module Config.

(** The two ways in which [Config()] raises [ValueError]: [float] rejects
    the text of the delay, or [_validate] finds no endpoint. *)
Inductive ValueError :=
  | could_not_convert (text : string)
  | census_url_not_found.

Record Config := mkConfig {
  census_url : option string;
  fulton_county_url : option string;
  dekalb_county_url : option string;
  mongo_uri : option string;
  db_name : option string;
  collection_name : option string;
  api_delay : float
}.

Section Load.

(** Python's [float(text)]: the number that the text denotes, if it
    denotes one. *)
Variable float_of_text : string → option float.

(** [Config._validate]: [not self.census_url] holds for [None] and for the
    empty text. *)
Definition _validate (census_url : option string) : ValueError + unit :=
  match census_url with
  | None => inl census_url_not_found
  | Some url => if String.eqb url "" then inl census_url_not_found else inr tt
  end.

(** [Config.__init__], given the environment as it is after
    [load_dotenv()]. *)
Definition init (env : gmap string string) : ValueError + Config :=
  let delay_text := default "0.5" (env !! "API_DELAY") in
  match float_of_text delay_text with
  | None => inl (could_not_convert delay_text)
  | Some delay =>
      match _validate (env !! "CENSUS_URL") with
      | inl e => inl e
      | inr _ =>
          inr (mkConfig (env !! "CENSUS_URL") (env !! "FULTON_COUNTY_URL")
                        (env !! "DEALB_COUNTY_URL") (env !! "MONGO_URI")
                        (env !! "DB_NAME") (env !! "COLLECTION_NAME") delay)
      end
  end.

(** [Config.get_census_url] and [Config.get_api_delay] *)
Definition get_census_url (c : Config) : option string := census_url c.
Definition get_api_delay (c : Config) : float := api_delay c.

End Load.

End Config.

(** ** More sample data *)

Module Demo.

(** The character database cut down to ASCII and the two characters
    U+0130 and U+0307; every other character is taken as caseless. *)
Definition latin : PyStr.Unicode :=
  PyStr.mkUnicode
    (λ c, match c with
          | String a EmptyString => String (PyStr.lower_char a) EmptyString
          | _ => if String.eqb c capital_I_with_dot
                 then "i" +:+ combining_dot_above else c
          end)
    (λ c, match c with
          | String a EmptyString => String (PyStr.upper_char a) EmptyString
          | _ => c
          end)
    (λ c, match c with
          | String a EmptyString => PyStr.is_cased a
          | _ => String.eqb c capital_I_with_dot
          end)
    (λ c, String.eqb c combining_dot_above
          || existsb (String.eqb c) ["'"; "."; ":"; "^"; "`"]).

(** A frame with one street address, and a Turkish address in capitals
    with its two normal forms. *)
Definition one_address (address : string) : DataFrame :=
  mkDataFrame ["StreetAddress"] [ {[ "StreetAddress" := Str address ]} ].

Definition DIYARBAKIR_CAD : string := "D" +:+ capital_I_with_dot +:+ "YARBAKIR CAD".
Definition Diyarbakir_Cad : string := "Di" +:+ combining_dot_above +:+ "yarbakir Cad".
Definition DiYarbakir_Cad : string := "Di" +:+ combining_dot_above +:+ "Yarbakir Cad".

(** A console whose encoding is ASCII: [print] raises on a line with
    another character.  The text of the exception in the line is taken to
    be ASCII. *)
Definition ascii_console : message → result unit :=
  λ line,
    let text := match line with
                | Error_geocoding street_address _
                | Unexpected_error_for street_address _ => astype_str street_address
                | Created filename _ => filename
                end in
    if is_ascii text then Ok tt else Raise UnicodeEncodeError.

(** Listings with a price, and aggregates that come out as one dollar
    whatever the column. *)
Definition listing (county price : cell) : Row :=
  <["Price" := price]> (Sample.property county).

Definition listings : DataFrame :=
  mkDataFrame (Sample.header ++ ["Price"])%list
              [ listing NaN (Str "1"); listing (Str "UNKNOWN") (Str "1") ].

Definition one_dollar : list cell → result Utils.PriceStats :=
  λ _, Ok (Utils.mkPriceStats 1 1 1 1).

(** An output directory without subdirectories: a file can be created in
    it unless its name, after the directory, has a slash. *)
Definition flat (output_dir : string) : string → result unit :=
  λ filename,
    if PyStr.contains "/" (String.substring (S (String.length output_dir))
                                            (String.length filename) filename)
    then Raise OSError else Ok tt.

(** A frame of contacts: an address and a phone number per row. *)
Definition contact (address phone : cell) : Row :=
  list_to_map [ ("StreetAddress", address); ("BrokerPhoneNumber", phone) ].

Definition contacts : DataFrame :=
  mkDataFrame ["StreetAddress"; "BrokerPhoneNumber"]
              [ contact (Str "  12 oak st  ") (Str "(404) 555-0100");
                contact NaN NaN ].

(** Records without a street address column, with the given counties. *)
Definition streetless (county : cell) : Row :=
  list_to_map [ ("City", Sample.city); ("State", Sample.state);
                ("Zipcode", Sample.zipcode); ("CountyName", county) ].

Definition no_street (counties : list cell) : DataFrame :=
  mkDataFrame ["City"; "State"; "Zipcode"; "CountyName"] (streetless <$> counties).

(** The geocoder stub of the scenarios as a function of the address. *)
Definition DeKalb : cell → cell → cell → cell → option string :=
  λ _ _ _ _, Some "DeKalb".

(** A network that is down. *)
Definition offline : list (list (string * cell)) → list (string * cell) → Geocoder.api_outcome :=
  λ _ _, Geocoder.NoConnection.

(** A reading of delays that knows the default. *)
Definition half_second : string → option float :=
  λ text, if String.eqb text "0.5" then Some 0.5%float else None.

Definition environment : gmap string string :=
  {[ "CENSUS_URL" := "https://geocoding.geo.census.gov/geocoder/geographies/address" ]}.

End Demo.

(* ===================================================================== *)
(** * Properties *)
(* ===================================================================== *)

(** ** Characters and strings *)

Section StringFacts.
Import PyStr.

Local Ltac by_cases_on_char c :=
  destruct c as [[] [] [] [] [] [] [] []]; vm_compute; try reflexivity; try congruence.

Lemma is_space_upper_char c : is_space (upper_char c) = is_space c.
Proof. by_cases_on_char c. Qed.

Lemma is_space_lower_char c : is_space (lower_char c) = is_space c.
Proof. by_cases_on_char c. Qed.

Lemma is_cased_upper_char c : is_cased (upper_char c) = is_cased c.
Proof. by_cases_on_char c. Qed.

Lemma is_cased_lower_char c : is_cased (lower_char c) = is_cased c.
Proof. by_cases_on_char c. Qed.

Lemma upper_char_idemp c : upper_char (upper_char c) = upper_char c.
Proof. by_cases_on_char c. Qed.

Lemma lower_char_idemp c : lower_char (lower_char c) = lower_char c.
Proof. by_cases_on_char c. Qed.

Lemma space_not_cased c : is_space c = true → is_cased c = false.
Proof. by_cases_on_char c. Qed.

Lemma upper_char_space c : is_space c = true → upper_char c = c.
Proof. by_cases_on_char c. Qed.

(** The character chosen by [ascii_title_from] keeps the class of the
    one it replaces. *)
Lemma is_space_title_char b c : is_space (title_char b c) = is_space c.
Proof. destruct b; [apply is_space_lower_char | apply is_space_upper_char]. Qed.

Lemma is_cased_title_char b c : is_cased (title_char b c) = is_cased c.
Proof. destruct b; [apply is_cased_lower_char | apply is_cased_upper_char]. Qed.

Lemma title_char_idemp b c : title_char b (title_char b c) = title_char b c.
Proof. destruct b; [apply lower_char_idemp | apply upper_char_idemp]. Qed.

Lemma title_from_cons b c s :
  ascii_title_from b (String c s) = String (title_char b c) (ascii_title_from (is_cased c) s).
Proof. reflexivity. Qed.

Lemma title_from_idemp s : ∀ b, ascii_title_from b (ascii_title_from b s) = ascii_title_from b s.
Proof.
  induction s as [|c s IH]; intros b; [reflexivity|].
  rewrite !title_from_cons, title_char_idemp, is_cased_title_char.
  by rewrite IH.
Qed.

Lemma lstrip_title s : lstrip (ascii_title s) = ascii_title (lstrip s).
Proof.
  unfold ascii_title. induction s as [|c s IH]; [reflexivity|].
  rewrite title_from_cons. cbn [lstrip]. rewrite is_space_title_char.
  destruct (is_space c) eqn:Hc.
  - by rewrite (space_not_cased c Hc).
  - by rewrite title_from_cons.
Qed.

Lemma rstrip_title_from s : ∀ b, rstrip (ascii_title_from b s) = ascii_title_from b (rstrip s).
Proof.
  induction s as [|c s IH]; intros b; [reflexivity|].
  rewrite title_from_cons. cbn [rstrip]. rewrite IH.
  destruct (rstrip s) as [|d r]; cbn [ascii_title_from].
  - rewrite is_space_title_char. by destruct (is_space c).
  - reflexivity.
Qed.

Lemma strip_title s : strip (ascii_title s) = ascii_title (strip s).
Proof. unfold strip. rewrite lstrip_title. apply rstrip_title_from. Qed.

Lemma rstrip_idemp s : rstrip (rstrip s) = rstrip s.
Proof.
  induction s as [|c s IH]; [reflexivity|].
  cbn [rstrip]. destruct (rstrip s) as [|d r] eqn:Hr.
  - destruct (is_space c) eqn:Hc; [reflexivity|]. cbn. by rewrite Hc.
  - cbn [rstrip] in *. by rewrite IH.
Qed.

(** A text without leading white space keeps that property when trailing
    white space goes. *)
Lemma lstrip_rstrip_fixed s : lstrip s = s → lstrip (rstrip s) = rstrip s.
Proof.
  destruct s as [|c s]; [reflexivity|].
  cbn [lstrip rstrip]. destruct (is_space c) eqn:Hc.
  - intros H. exfalso.
    assert (String.length (lstrip s) ≤ String.length s)%nat as Hle.
    { clear. induction s as [|d s IH]; cbn; [lia|]. destruct (is_space d); cbn; lia. }
    rewrite H in Hle. cbn in Hle. lia.
  - intros _. destruct (rstrip s); cbn; by rewrite Hc.
Qed.

Lemma lstrip_idemp s : lstrip (lstrip s) = lstrip s.
Proof.
  induction s as [|c s IH]; [reflexivity|].
  cbn [lstrip]. destruct (is_space c) eqn:Hc; [exact IH|]. cbn. by rewrite Hc.
Qed.

Lemma strip_idemp s : strip (strip s) = strip s.
Proof.
  unfold strip.
  rewrite (lstrip_rstrip_fixed (lstrip s)) by apply lstrip_idemp.
  apply rstrip_idemp.
Qed.

Lemma title_strip_idemp s : ascii_title (strip (ascii_title (strip s))) = ascii_title (strip s).
Proof.
  rewrite <- (strip_title s), strip_idemp, strip_title.
  apply title_from_idemp.
Qed.

Lemma filter_chars_idemp p s : filter_chars p (filter_chars p s) = filter_chars p s.
Proof.
  induction s as [|c s IH]; [reflexivity|].
  cbn. destruct (p c) eqn:Hc; [|exact IH]. cbn. by rewrite Hc, IH.
Qed.

Lemma upper_empty s : upper s = "" ↔ s = "".
Proof. destruct s; cbn; split; congruence. Qed.

Lemma lstrip_upper s : lstrip (upper s) = upper (lstrip s).
Proof.
  unfold upper. induction s as [|c s IH]; [reflexivity|].
  cbn [map_chars lstrip]. rewrite is_space_upper_char.
  destruct (is_space c); [exact IH | reflexivity].
Qed.

Lemma rstrip_upper s : rstrip (upper s) = upper (rstrip s).
Proof.
  unfold upper. induction s as [|c s IH]; [reflexivity|].
  cbn [map_chars rstrip]. rewrite IH.
  destruct (rstrip s) as [|d r]; cbn [map_chars].
  - rewrite is_space_upper_char. by destruct (is_space c).
  - reflexivity.
Qed.

Lemma strip_upper s : strip (upper s) = upper (strip s).
Proof. unfold strip. by rewrite lstrip_upper, rstrip_upper. Qed.

Lemma length_map_chars f s : String.length (map_chars f s) = String.length s.
Proof. induction s as [|c s IH]; cbn; congruence. Qed.

Lemma lstrip_length_le s : (String.length (lstrip s) ≤ String.length s)%nat.
Proof. induction s as [|c s IH]; cbn; [lia|]. destruct (is_space c); cbn; lia. Qed.

Lemma rstrip_length_le s : (String.length (rstrip s) ≤ String.length s)%nat.
Proof.
  induction s as [|c s IH]; cbn; [lia|].
  destruct (rstrip s); [destruct (is_space c)|]; cbn in *; lia.
Qed.

Lemma lstrip_same_length s : String.length (lstrip s) = String.length s → lstrip s = s.
Proof.
  destruct s as [|c s]; [done|]. cbn. destruct (is_space c); [|done].
  pose proof (lstrip_length_le s). lia.
Qed.

Lemma rstrip_same_length s : String.length (rstrip s) = String.length s → rstrip s = s.
Proof.
  induction s as [|c s IH]; [done|]. cbn.
  pose proof (rstrip_length_le s) as Hle.
  destruct (rstrip s) as [|d r] eqn:Hr.
  - destruct (is_space c); cbn in *; [lia|].
    intros [= Hlen]. destruct s; [done|cbn in Hlen; lia].
  - cbn in *. intros [= Hlen]. by rewrite IH.
Qed.

Lemma strip_same_length s : String.length (strip s) = String.length s → strip s = s.
Proof.
  unfold strip. intros H.
  pose proof (lstrip_length_le s). pose proof (rstrip_length_le (lstrip s)).
  assert (lstrip s = s) as Hl by (apply lstrip_same_length; lia).
  rewrite Hl in *. by apply rstrip_same_length.
Qed.

(** *** ASCII text under the character database *)

Lemma is_ascii_app s t : is_ascii (s +:+ t) = is_ascii s && is_ascii t.
Proof.
  induction s as [|c s IH]; [done|].
  change (String c s +:+ t) with (String c (s +:+ t)). cbn [is_ascii].
  by rewrite IH, andb_assoc.
Qed.

Lemma is_ascii_lstrip s : is_ascii s = true → is_ascii (lstrip s) = true.
Proof.
  induction s as [|c s IH]; [done|]. cbn [lstrip].
  destruct (is_space c); [|done].
  cbn [is_ascii]. intros [_ H]%andb_true_iff. by apply IH.
Qed.

Lemma is_ascii_rstrip s : is_ascii s = true → is_ascii (rstrip s) = true.
Proof.
  induction s as [|c s IH]; [done|]. cbn [is_ascii rstrip].
  intros [Hc Hs]%andb_true_iff. specialize (IH Hs).
  destruct (rstrip s) as [|d r].
  - destruct (is_space c); [done|]. cbn. by rewrite Hc.
  - cbn [is_ascii] in *. by rewrite Hc, IH.
Qed.

Lemma is_ascii_strip s : is_ascii s = true → is_ascii (strip s) = true.
Proof. intros H. unfold strip. by apply is_ascii_rstrip, is_ascii_lstrip. Qed.

Lemma code_title_char b c : (code c <? 128)%N = true → (code (title_char b c) <? 128)%N = true.
Proof. by_cases_on_char c; destruct b; vm_compute; congruence. Qed.

Lemma is_ascii_title_from s : ∀ b,
  is_ascii s = true → is_ascii (ascii_title_from b s) = true.
Proof.
  induction s as [|c s IH]; intros b; [done|].
  cbn [is_ascii ascii_title_from]. intros [Hc Hs]%andb_true_iff.
  by rewrite code_title_char, IH.
Qed.

(** An ASCII text is cut into its bytes. *)
Lemma chars_ascii s :
  is_ascii s = true →
  chars s = (λ c, String c EmptyString) <$> String.list_ascii_of_string s.
Proof.
  induction s as [|c s IH]; [done|].
  cbn [is_ascii]. intros [Hc Hs]%andb_true_iff.
  cbn [chars String.list_ascii_of_string fmap list_fmap]. rewrite (IH Hs).
  assert (continues s = false) as ->; [|done].
  destruct s as [|d s]; [done|].
  cbn [is_ascii] in Hs. apply andb_true_iff in Hs as [Hd _].
  unfold continues, is_continuation. apply N.ltb_lt in Hd.
  apply andb_false_iff. left. apply N.leb_gt. lia.
Qed.

Lemma single_not_sigma c : String.eqb (String c EmptyString) capital_sigma = false.
Proof. unfold capital_sigma. cbn. by destruct (Ascii.eqb c _). Qed.

(** Under the rules of ASCII, [title] computes on ASCII text what
    [ascii_title] writes out. *)
Lemma title_from_ascii u l : ∀ before b,
  ascii_rules u →
  Forall (λ c, (code c < 128)%N) l →
  String.concat "" (title_from u before b ((λ c, String c EmptyString) <$> l))
  = ascii_title_from b (String.string_of_list_ascii l).
Proof.
  induction l as [|c l IH]; intros before b Hu Hl; [done|].
  apply Forall_cons in Hl as [Hc Hl].
  destruct (Hu c Hc) as (Hlow & Htit & Hcased).
  cbn [fmap list_fmap title_from String.string_of_list_ascii ascii_title_from].
  unfold lower_at. rewrite single_not_sigma, Hlow, Htit, Hcased.
  assert (∀ x xs, String.concat "" (x :: xs) = x +:+ String.concat "" xs) as Hcat.
  { intros x [|y xs]; cbn [String.concat]; [|done].
    clear. induction x as [|a x IHx]; [done|].
    change (String a x +:+ "") with (String a (x +:+ "")). by rewrite <- IHx. }
  rewrite Hcat.
  change (list_fmap ascii string (λ c0, String c0 EmptyString) l)
    with ((λ c0, String c0 EmptyString) <$> l).
  rewrite (IH _ _ Hu Hl). unfold title_char. by destruct b.
Qed.

Lemma is_ascii_Forall s :
  is_ascii s = true → Forall (λ c, (code c < 128)%N) (String.list_ascii_of_string s).
Proof.
  induction s as [|c s IH]; [constructor|].
  cbn [is_ascii]. intros [Hc Hs]%andb_true_iff.
  constructor; [by apply N.ltb_lt | by apply IH].
Qed.

Lemma title_ascii u s :
  ascii_rules u → is_ascii s = true → title u s = ascii_title s.
Proof.
  intros Hu Hs. unfold title, ascii_title.
  rewrite (chars_ascii _ Hs), (title_from_ascii u _ [] false Hu (is_ascii_Forall _ Hs)).
  by rewrite String.string_of_list_ascii_of_string.
Qed.

(** On an ASCII address, trimming and title-casing a second time changes
    nothing. *)
Lemma title_strip_ascii u s :
  ascii_rules u → is_ascii s = true →
  title u (strip s) = ascii_title (strip s) ∧
  is_ascii (title u (strip s)) = true ∧
  strip (title u (strip s)) = title u (strip s) ∧
  title u (title u (strip s)) = title u (strip s).
Proof.
  intros Hu Hs.
  assert (is_ascii (strip s) = true) as Hs' by by apply is_ascii_strip.
  rewrite (title_ascii u _ Hu Hs').
  assert (is_ascii (ascii_title (strip s)) = true) as Ht by by apply is_ascii_title_from.
  split_and!; [done|done| |].
  - by rewrite strip_title, strip_idemp.
  - rewrite (title_ascii u _ Hu Ht). apply title_from_idemp.
Qed.

End StringFacts.

(** ** The needs-geocoding predicates *)

Section NeedsGeocoding.
Import PyStr DataProcessor.

Lemma string_eqb_true (a b : string) : String.eqb a b = true ↔ a = b.
Proof. apply String.eqb_eq. Qed.

(** The helper method: null, or blank or the sentinel once trimmed. *)
Lemma _needs_geocoding_true v :
  _needs_geocoding v = true ↔
  v = NaN ∨ ∃ s, v = Str s ∧ (strip s = "" ∨ upper (strip s) = "UNKNOWN").
Proof.
  destruct v as [|s]; unfold _needs_geocoding; cbn [isna astype_str].
  - split; [by left | done].
  - rewrite orb_true_iff, !string_eqb_true, upper_empty.
    split.
    + intros H. right. by exists s.
    + intros [? | (s' & [= <-] & H)]; done.
Qed.

(** The series built by [identify_missing_counties]: null, or blank once
    trimmed, or the sentinel as it stands. *)
Lemma needs_geocoding_mask_true v :
  needs_geocoding_mask v = true ↔
  v = NaN ∨ ∃ s, v = Str s ∧ (strip s = "" ∨ upper s = "UNKNOWN").
Proof.
  destruct v as [|s]; unfold needs_geocoding_mask; cbn [isna astype_str orb].
  - split; [by left | done].
  - rewrite orb_true_iff, !string_eqb_true.
    split.
    + intros H. right. by exists s.
    + intros [? | (s' & [= <-] & H)]; done.
Qed.

(** A text that upper-cases to the sentinel has no white space to trim. *)
Lemma upper_unknown_strip s : upper s = "UNKNOWN" → strip s = s.
Proof.
  intros H.
  assert (strip (upper s) = upper s) as Hs by (rewrite H; reflexivity).
  rewrite strip_upper in Hs. unfold upper in Hs.
  apply strip_same_length.
  by rewrite <- (length_map_chars upper_char (strip s)), <- (length_map_chars upper_char s), Hs.
Qed.

(** Every row that the pipeline selects is also one the helper accepts. *)
Lemma needs_geocoding_mask_implies v :
  needs_geocoding_mask v = true → _needs_geocoding v = true.
Proof.
  rewrite needs_geocoding_mask_true, _needs_geocoding_true.
  intros [-> | (s & -> & [H | H])]; [by left | right; exists s; auto |].
  right. exists s. split; [done|]. right. by rewrite upper_unknown_strip.
Qed.

(** The two disagree exactly on the sentinel wrapped in white space. *)
Lemma needs_geocoding_disagree v :
  _needs_geocoding v ≠ needs_geocoding_mask v ↔
  ∃ s, v = Str s ∧ upper (strip s) = "UNKNOWN" ∧ strip s ≠ s.
Proof.
  split.
  - intros Hne.
    destruct (_needs_geocoding v) eqn:H1, (needs_geocoding_mask v) eqn:H2; try done.
    + apply _needs_geocoding_true in H1 as [-> | (s & -> & [H | H])]; [done| |].
      * assert (needs_geocoding_mask (Str s) = true); [|congruence].
        apply needs_geocoding_mask_true. right. exists s. auto.
      * exists s. split_and!; [done..|]. intros Heq. rewrite Heq in H.
        assert (needs_geocoding_mask (Str s) = true); [|congruence].
        apply needs_geocoding_mask_true. right. exists s. auto.
    + apply needs_geocoding_mask_implies in H2. congruence.
  - intros (s & -> & Hu & Hs) Heq.
    assert (_needs_geocoding (Str s) = true) as H1.
    { apply _needs_geocoding_true. right. exists s. auto. }
    rewrite Heq in H1. apply needs_geocoding_mask_true in H1 as [? | (s' & [= <-] & [H | H])].
    + done.
    + rewrite H in Hu. done.
    + apply upper_unknown_strip in H. done.
Qed.

Example needs_geocoding_mask_samples :
  needs_geocoding_mask <$> [NaN; Str ""; Str "   "; Str "UNKNOWN"; Str "Unknown";
                            Str "Fulton"; Str " Fulton "; Str "nan"]
  = [true; true; true; true; true; false; false; false].
Proof. reflexivity. Qed.

(** C1: the helper [_needs_geocoding] and the selection of
    [identify_missing_counties] treat the sentinel ["UNKNOWN"] with
    white space around it differently: the helper trims before it
    compares and accepts it, the selection compares the text as it stands
    and rejects it. *)
Theorem needs_geocoding_padded_unknown :
  _needs_geocoding (Str " UNKNOWN ") = true ∧
  needs_geocoding_mask (Str " UNKNOWN ") = false.
Proof. split; reflexivity. Qed.

End NeedsGeocoding.

(** ** DataCleaner: the transforms are idempotent *)

Section Cleaning.
Import Utils.

Lemma columns_map_column name f df : columns (map_column name f df) = columns df.
Proof. reflexivity. Qed.

(** Rewriting a column twice with a function that is idempotent on the
    cells of the column is rewriting it once. *)
Lemma map_column_idemp_on name (f : cell → cell) df :
  (∀ (r : Row) v, r ∈ rows df → r !! name = Some v → f (f v) = f v) →
  map_column name f (map_column name f df) = map_column name f df.
Proof.
  intros Hf. unfold map_column. cbn [columns rows]. f_equal.
  rewrite <- list_fmap_compose. apply list_fmap_ext. intros i r Hr. cbn.
  rewrite alter_alter_eq. apply alter_ext. intros v Hv. apply (Hf r v); [|done].
  by eapply list_elem_of_lookup_2.
Qed.

Lemma map_column_idemp name (f : cell → cell) df :
  (∀ v, f (f v) = f v) →
  map_column name f (map_column name f df) = map_column name f df.
Proof. intros Hf. apply map_column_idemp_on. intros _ v _ _. apply Hf. Qed.

Lemma clean_phone_numbers_idemp df :
  clean_phone_numbers (clean_phone_numbers df) = clean_phone_numbers df.
Proof.
  unfold clean_phone_numbers.
  destruct (bool_decide ("BrokerPhoneNumber" ∈ columns df)) eqn:Hc.
  - rewrite columns_map_column, Hc.
    apply map_column_idemp. intros v. cbn [astype_str].
    unfold PyStr.remove_non_digits. by rewrite filter_chars_idemp.
  - by rewrite Hc.
Qed.

Lemma normalize_addresses_idemp u df :
  ascii_rules u → ascii_addresses df →
  normalize_addresses u (normalize_addresses u df) = normalize_addresses u df.
Proof.
  intros Hu Hdf. unfold normalize_addresses.
  destruct (bool_decide ("StreetAddress" ∈ columns df)) eqn:Hc.
  - rewrite columns_map_column, Hc.
    apply map_column_idemp_on. intros r [|s] Hr Hv; [done|].
    destruct (title_strip_ascii u s Hu (Hdf r s Hr Hv)) as (_ & _ & Hstrip & Htitle).
    by rewrite Hstrip, Htitle.
  - by rewrite Hc.
Qed.

(** The rules hold of the sample database, and the sample contacts have
    ASCII addresses. *)
Lemma latin_ascii_rules : ascii_rules Demo.latin.
Proof.
  intros c Hc. destruct c as [[] [] [] [] [] [] [] []]; vm_compute; try done.
Qed.

Lemma latin_dotted_I_rules : dotted_I_rules Demo.latin.
Proof. vm_compute. done. Qed.

Lemma contacts_ascii_addresses : ascii_addresses Demo.contacts.
Proof.
  intros r s Hr Hs. cbn in Hr.
  apply elem_of_cons in Hr as [-> | Hr].
  - vm_compute in Hs. by injection Hs as <-.
  - apply elem_of_cons in Hr as [-> | Hr]; [|by apply elem_of_nil in Hr].
    vm_compute in Hs. discriminate Hs.
Qed.

(** The address in capitals under any database that has the rules of
    ASCII and of the dotted capital I: the first normalisation puts the
    combining dot after the [i]; the second one takes the letter after
    the dot for the start of a word. *)
Lemma title_DIYARBAKIR_CAD u :
  ascii_rules u → dotted_I_rules u →
  PyStr.title u (PyStr.strip Demo.DIYARBAKIR_CAD) = Demo.Diyarbakir_Cad ∧
  PyStr.title u (PyStr.strip Demo.Diyarbakir_Cad) = Demo.DiYarbakir_Cad.
Proof.
  intros Hu (Hd1 & Hd2 & Hd3 & Hd4).
  unfold capital_I_with_dot, combining_dot_above in *. cbn in Hd2.
  assert (∀ c, (PyStr.code c <? 128)%N = true →
            PyStr.lower_full u (String c EmptyString) = String (PyStr.lower_char c) EmptyString ∧
            PyStr.title_full u (String c EmptyString) = String (PyStr.upper_char c) EmptyString ∧
            PyStr.cased u (String c EmptyString) = PyStr.is_cased c) as Hu'.
  { intros c Hc. apply Hu. by apply N.ltb_lt. }
  assert (PyStr.chars (PyStr.strip Demo.DIYARBAKIR_CAD)
          = ["D"; String "196" (String "176" EmptyString); "Y"; "A"; "R"; "B"; "A"; "K";
             "I"; "R"; " "; "C"; "A"; "D"]) as H1 by (vm_compute; reflexivity).
  assert (PyStr.chars (PyStr.strip Demo.Diyarbakir_Cad)
          = ["D"; "i"; String "204" (String "135" EmptyString); "y"; "a"; "r"; "b"; "a";
             "k"; "i"; "r"; " "; "C"; "a"; "d"]) as H2 by (vm_compute; reflexivity).
  unfold PyStr.title. rewrite H1, H2.
  cbn [PyStr.title_from]. unfold PyStr.lower_at.
  repeat match goal with
  | |- context [String.eqb ?a PyStr.capital_sigma] =>
      change (String.eqb a PyStr.capital_sigma) with false
  end.
  cbv iota.
  repeat match goal with
  | |- context [PyStr.lower_full u (String ?c EmptyString)] =>
      rewrite (proj1 (Hu' c eq_refl))
  | |- context [PyStr.title_full u (String ?c EmptyString)] =>
      rewrite (proj1 (proj2 (Hu' c eq_refl)))
  | |- context [PyStr.cased u (String ?c EmptyString)] =>
      rewrite (proj2 (proj2 (Hu' c eq_refl)))
  end.
  rewrite Hd1, Hd2, Hd3, Hd4.
  split; vm_compute; reflexivity.
Qed.

Lemma fill_items_rows items : ∀ df,
  fill_items df items = mkDataFrame (columns df) (fill_row (columns df) items <$> rows df).
Proof.
  induction items as [|[c d] items IH]; intros df.
  - unfold fill_items, fill_row. cbn. rewrite list_fmap_id. by destruct df.
  - unfold fill_items in *. cbn [foldl]. rewrite IH. clear IH.
    destruct (bool_decide (c ∈ columns df)) eqn:Hc.
    + cbn [map_column columns rows]. f_equal.
      rewrite <- list_fmap_compose. apply list_fmap_ext. intros _ r _.
      unfold fill_row. cbn. by rewrite Hc.
    + f_equal. apply list_fmap_ext. intros _ r _.
      unfold fill_row. cbn. by rewrite Hc.
Qed.

Lemma fill_missing_values_items df defaults :
  fill_missing_values df defaults = fill_items df (default [] defaults).
Proof. by destruct defaults as [[|]|]. Qed.

(** A cell that is not null stays as it is through any later fill. *)
Lemma fill_row_keeps cols items : ∀ (r : Row) c,
  r !! c ≠ Some NaN → fill_row cols items r !! c ≠ Some NaN.
Proof.
  induction items as [|[c' d] items IH]; intros r c Hr; [done|].
  unfold fill_row in *. cbn [foldl]. apply IH. cbn.
  destruct (bool_decide (c' ∈ cols)); [|done].
  rewrite lookup_alter. case_decide; [|done]. subst c'.
  destruct (r !! c) as [[|s]|]; done.
Qed.

(** After the fill no listed column of the frame holds a null. *)
Lemma fill_row_filled cols items : ∀ (r : Row) c d,
  (c, d) ∈ items → c ∈ cols → fill_row cols items r !! c ≠ Some NaN.
Proof.
  induction items as [|[c' d'] items IH]; intros r c d Hin Hc.
  - by apply elem_of_nil in Hin.
  - apply elem_of_cons in Hin as [[= <- <-] | Hin].
    + change (fill_row cols ((c, d) :: items) r)
        with (fill_row cols items
                (if bool_decide (c ∈ cols) then alter (fillna d) c r else r)).
      apply fill_row_keeps. rewrite bool_decide_eq_true_2 by done.
      rewrite lookup_alter_eq. destruct (r !! c) as [[|s]|]; done.
    + change (fill_row cols ((c', d') :: items) r)
        with (fill_row cols items
                (if bool_decide (c' ∈ cols) then alter (fillna d') c' r else r)).
      by eapply IH.
Qed.

(** A row with no null in the listed columns is left alone. *)
Lemma fill_row_fixed cols items : ∀ r : Row,
  (∀ c d, (c, d) ∈ items → c ∈ cols → r !! c ≠ Some NaN) →
  fill_row cols items r = r.
Proof.
  induction items as [|[c d] items IH]; intros r Hr; [done|].
  change (fill_row cols ((c, d) :: items) r)
    with (fill_row cols items
            (if bool_decide (c ∈ cols) then alter (fillna d) c r else r)).
  assert ((if bool_decide (c ∈ cols) then alter (fillna d) c r else r) = r) as ->.
  { case_bool_decide as Hc; [|done].
    apply map_eq. intros k. rewrite lookup_alter. case_decide; [|done]. subst k.
    specialize (Hr c d (list_elem_of_here _ _) Hc).
    destruct (r !! c) as [[|s]|]; done. }
  apply IH. intros c' d' Hin. apply (Hr c' d'). by apply list_elem_of_further.
Qed.

Lemma fill_missing_values_idemp df defaults :
  fill_missing_values (fill_missing_values df defaults) defaults
  = fill_missing_values df defaults.
Proof.
  rewrite !fill_missing_values_items, !fill_items_rows. cbn [columns rows].
  f_equal. rewrite <- list_fmap_compose. apply list_fmap_ext. intros _ r _. cbn.
  apply fill_row_fixed. intros c d Hin Hc. by eapply fill_row_filled.
Qed.

(** C7, as amended: stripping the non-digits of the phone numbers and
    filling null cells with defaults are idempotent on every frame;
    trimming and title-casing the street addresses is idempotent on every
    frame whose street addresses are ASCII text, under every character
    database that has the rules of ASCII. *)
Theorem DataCleaner_idempotent df defaults :
  Utils.clean_phone_numbers (Utils.clean_phone_numbers df)
    = Utils.clean_phone_numbers df ∧
  (∀ u, ascii_rules u → ascii_addresses df →
     Utils.normalize_addresses u (Utils.normalize_addresses u df)
       = Utils.normalize_addresses u df) ∧
  Utils.fill_missing_values (Utils.fill_missing_values df defaults) defaults
    = Utils.fill_missing_values df defaults.
Proof.
  split_and!.
  - apply clean_phone_numbers_idemp.
  - intros u. apply normalize_addresses_idemp.
  - apply fill_missing_values_idemp.
Qed.

Lemma DataCleaner_idempotent_witness :
  Utils.normalize_addresses Demo.latin (Utils.normalize_addresses Demo.latin Demo.contacts)
  = Utils.normalize_addresses Demo.latin Demo.contacts.
Proof.
  exact (proj1 (proj2 (DataCleaner_idempotent Demo.contacts None))
           Demo.latin latin_ascii_rules contacts_ascii_addresses).
Defined.

(** C7, as stated, fails for the street addresses: title-casing is not
    idempotent beyond ASCII.  Under every character database with the
    rules of ASCII and of the dotted capital I (U+0130), the address
    DİYARBAKIR CAD is normalised to [D i U+0307 yarbakir Cad], and that
    text is normalised to [D i U+0307 Yarbakir Cad], which differs; the
    sample database has these rules. *)
Lemma normalize_addresses_dotted_I :
  (∀ u, ascii_rules u → dotted_I_rules u →
     Utils.normalize_addresses u (Demo.one_address Demo.DIYARBAKIR_CAD)
       = Demo.one_address Demo.Diyarbakir_Cad ∧
     Utils.normalize_addresses u (Demo.one_address Demo.Diyarbakir_Cad)
       = Demo.one_address Demo.DiYarbakir_Cad) ∧
  Demo.one_address Demo.Diyarbakir_Cad ≠ Demo.one_address Demo.DiYarbakir_Cad ∧
  ascii_rules Demo.latin ∧ dotted_I_rules Demo.latin.
Proof.
  split_and!.
  - intros u Hu Hd. destruct (title_DIYARBAKIR_CAD u Hu Hd) as [H1 H2].
    unfold Utils.normalize_addresses, Utils.map_column, Demo.one_address.
    cbn [columns rows]. rewrite !bool_decide_eq_true_2 by apply list_elem_of_here.
    cbn [fmap list_fmap]. rewrite !alter_singleton, H1, H2. done.
  - vm_compute. intros [=].
  - apply latin_ascii_rules.
  - apply latin_dotted_I_rules.
Qed.

End Cleaning.

(** ** The geocoding client *)

Section GeocoderFacts.
Import Geocoder.

(** The lookup is the body of the [try] with its exceptions handed to
    the handlers. *)
Lemma geocode_address_handlers print http street_address city state zipcode :
  geocode_address print http street_address city state zipcode
  = match geocode_address_try http street_address city state zipcode with
    | Ok county_name => Ok county_name
    | Raise e => _ ← print (handler_message street_address e); Ok JNull
    end.
Proof.
  unfold geocode_address, handler_message.
  destruct (geocode_address_try _ _ _ _ _) as [v|e]; [done|].
  by destruct (is_RequestException e).
Qed.

(** On a console that takes every line, the handlers turn every
    exception into [None]. *)
Lemma geocode_address_caught http street_address city state zipcode :
  geocode_address succeeds http street_address city state zipcode
  = Ok (caught (geocode_address_try http street_address city state zipcode)).
Proof.
  rewrite geocode_address_handlers.
  by destruct (geocode_address_try _ _ _ _ _) as [v|e].
Qed.

Lemma geocode_address_returns http street_address city state zipcode :
  ∃ v, geocode_address succeeds http street_address city state zipcode = Ok v.
Proof. rewrite geocode_address_caught. eauto. Qed.

Lemma extract_county_patterns data :
  extract_county data
  = two_keys data "result" "addressMatches" (λ matches,
      first_item matches (λ match_,
        two_keys match_ "geographies" "Counties" (λ counties,
          first_item counties (λ first,
            county_name ← py_get first "NAME" (JStr ""); Ok county_name)))).
Proof. reflexivity. Qed.

Lemma two_keys_exn v k1 k2 K e :
  (∀ y e, K y = Raise e → is_RequestException e = false) →
  two_keys v k1 k2 K = Raise e → is_RequestException e = false.
Proof.
  intros HK. unfold two_keys.
  destruct v as [|b|z|f|s|l|d]; try (cbn; by intros [= <-]).
  { cbn. destruct (PyStr.contains _ _); cbn; [by intros [= <-] | done]. }
  { cbn. destruct (existsb _ l); cbn; [by intros [= <-] | done]. }
  cbn. destruct (d !! k1) as [x|] eqn:Hx; cbn; [|done].
  destruct x as [|b|z|f|s|l|r]; try (cbn; by intros [= <-]).
  { cbn. destruct (PyStr.contains _ _); cbn; by intros [= <-]. }
  { cbn. destruct (existsb _ l); cbn; by intros [= <-]. }
  cbn. destruct (r !! k2) as [y|] eqn:Hy; cbn; [|done]. apply HK.
Qed.

Lemma first_item_exn v K e :
  (∀ y e, K y = Raise e → is_RequestException e = false) →
  first_item v K = Raise e → is_RequestException e = false.
Proof.
  intros HK. unfold first_item, nonempty.
  destruct v as [|b|z|f|s|l|d]; try (cbn; by intros [= <-]).
  - destruct b; cbn; [by intros [= <-] | done].
  - cbn. destruct (z =? 0); cbn; [done | by intros [= <-]].
  - cbn. destruct (PrimFloat.eqb f 0); cbn; [done | by intros [= <-]].
  - destruct s as [|c s]; cbn; [done|]. apply HK.
  - destruct l as [|x l]; cbn; [done|]. apply HK.
  - cbn. destruct (bool_decide (d = ∅)); cbn; [done|].
    destruct (0 <? Z.of_nat (size d)); cbn; [by intros [= <-] | done].
Qed.

(** The exceptions of the extraction are not exceptions of [requests]:
    they go to the second handler. *)
Lemma extract_county_exn data e :
  extract_county data = Raise e → is_RequestException e = false.
Proof.
  rewrite extract_county_patterns.
  apply two_keys_exn. intros matches e1. apply first_item_exn. intros match_ e2.
  apply two_keys_exn. intros counties e3. apply first_item_exn. intros first e4.
  destruct first; cbn; by intros [= <-].
Qed.

Lemma two_keys_caught v k1 k2 K :
  caught (two_keys v k1 k2 K)
  = match v with
    | JObj d =>
        match d !! k1 with
        | Some (JObj r) =>
            match r !! k2 with
            | Some y => caught (K y)
            | None => JNull
            end
        | _ => JNull
        end
    | _ => JNull
    end.
Proof.
  unfold two_keys.
  destruct v as [|b|z|f|s|l|d]; try reflexivity.
  { cbn. by destruct (PyStr.contains _ _). }
  { cbn. by destruct (existsb _ l). }
  cbn. destruct (d !! k1) as [x|] eqn:Hx; cbn; [|reflexivity].
  destruct x as [|b|z|f|s|l|r]; try reflexivity.
  { cbn. by destruct (PyStr.contains _ _). }
  { cbn. by destruct (existsb _ l). }
  cbn. destruct (r !! k2) as [y|] eqn:Hy; cbn; reflexivity.
Qed.

Lemma first_item_caught v K :
  caught (first_item v K)
  = match v with
    | JArr (x :: _) => caught (K x)
    | JStr (String c _) => caught (K (JStr (String c EmptyString)))
    | _ => JNull
    end.
Proof.
  unfold first_item, nonempty.
  destruct v as [|b|z|f|s|l|d]; try reflexivity.
  - by destruct b.
  - cbn. by destruct (z =? 0).
  - cbn. by destruct (PrimFloat.eqb f 0).
  - by destruct s.
  - by destruct l.
  - cbn. destruct (bool_decide (d = ∅)); cbn; [done|].
    by destruct (0 <? Z.of_nat (size d)).
Qed.

Lemma extract_county_shape data :
  caught (extract_county data)
  = match first_county data with
    | Some c => default (JStr "") (c !! "NAME")
    | None => JNull
    end.
Proof.
  rewrite extract_county_patterns, two_keys_caught. unfold first_county.
  destruct data as [|b|z|f|s|l|d]; try reflexivity.
  destruct (d !! "result") as [[|b|z|f|s|l|r]|]; try reflexivity.
  destruct (r !! "addressMatches") as [matches|]; [|reflexivity].
  rewrite first_item_caught.
  destruct matches as [|b|z|f|[|c s]|[|x l]|m]; try reflexivity;
    rewrite two_keys_caught; [reflexivity|].
  destruct x as [|b|z|f|s|l'|m]; try reflexivity.
  destruct (m !! "geographies") as [[|b|z|f|s|l'|g]|]; try reflexivity.
  destruct (g !! "Counties") as [counties|]; [|reflexivity].
  rewrite first_item_caught.
  destruct counties as [|b|z|f|[|c s]|[|first l']|m']; try reflexivity.
  destruct first as [|b|z|f|s|l''|c]; reflexivity.
Qed.

Lemma two_keys_found d r k1 k2 y K :
  d !! k1 = Some (JObj r) → r !! k2 = Some y → two_keys (JObj d) k1 k2 K = K y.
Proof. intros Hd Hr. unfold two_keys. cbn. rewrite Hd. cbn. rewrite Hr. cbn. done. Qed.

Lemma first_item_found x l K : first_item (JArr (x :: l)) K = K x.
Proof. reflexivity. Qed.

(** A response of the expected shape is read without an exception. *)
Lemma extract_county_first data c :
  first_county data = Some c →
  extract_county data = Ok (default (JStr "") (c !! "NAME")).
Proof.
  rewrite extract_county_patterns. unfold first_county.
  destruct data as [|b|z|f|s|l|d]; try done.
  destruct (d !! "result") as [[|b|z|f|s|l|r]|] eqn:Hd; try done.
  destruct (r !! "addressMatches") as [[|b|z|f|s|[|[|b|z|f|s|l'|m] l]|m]|] eqn:Hr; try done.
  destruct (m !! "geographies") as [[|b|z|f|s|l'|g]|] eqn:Hm; try done.
  destruct (g !! "Counties") as [[|b|z|f|s|[|[|b|z|f|s|l''|c'] l']|m']|] eqn:Hg; try done.
  intros [= ->].
  rewrite (two_keys_found _ _ _ _ _ _ Hd Hr), first_item_found.
  by rewrite (two_keys_found _ _ _ _ _ _ Hm Hg), first_item_found.
Qed.

(** The body of the [try] for a response that [raise_for_status] lets
    through, and for an outcome that makes [requests] raise. *)
Lemma geocode_address_try_response http street_address city state zipcode status data :
  http (params street_address city state zipcode) = Responded status (Some data) →
  status < 400 ∨ 600 ≤ status →
  geocode_address_try http street_address city state zipcode = extract_county data.
Proof.
  intros Hhttp Hstatus. unfold geocode_address_try. rewrite Hhttp. cbn.
  unfold raise_for_status.
  replace ((400 <=? status) && (status <? 600)) with false by lia.
  reflexivity.
Qed.

Lemma geocode_address_try_transport http street_address city state zipcode e :
  transport_exn (http (params street_address city state zipcode)) = Some e →
  geocode_address_try http street_address city state zipcode = Raise e ∧
  is_RequestException e = true.
Proof.
  unfold geocode_address_try, transport_exn.
  destruct (http _) as [| |status [data|]]; cbn; try (by intros [= <-]);
    unfold raise_for_status; destruct ((400 <=? status) && (status <? 600));
    cbn; by intros [= <-].
Qed.

Lemma transport_error_exn o : transport_error o = true ↔ is_Some (transport_exn o).
Proof.
  unfold transport_error, transport_exn.
  destruct o as [| |status [data|]]; cbn; try (split; eauto; done);
    destruct ((400 <=? status) && (status <? 600)); cbn; split; eauto; done.
Qed.

(** The part of the expected behaviour that holds: on a console that
    takes every line, a response that arrives with a status outside 400
    to 599 and parses as JSON yields [None] when it deviates from the
    shape [{ result: { addressMatches: [ { geographies: { Counties:
    [ {..} ] } } ] } }] (no address match, no county, a value of another
    kind on the way); when the first county is there, the lookup returns
    what it holds under [NAME], and the empty string when it holds nothing
    under that key. *)
Lemma geocode_address_shape http street_address city state zipcode status data :
  http (params street_address city state zipcode) = Responded status (Some data) →
  status < 400 ∨ 600 ≤ status →
  geocode_address succeeds http street_address city state zipcode
  = Ok (match first_county data with
        | Some c => default (JStr "") (c !! "NAME")
        | None => JNull
        end).
Proof.
  intros Hhttp Hstatus.
  rewrite geocode_address_caught. f_equal.
  rewrite <- extract_county_shape.
  by rewrite (geocode_address_try_response _ _ _ _ _ _ _ Hhttp Hstatus).
Qed.

Example geocode_address_fulton :
  geocode_address succeeds (Sample.answering 200 Sample.fulton)
                  Sample.street Sample.city Sample.state Sample.zipcode
  = Ok (JStr "Fulton County").
Proof.
  exact (geocode_address_shape (Sample.answering 200 Sample.fulton)
           Sample.street Sample.city Sample.state Sample.zipcode
           200 Sample.fulton eq_refl (or_introl eq_refl)).
Qed.

(** C4: a first county without the [NAME] key makes the lookup return
    the empty string, which is not [None], whatever the console.  The
    response has the expected shape down to the county object, and the
    function is documented to return the county name if found, otherwise
    [None]. *)
Theorem geocode_address_nameless_county :
  first_county Sample.nameless = Some ∅ ∧
  ∀ print,
    geocode_address print (Sample.answering 200 Sample.nameless)
                    Sample.street Sample.city Sample.state Sample.zipcode
    = Ok (JStr "") ∧
    geocode_address print (Sample.answering 200 Sample.nameless)
                    Sample.street Sample.city Sample.state Sample.zipcode
    ≠ Ok JNull.
Proof.
  split; [vm_compute; reflexivity|]. intros print.
  assert (geocode_address print (Sample.answering 200 Sample.nameless)
            Sample.street Sample.city Sample.state Sample.zipcode = Ok (JStr "")) as ->.
  { rewrite geocode_address_handlers.
    rewrite (geocode_address_try_response _ _ _ _ _ 200 Sample.nameless eq_refl)
      by (left; reflexivity).
    by rewrite (extract_county_first Sample.nameless ∅) by (vm_compute; reflexivity). }
  split; [done | discriminate].
Qed.

(** C9, as amended.  Whatever the network does:
    - an exception that leaves the lookup was raised by [print] in one of
      the two handlers;
    - a lost connection, a timeout, a status from 400 to 599 and a body
      that is not JSON end in the first handler, which prints and returns
      [None];
    - a response with any other status whose body is JSON is read like a
      successful one, and an exception of the extraction ends in the
      second handler;
    - so on a console that takes the two lines for this address, the
      lookup returns: [None] for the errors of the transport, and for the
      other responses what their shape yields. *)
Theorem geocode_address_never_raises print http street_address city state zipcode :
  let outcome := http (params street_address city state zipcode) in
  let lookup := geocode_address print http street_address city state zipcode in
  (∀ e, lookup = Raise e →
        ∃ e', print (handler_message street_address e') = Raise e) ∧
  (∀ e, transport_exn outcome = Some e →
        lookup = (_ ← print (Error_geocoding street_address e); Ok JNull)) ∧
  (∀ status data,
     outcome = Responded status (Some data) → status < 400 ∨ 600 ≤ status →
     lookup = match extract_county data with
              | Ok county_name => Ok county_name
              | Raise e => _ ← print (Unexpected_error_for street_address e); Ok JNull
              end) ∧
  ((∀ e, print (Error_geocoding street_address e) = Ok tt) →
   (∀ e, print (Unexpected_error_for street_address e) = Ok tt) →
   (∃ v, lookup = Ok v) ∧
   (transport_error outcome = true → lookup = Ok JNull) ∧
   (∀ status data,
      outcome = Responded status (Some data) → status < 400 ∨ 600 ≤ status →
      lookup = Ok (match first_county data with
                   | Some c => default (JStr "") (c !! "NAME")
                   | None => JNull
                   end))).
Proof.
  intros outcome lookup. subst outcome lookup.
  rewrite geocode_address_handlers.
  split_and!.
  - intros e He. destruct (geocode_address_try _ _ _ _ _) as [v|e']; [done|].
    exists e'. destruct (print _) as [[]|e0]; cbn in He; [done|]. by injection He as ->.
  - intros e [-> He]%geocode_address_try_transport.
    unfold handler_message. by rewrite He.
  - intros status data Hhttp Hstatus.
    rewrite (geocode_address_try_response _ _ _ _ _ _ _ Hhttp Hstatus).
    destruct (extract_county data) as [v|e] eqn:Hdata; [done|].
    unfold handler_message. by rewrite (extract_county_exn _ _ Hdata).
  - intros Herror Hunexpected.
    assert (∀ e, print (handler_message street_address e) = Ok tt) as Hprint.
    { intros e. unfold handler_message. by destruct (is_RequestException e). }
    split_and!.
    + destruct (geocode_address_try _ _ _ _ _) as [v|e]; [eauto|].
      rewrite Hprint. cbn. eauto.
    + intros [e He]%transport_error_exn.
      apply geocode_address_try_transport in He as [-> _]. by rewrite Hprint.
    + intros status data Hhttp Hstatus.
      rewrite (geocode_address_try_response _ _ _ _ _ _ _ Hhttp Hstatus).
      rewrite <- extract_county_shape.
      destruct (extract_county data) as [v|e]; [done|]. by rewrite Hprint.
Qed.

Lemma geocode_address_never_raises_witness :
  geocode_address succeeds (λ _, Responded 503 None)
                  Sample.street Sample.city Sample.state Sample.zipcode
  = Ok JNull.
Proof.
  exact (proj1 (proj2 (proj2 (proj2 (proj2
           (geocode_address_never_raises succeeds (λ _, Responded 503 None)
              Sample.street Sample.city Sample.state Sample.zipcode)))
           (λ _, eq_refl) (λ _, eq_refl))) eq_refl).
Defined.

(** C9, as stated, fails for a status that is neither a success nor an
    error code of the library: a response with status 300 and a
    well-formed body is read like a successful one. *)
Lemma geocode_address_status_300 :
  ¬ (200 ≤ 300 < 300) ∧
  geocode_address succeeds (Sample.answering 300 Sample.fulton)
                  Sample.street Sample.city Sample.state Sample.zipcode
  = Ok (JStr "Fulton County") ∧
  geocode_address succeeds (Sample.answering 300 Sample.fulton)
                  Sample.street Sample.city Sample.state Sample.zipcode
  ≠ Ok JNull.
Proof. split_and!; [lia | vm_compute; reflexivity | vm_compute; discriminate]. Qed.

(** It also fails where the handler itself raises: when the connection
    is lost and the console cannot encode the address that the handler
    prints, the [UnicodeEncodeError] of [print] leaves the lookup. *)
Example geocode_address_print_raises :
  geocode_address Demo.ascii_console (λ _, NoConnection)
                  (Str Demo.DIYARBAKIR_CAD) Sample.city Sample.state Sample.zipcode
  = Raise UnicodeEncodeError.
Proof. vm_compute. reflexivity. Qed.

End GeocoderFacts.

(** ** The enrichment pipeline *)

Section SelectionFacts.
Import DataProcessor.

Lemma select_from_elem mask : ∀ rs i j (r : Row),
  (j, r) ∈ select_from i mask rs →
  ∃ k, j = (i + k)%nat ∧ mask !! k = Some true ∧ rs !! k = Some r.
Proof.
  induction mask as [|b mask IH]; intros [|r0 rs] i j r; cbn;
    try (intros H; by apply elem_of_nil in H).
  intros H.
  assert ((j, r) ∈ select_from (S i) mask rs →
          ∃ k, j = (i + k)%nat ∧ (b :: mask) !! k = Some true ∧ (r0 :: rs) !! k = Some r)
    as Hrest.
  { intros (k & -> & Hm & Hr)%IH. exists (S k). split_and!; [lia|done..]. }
  destruct b; [|by apply Hrest].
  apply elem_of_cons in H as [[= -> ->] | H]; [|by apply Hrest].
  exists 0%nat. split_and!; [lia|done..].
Qed.

Lemma select_from_length mask : ∀ rs i,
  length mask = length rs →
  length (select_from i mask rs) = length (filter (λ b, b = true) mask).
Proof.
  induction mask as [|b mask IH]; intros [|r rs] i; try done.
  intros [= Hlen]. destruct b; cbn [select_from].
  - rewrite filter_cons_True by done. cbn [length]. f_equal. by apply IH.
  - rewrite filter_cons_False by done. by apply IH.
Qed.

(** The selected rows are rows of the frame at their label, with a true
    mask entry. *)
Lemma select_rows_elem mask rs j (r : Row) :
  (j, r) ∈ select_rows mask rs → mask !! j = Some true ∧ rs !! j = Some r.
Proof. by intros (k & -> & ? & ?)%select_from_elem. Qed.

Lemma select_rows_length mask rs :
  length mask = length rs →
  Z.of_nat (length (select_rows mask rs)) = sum_true mask.
Proof. intros H. unfold select_rows, sum_true. by rewrite select_from_length. Qed.

Lemma getcol_Ok df name :
  name ∈ columns df →
  getcol df name = Ok ((λ r : Row, default NaN (r !! name)) <$> rows df).
Proof. intros H. unfold getcol. by rewrite bool_decide_eq_true_2. Qed.

Lemma getcol_Raise df name :
  name ∉ columns df → getcol df name = Raise (KeyError name).
Proof. intros H. unfold getcol. by rewrite bool_decide_eq_false_2. Qed.

Lemma sum_true_fmap {A} (p : A → bool) (l : list A) :
  sum_true (p <$> l) = Z.of_nat (length (filter (λ x, p x = true) l)).
Proof.
  unfold sum_true. f_equal.
  induction l as [|x l IH]; [done|]. rewrite fmap_cons.
  destruct (p x) eqn:Hp.
  - rewrite !filter_cons_True by done. cbn [length]. by rewrite IH.
  - rewrite !filter_cons_False by congruence. done.
Qed.

Lemma has_columns_elem df names c :
  has_columns df names = true → c ∈ names → c ∈ columns df.
Proof.
  unfold has_columns. rewrite forallb_forall. intros H Hc.
  apply list_elem_of_In in Hc. specialize (H _ Hc). by apply bool_decide_eq_true in H.
Qed.

Lemma rectangular_lookup df (r : Row) c :
  rectangular df = true → r ∈ rows df → c ∈ columns df → is_Some (r !! c).
Proof.
  unfold rectangular. rewrite forallb_forall. intros H Hr Hc.
  apply list_elem_of_In in Hr. specialize (H _ Hr).
  apply bool_decide_eq_true in H.
  apply elem_of_dom. rewrite H. by apply elem_of_list_to_set.
Qed.

(** *** Frames that differ in county cells only *)

Lemma only_county_refl sel f : only_county sel f f.
Proof. split_and!; [done..|]. intros i r Hr. exists r. done. Qed.

Lemma only_county_trans sel f1 f2 f3 :
  only_county sel f1 f2 → only_county sel f2 f3 → only_county sel f1 f3.
Proof.
  intros (Hc1 & Hl1 & H1) (Hc2 & Hl2 & H2). split_and!; [congruence..|].
  intros i r Hr.
  destruct (H1 i r Hr) as (r' & Hr' & Hk1 & Hs1).
  destruct (H2 i r' Hr') as (r'' & Hr'' & Hk2 & Hs2).
  exists r''. split_and!; [done | |].
  - intros c Hc. by rewrite Hk2, Hk1.
  - intros Hn. by rewrite Hs2, Hs1.
Qed.

Lemma only_county_weaken (sel sel' : nat → Prop) f f' :
  (∀ i, sel i → sel' i) → only_county sel f f' → only_county sel' f f'.
Proof.
  intros Hsel (Hc & Hl & H). split_and!; [done..|].
  intros i r Hr. destruct (H i r Hr) as (r' & Hr' & Hk & Hs).
  exists r'. split_and!; [done..|]. intros Hn. apply Hs. intros ?. by apply Hn, Hsel.
Qed.

Lemma set_county_only idx county f : only_county (λ i, i = idx) f (set_county idx county f).
Proof.
  unfold set_county. split_and!; cbn [columns rows]; [done | by rewrite length_alter |].
  intros i r Hr. destruct (decide (i = idx)) as [->|Hne].
  - exists (<["CountyName" := Str county]> r). split_and!.
    + by rewrite list_lookup_alter_eq, Hr.
    + intros c Hc. by rewrite lookup_insert_ne.
    + done.
  - exists r. split_and!; [|done..]. by rewrite list_lookup_alter_ne.
Qed.

(** The cell written by [df.at[idx, 'CountyName'] = county]. *)
Lemma set_county_lookup idx county f (r : Row) :
  rows f !! idx = Some r →
  rows (set_county idx county f) !! idx = Some (<["CountyName" := Str county]> r).
Proof. intros Hr. unfold set_county. cbn. by rewrite list_lookup_alter_eq, Hr. Qed.

End SelectionFacts.

Section PipelineFacts.
Import DataProcessor.

Context {World : Type}.
Variable geocode_address : cell → cell → cell → cell → World → option string * World.
Variable wait : World → World.

Implicit Types (s : @State World) (row : Row).

(** What one call of [process_row] does when the row has its address. *)
Lemma process_row_run idx row progress_num total_to_process s
      street_address city state zipcode :
  row !! "StreetAddress" = Some street_address →
  row !! "City" = Some city →
  row !! "State" = Some state →
  row !! "Zipcode" = Some zipcode →
  process_row geocode_address idx row progress_num total_to_process s
  = let '(county, w) := geocode_address street_address city state zipcode (world s) in
    if truthy county
    then (Ok true, mkState w (count_geocoded (stats s))
                           (set_county idx (default "" county) (frame s)))
    else (Ok false, mkState w (count_failed (stats s)) (frame s)).
Proof.
  intros H1 H2 H3 H4.
  unfold process_row, mbind, M_bind, lift, row_getitem, call_geocoder.
  rewrite H1, H2, H3, H4.
  destruct (geocode_address _ _ _ _ _) as [county w].
  by destruct (truthy county).
Qed.

(** Whatever happens in [process_row], the frame changes in the county
    cell of row [idx] at most. *)
Lemma process_row_frame idx row progress_num total_to_process s :
  only_county (λ i, i = idx) (frame s)
    (frame (process_row geocode_address idx row progress_num total_to_process s).2).
Proof.
  unfold process_row, mbind, M_bind, lift, row_getitem, call_geocoder.
  destruct (row !! "StreetAddress"); [|apply only_county_refl].
  destruct (row !! "City"); [|apply only_county_refl].
  destruct (row !! "State"); [|apply only_county_refl].
  destruct (row !! "Zipcode"); [|apply only_county_refl].
  destruct (geocode_address _ _ _ _ _) as [county w].
  destruct (truthy county); cbn; [apply set_county_only | apply only_county_refl].
Qed.

Lemma process_rows_cons progress_callback idx row rest progress_num total_to_process s :
  process_rows geocode_address wait progress_callback ((idx, row) :: rest)
               progress_num total_to_process s
  = match process_row geocode_address idx row progress_num total_to_process s with
    | (Ok _, s') =>
        process_rows geocode_address wait progress_callback rest
                     (S progress_num) total_to_process
                     (after_row wait progress_callback progress_num total_to_process s')
    | (Raise e, s') => (Raise e, s')
    end.
Proof.
  cbn [process_rows]. unfold mbind at 1, M_bind at 1.
  destruct (process_row _ _ _ _ _ _) as [[b|e] s']; [|done].
  unfold after_row. by destruct progress_callback.
Qed.

Lemma process_rows_frame progress_callback items : ∀ progress_num total_to_process s,
  only_county (λ i, i ∈ items.*1) (frame s)
    (frame (process_rows geocode_address wait progress_callback items
                         progress_num total_to_process s).2).
Proof.
  induction items as [|[idx row] rest IH]; intros n t s.
  - apply only_county_refl.
  - rewrite process_rows_cons.
    pose proof (process_row_frame idx row n t s) as Hrow.
    destruct (process_row _ _ _ _ _ _) as [[b|e] s']; cbn [snd] in *.
    + eapply only_county_trans.
      * eapply only_county_weaken; [|exact Hrow]. intros i ->. cbn. left.
      * eapply only_county_weaken; [|apply (IH (S n) t (after_row wait progress_callback n t s'))].
        intros i Hi. cbn. by right.
    + eapply only_county_weaken; [|exact Hrow]. intros i ->. cbn. left.
Qed.

(** With the address columns at hand the loop runs to its end, and each
    row adds one to exactly one of the two counters. *)
Lemma process_rows_stats progress_callback items : ∀ progress_num total_to_process s,
  (∀ i row, (i, row) ∈ items → has_address row) →
  ∃ s', process_rows geocode_address wait progress_callback items
                     progress_num total_to_process s = (Ok tt, s') ∧
        total (stats s') = total (stats s) ∧
        needs_geocoding (stats s') = needs_geocoding (stats s) ∧
        already_had_county (stats s') = already_had_county (stats s) ∧
        geocoded (stats s) ≤ geocoded (stats s') ∧
        failed (stats s) ≤ failed (stats s') ∧
        geocoded (stats s') + failed (stats s')
        = geocoded (stats s) + failed (stats s) + Z.of_nat (length items).
Proof.
  induction items as [|[idx row] rest IH]; intros n t s Haddr.
  - exists s. cbn. split_and!; [done..|lia|lia|lia].
  - rewrite process_rows_cons.
    destruct (Haddr idx row) as ([a Ha] & [b Hb] & [c Hc] & [d Hd]); [left|].
    rewrite (process_row_run idx row n t s a b c d Ha Hb Hc Hd).
    destruct (geocode_address a b c d (world s)) as [county w].
    destruct (truthy county);
      (edestruct (IH (S n) t) as (s' & -> & Ht & Hn & Ha' & Hg & Hf & Hsum);
       [intros i r Hin; apply (Haddr i r); by right|]);
      exists s'; cbn in *; split_and!; try done; lia.
Qed.

(** The rows that the selection hands to the loop. *)
Lemma missing_rows_elem df i row :
  (i, row) ∈ select_rows (needs_geocoding_mask <$> (county_of <$> rows df)) (rows df) →
  rows df !! i = Some row ∧ needs_geocoding_mask (county_of row) = true.
Proof.
  intros [Hm Hr]%select_rows_elem. split; [done|].
  rewrite !list_lookup_fmap, Hr in Hm. by injection Hm.
Qed.

Lemma missing_rows_length df :
  Z.of_nat (length (select_rows (needs_geocoding_mask <$> (county_of <$> rows df)) (rows df)))
  = selected_count df.
Proof.
  rewrite select_rows_length by (by rewrite !length_fmap).
  rewrite <- list_fmap_compose. apply sum_true_fmap.
Qed.

(** [process_dataframe] unfolded, for a frame with a county column. *)
Lemma process_dataframe_unfold progress_callback s :
  "CountyName" ∈ columns (frame s) →
  process_dataframe geocode_address wait progress_callback s
  = let df := frame s in
    let missing_df := select_rows (needs_geocoding_mask <$> (county_of <$> rows df)) (rows df) in
    let s1 := mkState (world s)
                (mkStats (total (stats s)) (selected_count df) (geocoded (stats s))
                         (failed (stats s)) (len df - selected_count df))
                df in
    match process_rows geocode_address wait progress_callback missing_df 1
                       (length missing_df) s1 with
    | (Ok _, s') => (Ok (frame s'), s')
    | (Raise e, s') => (Raise e, s')
    end.
Proof.
  intros Hc.
  unfold process_dataframe, identify_missing_counties, mbind, M_bind, lift, get_frame.
  rewrite (getcol_Ok _ _ Hc). cbn.
  change (λ r : Row, default NaN (r !! "CountyName")) with county_of.
  rewrite <- list_fmap_compose, sum_true_fmap.
  change (Z.of_nat (length (filter _ (rows (frame s))))) with (selected_count (frame s)).
  rewrite list_fmap_compose.
  by destruct s as [w st df].
Qed.

(** Without a county column the run stops at once and changes nothing. *)
Lemma process_dataframe_no_column progress_callback s :
  "CountyName" ∉ columns (frame s) →
  process_dataframe geocode_address wait progress_callback s
  = (Raise (KeyError "CountyName"), s).
Proof.
  intros Hc.
  unfold process_dataframe, identify_missing_counties, mbind, M_bind, lift, get_frame.
  by rewrite (getcol_Raise _ _ Hc).
Qed.

(** On a rectangular frame with the expected header the run returns the
    frame it leaves in the state, and the counters add up. *)
Lemma process_dataframe_run progress_callback s :
  has_columns (frame s) required_columns = true →
  rectangular (frame s) = true →
  ∃ s', process_dataframe geocode_address wait progress_callback s = (Ok (frame s'), s') ∧
        total (stats s') = total (stats s) ∧
        needs_geocoding (stats s') = selected_count (frame s) ∧
        already_had_county (stats s') = len (frame s) - selected_count (frame s) ∧
        geocoded (stats s) ≤ geocoded (stats s') ∧
        failed (stats s) ≤ failed (stats s') ∧
        geocoded (stats s') + failed (stats s')
        = geocoded (stats s) + failed (stats s) + selected_count (frame s).
Proof.
  intros Hcols Hrect.
  assert (∀ c, c ∈ required_columns → c ∈ columns (frame s)) as Hin.
  { intros c. by apply has_columns_elem. }
  rewrite process_dataframe_unfold by (apply Hin; set_solver).
  cbn zeta.
  edestruct (process_rows_stats progress_callback) as (s' & -> & Ht & Hn & Ha & Hg & Hf & Hsum).
  { intros i row [Hrow _]%missing_rows_elem.
    apply list_elem_of_lookup_2 in Hrow.
    split_and!; (apply (rectangular_lookup (frame s)); [done..|apply Hin; set_solver]). }
  exists s'. cbn in *. rewrite missing_rows_length in Hsum.
  split_and!; done.
Qed.

(** Whatever the lookups return and however the run ends, the frame keeps
    its shape and changes in county cells of selected rows only. *)
Lemma process_dataframe_frame progress_callback s :
  only_county
    (λ i, ∃ row, rows (frame s) !! i = Some row ∧
                 needs_geocoding_mask (county_of row) = true)
    (frame s)
    (frame (process_dataframe geocode_address wait progress_callback s).2).
Proof.
  destruct (decide ("CountyName" ∈ columns (frame s))) as [Hc|Hc].
  - rewrite process_dataframe_unfold by done. cbn zeta.
    match goal with
    | |- context [process_rows _ _ _ ?items ?n ?t ?s1] =>
        pose proof (process_rows_frame progress_callback items n t s1) as Hloop
    end.
    destruct (process_rows _ _ _ _ _ _ _) as [[u|e] s']; cbn [snd frame] in *.
    all: eapply only_county_weaken; [|exact Hloop].
    all: intros i ((i' & row) & -> & Hin)%list_elem_of_fmap; cbn.
    all: apply missing_rows_elem in Hin; eauto.
  - rewrite process_dataframe_no_column by done. apply only_county_refl.
Qed.

Lemma process_dataframe_returned progress_callback s df' :
  (process_dataframe geocode_address wait progress_callback s).1 = Ok df' →
  df' = frame (process_dataframe geocode_address wait progress_callback s).2.
Proof.
  destruct (decide ("CountyName" ∈ columns (frame s))) as [Hc|Hc].
  - rewrite process_dataframe_unfold by done. cbn zeta.
    destruct (process_rows _ _ _ _ _ _ _) as [[u|e] s']; cbn; congruence.
  - rewrite process_dataframe_no_column by done. done.
Qed.

(** C3, as amended: [process_row] makes one lookup.  When the lookup
    returns a county name that is not empty, the county cell of the row
    is set to it and "geocoded" grows by one; when it returns [None] or
    the empty string, "failed" grows by one and the frame stays as it
    is.  Nothing else changes in the counters. *)
Theorem process_row_effect idx row progress_num total_to_process s
      street_address city state zipcode county w :
  row !! "StreetAddress" = Some street_address →
  row !! "City" = Some city →
  row !! "State" = Some state →
  row !! "Zipcode" = Some zipcode →
  geocode_address street_address city state zipcode (world s) = (county, w) →
  (∀ name, county = Some name → name ≠ "" →
     process_row geocode_address idx row progress_num total_to_process s
     = (Ok true, mkState w (count_geocoded (stats s)) (set_county idx name (frame s))) ∧
     ∀ r : Row, rows (frame s) !! idx = Some r →
       rows (set_county idx name (frame s)) !! idx
       = Some (<["CountyName" := Str name]> r)) ∧
  (county = None ∨ county = Some "" →
     process_row geocode_address idx row progress_num total_to_process s
     = (Ok false, mkState w (count_failed (stats s)) (frame s))).
Proof.
  intros H1 H2 H3 H4 Hgeo.
  rewrite (process_row_run idx row progress_num total_to_process s _ _ _ _ H1 H2 H3 H4).
  rewrite Hgeo. split.
  - intros name -> Hname. split; [|intros r; apply set_county_lookup].
    cbn. by rewrite (proj2 (String.eqb_neq name "") Hname).
  - by intros [-> | ->].
Qed.


(** C6: the run of [process_dataframe] leaves every row that the
    predicate does not select as it was, in every field; in the selected
    rows it changes the county cell at most; the frame keeps its columns
    and its number of rows.  This holds for every geocoder, callback and
    starting state; the frame returned is the one described, and on a
    rectangular frame with the expected header the run does return. *)
Theorem process_dataframe_unselected_rows progress_callback s :
  let df := frame s in
  let out := process_dataframe geocode_address wait progress_callback s in
  let df' := frame out.2 in
  (∀ returned, out.1 = Ok returned → returned = df') ∧
  (has_columns df required_columns = true → rectangular df = true → out.1 = Ok df') ∧
  columns df' = columns df ∧
  length (rows df') = length (rows df) ∧
  ∀ i (r : Row), rows df !! i = Some r →
    (needs_geocoding_mask (county_of r) = false → rows df' !! i = Some r) ∧
    (∃ r' : Row, rows df' !! i = Some r' ∧ ∀ c, c ≠ "CountyName" → r' !! c = r !! c).
Proof.
  intros df out df'. subst df out df'.
  destruct (process_dataframe_frame progress_callback s) as (Hc & Hl & Hrows).
  split_and!; [| |exact Hc|exact Hl|].
  - apply process_dataframe_returned.
  - intros Hcols Hrect.
    by destruct (process_dataframe_run progress_callback s Hcols Hrect) as (s' & -> & _).
  - intros i r Hr. destruct (Hrows i r Hr) as (r' & Hr' & Hk & Hs). split.
    + intros Hmask. rewrite Hr'. f_equal. apply Hs.
      intros (row & Hrow & Hsel). congruence.
    + by exists r'.
Qed.

End PipelineFacts.

Section PipelineExamples.
Import DataProcessor.

Lemma process_row_effect_witness :
  process_row (Sample.always (Some "DeKalb")) 0 (Sample.property NaN) 1 1
              (fresh () (Sample.properties [NaN]))
  = (Ok true, mkState () (count_geocoded stats_init)
                      (set_county 0 "DeKalb" (Sample.properties [NaN]))).
Proof.
  pose proof (process_row_effect (Sample.always (Some "DeKalb")) 0 (Sample.property NaN)
                1 1 (fresh () (Sample.properties [NaN]))
                Sample.street Sample.city Sample.state Sample.zipcode
                (Some "DeKalb") ()) as H.
  destruct H as [H _]; [reflexivity..|].
  destruct (H "DeKalb") as [H' _]; [reflexivity | discriminate | exact H'].
Defined.

(** C3, as stated, fails: the empty string is a result that is not
    [None], yet the row counts as failed and its county cell is not
    written. *)
Lemma process_row_empty_name :
  process_row (Sample.always (Some "")) 0 (Sample.property NaN) 1 1
              (fresh () (Sample.properties [NaN]))
  = (Ok false, mkState () (mkStats 0 0 0 1 0) (Sample.properties [NaN])).
Proof. vm_compute. reflexivity. Qed.


Lemma process_dataframe_unselected_rows_witness :
  rows (frame (process_dataframe (Sample.always (Some "DeKalb")) Sample.no_wait None
                                 (fresh () Sample.three_rows)).2) !! 0%nat
  = Some (Sample.property (Str "Fulton")).
Proof.
  pose proof (process_dataframe_unselected_rows (Sample.always (Some "DeKalb"))
                Sample.no_wait None (fresh () Sample.three_rows)) as H.
  cbn zeta in H. destruct H as (_ & _ & _ & _ & H).
  destruct (H 0%nat (Sample.property (Str "Fulton"))) as [H' _]; [reflexivity|].
  apply H'. reflexivity.
Defined.

(** The scenarios of the specification: a stub that always answers
    "DeKalb", and a stub that never finds a county. *)
Example scenario_always_DeKalb :
  process_csv_file (Sample.always (Some "DeKalb")) Sample.no_wait Sample.three_rows
                   (fresh () (mkDataFrame [] []))
  = (Ok (Sample.properties [Str "Fulton"; Str "DeKalb"; Str "DeKalb"]),
     mkState () (mkStats 3 2 2 0 1)
             (Sample.properties [Str "Fulton"; Str "DeKalb"; Str "DeKalb"])).
Proof. vm_compute. reflexivity. Qed.

Example scenario_never_found :
  process_csv_file (Sample.always None) Sample.no_wait Sample.three_rows
                   (fresh () (mkDataFrame [] []))
  = (Ok Sample.three_rows, mkState () (mkStats 3 2 0 2 1) Sample.three_rows).
Proof. vm_compute. reflexivity. Qed.

End PipelineExamples.

(** ** DataAnalyzer: counts of missing counties *)

Section AnalyzerFacts.
Import Utils.

Lemma missing_count_Ok df :
  "CountyName" ∈ columns df → missing_count df = Ok (null_count df).
Proof.
  intros Hc. unfold missing_count. rewrite (getcol_Ok _ _ Hc). cbn.
  change (λ r : Row, default NaN (r !! "CountyName")) with county_of.
  by rewrite <- list_fmap_compose, sum_true_fmap.
Qed.

Lemma missing_count_Raise df :
  "CountyName" ∉ columns df → missing_count df = Raise (KeyError "CountyName").
Proof. intros Hc. unfold missing_count. by rewrite (getcol_Raise _ _ Hc). Qed.

(** A null cell is selected by the pipeline, so the nulls are at most as
    many as the selected rows. *)
Lemma null_count_le_selected df : null_count df ≤ selected_count df.
Proof.
  unfold null_count, selected_count. apply inj_le.
  induction (rows df) as [|r rs IH]; [done|].
  destruct (isna (county_of r)) eqn:Hna.
  - rewrite !filter_cons_True; [cbn; lia | | done].
    unfold DataProcessor.needs_geocoding_mask. by rewrite Hna.
  - rewrite (filter_cons_False (λ r : Row, isna (county_of r) = true)) by congruence.
    destruct (decide (DataProcessor.needs_geocoding_mask (county_of r) = true)).
    + rewrite filter_cons_True by done. cbn. lia.
    + by rewrite filter_cons_False.
Qed.

Lemma compare_csvs_Ok df_original df_updated :
  "CountyName" ∈ columns df_original → "CountyName" ∈ columns df_updated →
  ∃ rate, compare_csvs df_original df_updated
          = Ok (mkComparison (null_count df_original) (null_count df_updated)
                             (null_count df_original - null_count df_updated) rate).
Proof.
  intros H1 H2. unfold compare_csvs.
  rewrite (missing_count_Ok _ H1), (missing_count_Ok _ H2). cbn. eauto.
Qed.

(** On two identical snapshots no record counts as updated. *)
Lemma compare_csvs_same df :
  "CountyName" ∈ columns df →
  ∃ rate, compare_csvs df df = Ok (mkComparison (null_count df) (null_count df) 0 rate).
Proof.
  intros H. destruct (compare_csvs_Ok df df H H) as [rate ->].
  exists rate. by rewrite Z.sub_diag.
Qed.

(** On identical snapshots without a null county the rate is the
    quotient of zero by zero. *)
Lemma compare_csvs_same_no_null df :
  "CountyName" ∈ columns df → null_count df = 0 →
  compare_csvs df df = Ok (mkComparison 0 0 0 "nan%").
Proof.
  intros H Hnull. unfold compare_csvs.
  rewrite (missing_count_Ok _ H), Hnull. vm_compute. reflexivity.
Qed.

Example compare_csvs_same_with_nulls :
  compare_csvs (Sample.properties [NaN; Str "Fulton"; NaN])
               (Sample.properties [NaN; Str "Fulton"; NaN])
  = Ok (mkComparison 2 2 0 "0.0%").
Proof. vm_compute. reflexivity. Qed.

Example compare_csvs_one_of_three :
  compare_csvs (Sample.properties [NaN; NaN; NaN])
               (Sample.properties [NaN; Str "Fulton"; NaN])
  = Ok (mkComparison 3 2 1 "33.3%").
Proof. vm_compute. reflexivity. Qed.

(** C2: [compare_csvs] on two identical snapshots without a null county
    raises nothing and reports zero records updated, but the success rate
    it reports is the text ["nan%"]: the quotient of zero by zero, not
    a number. *)
Theorem compare_csvs_nothing_missing :
  compare_csvs (Sample.properties [Str "Fulton"]) (Sample.properties [Str "Fulton"])
  = Ok (mkComparison 0 0 0 "nan%").
Proof. vm_compute. reflexivity. Qed.

(** [analyze_csv] on a frame that has the three columns it always
    reads. *)
Lemma analyze_csv_columns price_statistics df :
  "CountyName" ∈ columns df → "City" ∈ columns df → "Zipcode" ∈ columns df →
  analyze_csv price_statistics df
  = if bool_decide ("Price" ∈ columns df)
    then stats ← price_statistics (price_of <$> rows df);
         Ok (mkAnalysis (len df) (null_count df) (Some stats))
    else Ok (mkAnalysis (len df) (null_count df) None).
Proof.
  intros H1 H2 H3. unfold analyze_csv.
  rewrite (getcol_Ok _ _ H1), (missing_count_Ok _ H1), (getcol_Ok _ _ H2), (getcol_Ok _ _ H3).
  cbn.
  assert ((if bool_decide ("HomeType" ∈ columns df) then getcol df "HomeType" else Ok [])
          = Ok (if bool_decide ("HomeType" ∈ columns df)
                then (λ r : Row, default NaN (r !! "HomeType")) <$> rows df else [])) as ->.
  { case_bool_decide as Hh; [by rewrite (getcol_Ok _ _ Hh) | done]. }
  cbn. case_bool_decide as Hp; [|done].
  rewrite (getcol_Ok _ _ Hp). cbn. unfold price_of.
  by destruct (price_statistics _).
Qed.

(** Without one of them it raises [KeyError] for the first that is not
    there. *)
Lemma analyze_csv_KeyError price_statistics df :
  ("CountyName" ∉ columns df →
   analyze_csv price_statistics df = Raise (KeyError "CountyName")) ∧
  ("CountyName" ∈ columns df → "City" ∉ columns df →
   analyze_csv price_statistics df = Raise (KeyError "City")) ∧
  ("CountyName" ∈ columns df → "City" ∈ columns df → "Zipcode" ∉ columns df →
   analyze_csv price_statistics df = Raise (KeyError "Zipcode")).
Proof.
  unfold analyze_csv. split_and!.
  - intros H1. by rewrite (getcol_Raise _ _ H1).
  - intros H1 H2.
    by rewrite (getcol_Ok _ _ H1), (missing_count_Ok _ H1), (getcol_Raise _ _ H2).
  - intros H1 H2 H3.
    by rewrite (getcol_Ok _ _ H1), (missing_count_Ok _ H1), (getcol_Ok _ _ H2),
               (getcol_Raise _ _ H3).
Qed.

(** Whenever [analyze_csv] returns, the frame has the three columns. *)
Lemma analyze_csv_returned price_statistics df a :
  analyze_csv price_statistics df = Ok a →
  "CountyName" ∈ columns df ∧ "City" ∈ columns df ∧ "Zipcode" ∈ columns df.
Proof.
  intros Ha. destruct (analyze_csv_KeyError price_statistics df) as (E1 & E2 & E3).
  destruct (decide ("CountyName" ∈ columns df)) as [H1|H1];
    [|rewrite (E1 H1) in Ha; done].
  destruct (decide ("City" ∈ columns df)) as [H2|H2];
    [|rewrite (E2 H1 H2) in Ha; done].
  destruct (decide ("Zipcode" ∈ columns df)) as [H3|H3];
    [|rewrite (E3 H1 H2 H3) in Ha; done].
  done.
Qed.

(** C10: the missing-county count of [analyze_csv] and the two counts of
    [compare_csvs] are the numbers of rows whose county cell is null.
    - Whenever [analyze_csv] returns, it reports the number of rows and the
      number of null counties; it returns on every frame that has the
      columns CountyName, City and Zipcode and whose prices, if it has a
      price column, pandas can aggregate.
    - [compare_csvs] reports the numbers of null counties of the two
      frames.
    - Such a count never exceeds the number of rows that the pipeline
      selects, and it is smaller when a county is ["UNKNOWN"] or blank. *)
Theorem missing_counts_nulls_only :
  (∀ price_statistics df a,
     analyze_csv price_statistics df = Ok a →
     total_properties a = len df ∧ missing_county a = null_count df) ∧
  (∀ price_statistics df,
     "CountyName" ∈ columns df → "City" ∈ columns df → "Zipcode" ∈ columns df →
     ("Price" ∈ columns df → ∃ stats, price_statistics (price_of <$> rows df) = Ok stats) →
     ∃ a, analyze_csv price_statistics df = Ok a ∧
          total_properties a = len df ∧ missing_county a = null_count df) ∧
  (∀ df df_updated,
     "CountyName" ∈ columns df → "CountyName" ∈ columns df_updated →
     ∃ rate, compare_csvs df df_updated
             = Ok (mkComparison (null_count df) (null_count df_updated)
                                (null_count df - null_count df_updated) rate)) ∧
  (∀ df, null_count df ≤ selected_count df) ∧
  (∃ df, (∀ price_statistics, analyze_csv price_statistics df = Ok (mkAnalysis 3 0 None)) ∧
         (∃ rate, compare_csvs df df = Ok (mkComparison 0 0 0 rate)) ∧
         selected_count df = 2 ∧
         rows df = Sample.property <$> [Str "UNKNOWN"; Str "  "; Str "Fulton"]).
Proof.
  split_and!.
  - intros price_statistics df a Ha.
    destruct (analyze_csv_returned _ _ _ Ha) as (H1 & H2 & H3).
    rewrite (analyze_csv_columns _ _ H1 H2 H3) in Ha.
    case_bool_decide; [|by injection Ha as <-].
    destruct (price_statistics _); [|done]. by injection Ha as <-.
  - intros price_statistics df H1 H2 H3 Hprice.
    rewrite (analyze_csv_columns _ _ H1 H2 H3).
    case_bool_decide as Hp; [|eauto].
    destruct (Hprice Hp) as [stats ->]. cbn. eauto.
  - intros df df_updated. apply compare_csvs_Ok.
  - apply null_count_le_selected.
  - exists (Sample.properties [Str "UNKNOWN"; Str "  "; Str "Fulton"]).
    split_and!; [| | vm_compute; reflexivity | reflexivity].
    + intros price_statistics.
      rewrite analyze_csv_columns by (apply (bool_decide_unpack _); reflexivity).
      vm_compute. reflexivity.
    + eexists. vm_compute. reflexivity.
Qed.

Lemma missing_counts_nulls_only_witness :
  ∃ a, analyze_csv Demo.one_dollar Demo.listings = Ok a ∧
       total_properties a = len Demo.listings ∧
       missing_county a = null_count Demo.listings.
Proof.
  apply (proj1 (proj2 missing_counts_nulls_only) Demo.one_dollar Demo.listings);
    [apply (bool_decide_unpack _); reflexivity.. |].
  intros _. eexists. reflexivity.
Defined.

(** C8: two county values that differ only by a space against an
    underscore get the same file name; the file written for the first
    group is overwritten with the second, so two distinct counties end
    in one file that holds one of the two rows.  This is a run in which
    the directory can be made, every file can be created and every line
    printed. *)
Theorem export_by_county_name_clash :
  group_keys [Str "De Kalb"; Str "De_Kalb"] = ["De Kalb"; "De_Kalb"] ∧
  export_by_county succeeds succeeds succeeds
                   (Sample.properties [Str "De Kalb"; Str "De_Kalb"]) "Data/by_county" ∅
  = (Ok ["Data/by_county/De_Kalb.csv"; "Data/by_county/De_Kalb.csv"],
     {[ "Data/by_county/De_Kalb.csv" := Sample.properties [Str "De_Kalb"] ]}).
Proof. split; vm_compute; reflexivity. Qed.

End AnalyzerFacts.

(** ** DataAnalyzer: the split by county *)

Section ExportFacts.
Import Utils.

Lemma filter_none {A} (P : A → Prop) `{∀ x, Decision (P x)} (l : list A) :
  (∀ x, x ∈ l → ¬ P x) → filter P l = [].
Proof.
  induction l as [|x l IH]; intros Hl; [done|].
  rewrite filter_cons_False by (apply Hl; left).
  apply IH. intros y Hy. apply Hl. by right.
Qed.

Lemma group_keys_NoDup county : NoDup (group_keys county).
Proof. unfold group_keys. rewrite merge_sort_Permutation. apply NoDup_remove_dups. Qed.

(** The group keys are the texts found in the county column. *)
Lemma group_keys_elem county k : k ∈ group_keys county ↔ Str k ∈ county.
Proof.
  unfold group_keys.
  rewrite merge_sort_Permutation, elem_of_remove_dups, list_elem_of_omap.
  split.
  - intros ([|s] & Hin & Hs); [done|]. by injection Hs as ->.
  - intros Hin. by exists (Str k).
Qed.

Lemma group_rows_cons k (r : Row) rs :
  length (group_rows k (r :: rs))
  = (length (filter (λ k', r !! "CountyName" = Some (Str k')) [k]) + length (group_rows k rs))%nat.
Proof.
  unfold group_rows.
  destruct (decide (r !! "CountyName" = Some (Str k))) as [H|H].
  - by rewrite !filter_cons_True.
  - by rewrite !filter_cons_False.
Qed.

(** Counting the groups of [r :: rs]: the keys that [r] matches, plus the
    groups of [rs]. *)
Lemma sum_groups_cons ks (r : Row) rs :
  sum_list_with (λ k, length (group_rows k (r :: rs))) ks
  = (length (filter (λ k, r !! "CountyName" = Some (Str k)) ks)
     + sum_list_with (λ k, length (group_rows k rs)) ks)%nat.
Proof.
  induction ks as [|k ks IH]; [done|].
  cbn [sum_list_with]. rewrite IH, group_rows_cons.
  destruct (decide (r !! "CountyName" = Some (Str k))) as [H|H].
  - rewrite !filter_cons_True by done. cbn. lia.
  - rewrite !filter_cons_False by done. cbn. lia.
Qed.

(** A row with a county matches exactly one of the keys. *)
Lemma matching_keys_one ks (r : Row) s :
  NoDup ks → s ∈ ks → r !! "CountyName" = Some (Str s) →
  length (filter (λ k, r !! "CountyName" = Some (Str k)) ks) = 1%nat.
Proof.
  intros Hnd Hin Hr. induction Hnd as [|k ks Hk Hnd IH]; [by apply elem_of_nil in Hin|].
  apply elem_of_cons in Hin as [<- | Hin].
  - rewrite filter_cons_True by done. cbn. f_equal.
    rewrite filter_none; [done|].
    intros k' Hk' Heq. rewrite Hr in Heq. injection Heq as ->. done.
  - rewrite filter_cons_False; [by apply IH|].
    intros Heq. rewrite Hr in Heq. injection Heq as ->. done.
Qed.

Lemma matching_keys_none ks (r : Row) :
  isna (county_of r) = true →
  length (filter (λ k, r !! "CountyName" = Some (Str k)) ks) = 0%nat.
Proof.
  intros Hna. rewrite filter_none; [done|].
  intros k _ Heq. unfold county_of in Hna. by rewrite Heq in Hna.
Qed.

(** Every row with a county is in exactly one group, a row without is in
    none: the sizes of the groups add up to the number of rows with a
    county. *)
Lemma sum_groups ks rs :
  NoDup ks →
  (∀ (r : Row) s, r ∈ rs → r !! "CountyName" = Some (Str s) → s ∈ ks) →
  sum_list_with (λ k, length (group_rows k rs)) ks
  = length (filter (λ r : Row, isna (county_of r) = false) rs).
Proof.
  intros Hnd. induction rs as [|r rs IH]; intros Hks.
  - clear. induction ks as [|k ks IH]; [done|]. exact IH.
  - rewrite sum_groups_cons, IH by (intros r' s Hr'; apply Hks; by right).
    destruct (isna (county_of r)) eqn:Hna.
    + rewrite matching_keys_none by done. by rewrite filter_cons_False by congruence.
    + rewrite filter_cons_True by done.
      assert (∃ s, r !! "CountyName" = Some (Str s)) as [s Hr].
      { unfold county_of in Hna. destruct (r !! "CountyName") as [[|s]|]; try done.
        by exists s. }
      rewrite (matching_keys_one ks r s); [done|done| |done].
      apply (Hks r s); [left|done].
Qed.

Lemma len_minus_null_count df :
  len df - null_count df
  = Z.of_nat (length (filter (λ r : Row, isna (county_of r) = false) (rows df))).
Proof.
  unfold len, null_count.
  induction (rows df) as [|r rs IH]; [done|].
  destruct (isna (county_of r)) eqn:Hna.
  - rewrite filter_cons_True, filter_cons_False by congruence. cbn [length]. lia.
  - rewrite filter_cons_False, filter_cons_True by congruence. cbn [length]. lia.
Qed.

(** The files after the groups of [written] have been written, in that
    order. *)
Lemma written_files_other df output_dir keys file : ∀ disk : gmap string DataFrame,
  file ∉ county_filename output_dir <$> keys →
  foldl (λ (d : gmap string DataFrame) k,
           <[county_filename output_dir k :=
               mkDataFrame (columns df) (group_rows k (rows df))]> d)
        disk keys !! file
  = disk !! file.
Proof.
  induction keys as [|k keys IH]; intros disk Hfile; [done|].
  cbn in *. apply not_elem_of_cons in Hfile as [Hne Hfile].
  rewrite IH by done. by rewrite lookup_insert_ne.
Qed.

Lemma written_files_lookup df output_dir keys k : ∀ disk : gmap string DataFrame,
  NoDup (county_filename output_dir <$> keys) → k ∈ keys →
  foldl (λ (d : gmap string DataFrame) k,
           <[county_filename output_dir k :=
               mkDataFrame (columns df) (group_rows k (rows df))]> d)
        disk keys !! county_filename output_dir k
  = Some (mkDataFrame (columns df) (group_rows k (rows df))).
Proof.
  induction keys as [|k0 keys IH]; intros disk Hnd Hin; [by apply elem_of_nil in Hin|].
  cbn in *. apply NoDup_cons in Hnd as [Hk0 Hnd].
  destruct (decide (k ∈ keys)) as [Hk|Hk]; [by apply IH|].
  apply elem_of_cons in Hin as [-> | Hin]; [|done].
  rewrite written_files_other by done. by rewrite lookup_insert_eq.
Qed.

(** A file among those written holds the group of one of the counties
    written. *)
Lemma written_files_group df output_dir keys file : ∀ disk : gmap string DataFrame,
  file ∈ county_filename output_dir <$> keys →
  ∃ k, k ∈ keys ∧ file = county_filename output_dir k ∧
       foldl (λ (d : gmap string DataFrame) k,
                <[county_filename output_dir k :=
                    mkDataFrame (columns df) (group_rows k (rows df))]> d)
             disk keys !! file
       = Some (mkDataFrame (columns df) (group_rows k (rows df))).
Proof.
  induction keys as [|k keys IH] using rev_ind; intros disk Hfile.
  - by apply elem_of_nil in Hfile.
  - rewrite fmap_app in Hfile. rewrite foldl_app. cbn [foldl].
    destruct (decide (file = county_filename output_dir k)) as [->|Hne].
    + exists k. rewrite lookup_insert_eq. split_and!; [|done..].
      apply elem_of_app. right. left.
    + apply elem_of_app in Hfile as [Hfile|Hfile].
      * destruct (IH disk Hfile) as (k' & Hk' & Hf & Hd).
        exists k'. rewrite lookup_insert_ne by done.
        split_and!; [|done..]. apply elem_of_app. by left.
      * cbn in Hfile. apply elem_of_cons in Hfile as [->|Hfile]; [done|].
        by apply elem_of_nil in Hfile.
Qed.

(** The loop of [export_by_county]: it writes the groups of a first part
    of the keys, in order, and stops at the end of the keys, or at the
    first key whose file cannot be created, or after the first file whose
    line cannot be printed. *)
Lemma export_groups_run create print df output_dir keys :
  ∀ files (disk : gmap string DataFrame),
  ∃ written rest,
    keys = (written ++ rest)%list ∧
    (export_groups create print df output_dir keys files disk).2
    = foldl (λ (d : gmap string DataFrame) k,
               <[county_filename output_dir k :=
                   mkDataFrame (columns df) (group_rows k (rows df))]> d)
            disk written ∧
    match (export_groups create print df output_dir keys files disk).1 with
    | Ok files_created =>
        rest = [] ∧ files_created = (files ++ (county_filename output_dir <$> keys))%list
    | Raise e =>
        (∃ k rest', rest = k :: rest' ∧ create (county_filename output_dir k) = Raise e) ∨
        (∃ done k, written = (done ++ [k])%list ∧
           print (Created (county_filename output_dir k)
                          (len (mkDataFrame (columns df) (group_rows k (rows df)))))
           = Raise e)
    end.
Proof.
  induction keys as [|k keys IH]; intros files disk.
  - exists [], []. cbn. by rewrite app_nil_r.
  - cbn [export_groups].
    destruct (create (county_filename output_dir k)) as [[]|e] eqn:Hcreate.
    + destruct (print _) as [[]|e] eqn:Hprint.
      * destruct (IH (files ++ [county_filename output_dir k])%list
                     (<[county_filename output_dir k :=
                          mkDataFrame (columns df) (group_rows k (rows df))]> disk))
          as (written & rest & -> & Hdisk & Hres).
        exists (k :: written), rest. split_and!; [done|exact Hdisk|].
        destruct (export_groups _ _ _ _ _ _ _).1 as [files'|e].
        -- destruct Hres as [-> ->]. split; [done|].
           rewrite fmap_cons. by rewrite <- app_assoc.
        -- destruct Hres as [Hres | (done & k' & -> & Hk')]; [by left|].
           right. by exists (k :: done), k'.
      * exists [k], keys. cbn. split_and!; [done..|].
        right. by exists [], k.
    + exists [], (k :: keys). cbn. split_and!; [done..|]. left. eauto.
Qed.

(** When the directory can be made, and the file of every county created
    and its line printed, the loop runs to its end. *)
Lemma export_groups_Ok create print df output_dir keys :
  ∀ files (disk : gmap string DataFrame),
  (∀ k, k ∈ keys → create (county_filename output_dir k) = Ok tt) →
  (∀ k, k ∈ keys →
        print (Created (county_filename output_dir k)
                       (len (mkDataFrame (columns df) (group_rows k (rows df))))) = Ok tt) →
  export_groups create print df output_dir keys files disk
  = (Ok (files ++ (county_filename output_dir <$> keys))%list,
     foldl (λ (d : gmap string DataFrame) k,
              <[county_filename output_dir k :=
                  mkDataFrame (columns df) (group_rows k (rows df))]> d)
           disk keys).
Proof.
  induction keys as [|k keys IH]; intros files disk Hcreate Hprint; cbn.
  - by rewrite app_nil_r.
  - rewrite (Hcreate k) by left. rewrite (Hprint k) by left.
    rewrite IH.
    + by rewrite <- app_assoc.
    + intros k' Hk'. apply Hcreate. by right.
    + intros k' Hk'. apply Hprint. by right.
Qed.

(** X19: the split in a run where the output directory can be made, the
    file of every county created and its line printed: one file name is
    listed per distinct county, rows without a county are in no group, no
    row is in two groups, and the groups together hold the rows that have
    a county.  When the file names of the counties are pairwise distinct,
    each group is on disk under its name. *)
Lemma export_by_county_groups makedirs create print df output_dir disk :
  let keys := group_keys (county_of <$> rows df) in
  "CountyName" ∈ columns df →
  makedirs output_dir = Ok tt →
  (∀ k, k ∈ keys → create (county_filename output_dir k) = Ok tt) →
  (∀ k, k ∈ keys →
        print (Created (county_filename output_dir k)
                       (len (mkDataFrame (columns df) (group_rows k (rows df))))) = Ok tt) →
  ∃ disk',
    export_by_county makedirs create print df output_dir disk
    = (Ok (county_filename output_dir <$> keys), disk') ∧
    (NoDup (county_filename output_dir <$> keys) →
     ∀ k, k ∈ keys →
       disk' !! county_filename output_dir k
       = Some (mkDataFrame (columns df) (group_rows k (rows df)))) ∧
    Z.of_nat (sum_list_with (λ k, length (group_rows k (rows df))) keys)
    = len df - null_count df.
Proof.
  intros keys Hc Hmakedirs Hcreate Hprint. unfold export_by_county.
  rewrite Hmakedirs, (getcol_Ok _ _ Hc).
  change (λ r : Row, default NaN (r !! "CountyName")) with county_of.
  fold keys. rewrite (export_groups_Ok _ _ _ _ _ _ _ Hcreate Hprint).
  eexists. split_and!; [done| |].
  - intros Hnd k Hk. by apply written_files_lookup.
  - rewrite len_minus_null_count. f_equal. apply sum_groups.
    + apply group_keys_NoDup.
    + intros r s Hr Hs. apply group_keys_elem.
      apply list_elem_of_fmap. exists r. split; [|done].
      unfold county_of. by rewrite Hs.
Qed.

End ExportFacts.

(** ** The pipeline with a geocoder that has no state *)

Section StatelessFacts.
Import DataProcessor.
Local Open Scope list_scope.

Context {World : Type}.
Variable f : cell → cell → cell → cell → option string.
Variable wait : World → World.

Lemma has_address_lookups (r : Row) :
  has_address r →
  r !! "StreetAddress" = Some (address_of r).1.1.1 ∧
  r !! "City" = Some (address_of r).1.1.2 ∧
  r !! "State" = Some (address_of r).1.2 ∧
  r !! "Zipcode" = Some (address_of r).2.
Proof.
  intros ([a Ha] & [b Hb] & [c Hc] & [d Hd]).
  unfold address_of. rewrite Ha, Hb, Hc, Hd. done.
Qed.

(** One row in the hands of [process_row], for a geocoder without state. *)
Lemma process_row_stateless idx (r : Row) progress_num total_to_process
      (s : @State World) :
  has_address r →
  process_row (stateless f) idx r progress_num total_to_process s
  = if truthy (answer_for f r)
    then (Ok true, mkState (world s) (count_geocoded (stats s))
                           (set_county idx (default "" (answer_for f r)) (frame s)))
    else (Ok false, mkState (world s) (count_failed (stats s)) (frame s)).
Proof.
  intros (Ha & Hb & Hc & Hd)%has_address_lookups.
  rewrite (process_row_run _ idx r progress_num total_to_process s _ _ _ _ Ha Hb Hc Hd).
  unfold stateless, answer_for. by destruct (address_of r) as [[[a b] c] d].
Qed.

Lemma enrich_row_unselected (r : Row) :
  needs_geocoding_mask (county_of r) = false → enrich_row f r = r.
Proof. intros H. unfold enrich_row. by rewrite H. Qed.

(** The loop over the selected rows of [rs], which sit in the frame behind
    the rows [pre] that are done. *)
Lemma process_rows_stateless progress_callback rs :
  ∀ pre progress_num total_to_process (s : @State World),
    (∀ r, r ∈ rs → has_address r) →
    rows (frame s) = pre ++ rs →
    ∃ s',
      process_rows (stateless f) wait progress_callback
        (select_from (length pre) (needs_geocoding_mask <$> (county_of <$> rs)) rs)
        progress_num total_to_process s = (Ok tt, s') ∧
      columns (frame s') = columns (frame s) ∧
      rows (frame s') = pre ++ (enrich_row f <$> rs) ∧
      total (stats s') = total (stats s) ∧
      needs_geocoding (stats s') = needs_geocoding (stats s) ∧
      already_had_county (stats s') = already_had_county (stats s) ∧
      geocoded (stats s')
      = geocoded (stats s)
        + Z.of_nat (length (filter (λ r : Row, truthy (answer_for f r) = true)
              (filter (λ r : Row, needs_geocoding_mask (county_of r) = true) rs))) ∧
      failed (stats s')
      = failed (stats s)
        + Z.of_nat (length (filter (λ r : Row, truthy (answer_for f r) = false)
              (filter (λ r : Row, needs_geocoding_mask (county_of r) = true) rs))).
Proof.
  induction rs as [|r rs IH]; intros pre n t s Haddr Hrows.
  - exists s. cbn. rewrite Hrows. split_and!; try done; lia.
  - rewrite !fmap_cons. cbn [select_from].
    assert (∀ r', r' ∈ rs → has_address r') as Haddr' by (intros r' ?; apply Haddr; by right).
    assert (S (length pre) = length (pre ++ [r])) as Hlen
      by (rewrite length_app; cbn; lia).
    destruct (needs_geocoding_mask (county_of r)) eqn:Hsel.
    + rewrite process_rows_cons, process_row_stateless by (apply Haddr; left).
      rewrite (filter_cons_True (λ r : Row, needs_geocoding_mask (county_of r) = true)) by done.
      destruct (truthy (answer_for f r)) eqn:Hans.
      * rewrite Hlen.
        edestruct (IH (pre ++ [<["CountyName" := Str (default "" (answer_for f r))]> r])
                      (S n) t) as (s' & Hrun & Hc & Hr & Ht & Hn & Ha & Hg & Hf);
          [exact Haddr' | |].
        2:{ rewrite length_app in Hrun |- *. cbn [length] in Hrun |- *.
            rewrite Hrun. exists s'.
            rewrite filter_cons_True, filter_cons_False by congruence.
            unfold enrich_row at 1. rewrite Hsel, Hans. cbn [andb].
            rewrite <- app_assoc in Hr. cbn in *.
            split_and!; try done; lia. }
        cbn. rewrite Hrows.
        replace (length pre) with (length pre + 0)%nat by lia.
        rewrite alter_app_r. cbn. by rewrite <- app_assoc.
      * rewrite Hlen.
        edestruct (IH (pre ++ [r]) (S n) t) as (s' & Hrun & Hc & Hr & Ht & Hn & Ha & Hg & Hf);
          [exact Haddr' | |].
        2:{ rewrite Hrun. exists s'.
            rewrite filter_cons_False, filter_cons_True by congruence.
            unfold enrich_row at 1. rewrite Hsel, Hans. cbn [andb].
            rewrite <- app_assoc in Hr. cbn in *.
            split_and!; try done; lia. }
        cbn. rewrite Hrows. by rewrite <- app_assoc.
    + rewrite (filter_cons_False (λ r : Row, needs_geocoding_mask (county_of r) = true))
        by congruence.
      rewrite Hlen.
      edestruct (IH (pre ++ [r]) n t s) as (s' & Hrun & Hc & Hr & Ht & Hn & Ha & Hg & Hf);
        [exact Haddr' | by rewrite <- app_assoc |].
      rewrite Hrun. exists s'. rewrite enrich_row_unselected by done.
      rewrite <- app_assoc in Hr. split_and!; done.
Qed.

(** The run of [process_dataframe] with a geocoder without state. *)
Lemma process_dataframe_stateless_run progress_callback (s : @State World) :
  has_columns (frame s) required_columns = true →
  rectangular (frame s) = true →
  ∃ s',
    process_dataframe (stateless f) wait progress_callback s = (Ok (frame s'), s') ∧
    frame s' = mkDataFrame (columns (frame s)) (enrich_row f <$> rows (frame s)) ∧
    total (stats s') = total (stats s) ∧
    needs_geocoding (stats s') = selected_count (frame s) ∧
    already_had_county (stats s') = len (frame s) - selected_count (frame s) ∧
    geocoded (stats s') = geocoded (stats s) + answered_count f (frame s) ∧
    failed (stats s') = failed (stats s) + unanswered_count f (frame s).
Proof.
  intros Hcols Hrect.
  assert (∀ c, c ∈ required_columns → c ∈ columns (frame s)) as Hin.
  { intros c. by apply has_columns_elem. }
  rewrite process_dataframe_unfold by (apply Hin; set_solver). cbn zeta.
  unfold select_rows.
  match goal with
  | |- context [process_rows _ _ _ _ ?n ?t ?s1] =>
      edestruct (process_rows_stateless progress_callback (rows (frame s)) [] n t s1)
        as (s' & Hrun & Hc & Hr & Ht & Hn & Ha & Hg & Hf)
  end.
  { intros r Hr. split_and!;
      (apply (rectangular_lookup (frame s)); [done..|apply Hin; set_solver]). }
  { done. }
  cbn [length] in Hrun. rewrite Hrun. exists s'.
  cbn [stats frame total needs_geocoding geocoded failed already_had_county] in *.
  split_and!; [done| |exact Ht|exact Hn|exact Ha|exact Hg|exact Hf].
  destruct (frame s') as [cols' rows']. cbn in Hc, Hr. by subst.
Qed.

Lemma address_of_insert_county (r : Row) v :
  address_of (<["CountyName" := v]> r) = address_of r.
Proof. unfold address_of. by rewrite !lookup_insert_ne. Qed.

(** Enriching an enriched row changes nothing: the address, and with it
    the answer, is the same, and the county is already the answer. *)
Lemma enrich_row_idemp (r : Row) : enrich_row f (enrich_row f r) = enrich_row f r.
Proof.
  destruct (needs_geocoding_mask (county_of r) && truthy (answer_for f r)) eqn:H.
  - assert (enrich_row f r = <["CountyName" := Str (default "" (answer_for f r))]> r) as ->
      by (unfold enrich_row; by rewrite H).
    unfold enrich_row, answer_for. rewrite address_of_insert_county.
    match goal with |- (if ?b then _ else _) = _ => destruct b end; [|done].
    by rewrite insert_insert_eq.
  - assert (enrich_row f r = r) as -> by (unfold enrich_row; by rewrite H).
    unfold enrich_row. by rewrite H.
Qed.

Lemma dom_enrich_row (r : Row) :
  is_Some (r !! "CountyName") → dom (enrich_row f r) = dom r.
Proof.
  intros Hc. unfold enrich_row.
  destruct (needs_geocoding_mask _ && _); [|done].
  rewrite dom_insert_L. apply elem_of_dom in Hc.
  apply subseteq_union_1_L. by apply singleton_subseteq_l.
Qed.

Lemma rectangular_enriched df :
  "CountyName" ∈ columns df → rectangular df = true →
  rectangular (mkDataFrame (columns df) (enrich_row f <$> rows df)) = true.
Proof.
  intros Hc Hrect. unfold rectangular. cbn [columns rows].
  apply forallb_forall. intros r' Hr'.
  apply list_elem_of_In, list_elem_of_fmap in Hr' as (r & -> & Hr).
  apply bool_decide_eq_true.
  rewrite dom_enrich_row by (by apply (rectangular_lookup df)).
  unfold rectangular in Hrect. rewrite forallb_forall in Hrect.
  apply list_elem_of_In in Hr. specialize (Hrect _ Hr).
  by apply bool_decide_eq_true in Hrect.
Qed.

(** X1: with a geocoder whose answer depends on the address alone, the
    whole pipeline is a map over the rows: a selected row whose lookup has a
    usable answer gets that answer as its county, every other row is kept;
    "geocoded" and "failed" count the selected rows with and without such an
    answer. *)
Theorem process_csv_file_stateless input_file w df0 :
  has_columns input_file required_columns = true →
  rectangular input_file = true →
  ∃ s',
    process_csv_file (stateless f) wait input_file (fresh w df0)
    = (Ok (mkDataFrame (columns input_file) (enrich_row f <$> rows input_file)), s') ∧
    frame s' = mkDataFrame (columns input_file) (enrich_row f <$> rows input_file) ∧
    stats s' = mkStats (len input_file) (selected_count input_file)
                       (answered_count f input_file) (unanswered_count f input_file)
                       (len input_file - selected_count input_file).
Proof.
  intros Hcols Hrect.
  unfold process_csv_file, load_csv, fresh.
  unfold mbind at 1 2 3 4, M_bind at 1 2 3 4; cbn.
  edestruct (process_dataframe_stateless_run None)
    as (s' & -> & Hf & Ht & Hn & Ha & Hg & Hfl); [exact Hcols | exact Hrect |].
  cbn in *. exists s'. rewrite Hf. split_and!; [done..|].
  destruct (stats s'). cbn in *. f_equal; lia.
Qed.

(** X2: running [process_dataframe] once more on its own result, with the
    same geocoder without state, leaves the frame as it is. *)
Theorem process_dataframe_stateless_twice progress_callback (s : @State World) :
  has_columns (frame s) required_columns = true →
  rectangular (frame s) = true →
  ∃ s1 s2,
    process_dataframe (stateless f) wait progress_callback s = (Ok (frame s1), s1) ∧
    process_dataframe (stateless f) wait progress_callback s1 = (Ok (frame s2), s2) ∧
    frame s2 = frame s1.
Proof.
  intros Hcols Hrect.
  destruct (process_dataframe_stateless_run progress_callback s Hcols Hrect)
    as (s1 & Hrun1 & Hf1 & _).
  assert ("CountyName" ∈ columns (frame s)) as Hc
    by (apply (has_columns_elem _ required_columns); [done|set_solver]).
  destruct (process_dataframe_stateless_run progress_callback s1)
    as (s2 & Hrun2 & Hf2 & _).
  { by rewrite Hf1. }
  { rewrite Hf1. by apply rectangular_enriched. }
  exists s1, s2. split_and!; [done..|].
  rewrite Hf2, Hf1. cbn [columns rows]. f_equal.
  rewrite <- list_fmap_compose. apply list_fmap_ext. intros _ r _. apply enrich_row_idemp.
Qed.

End StatelessFacts.

(** ** What a run asks of the outside, and how it fails *)

Section RunFacts.
Import DataProcessor.
Local Open Scope list_scope.

Context {World : Type}.
Variable geocode_address : cell → cell → cell → cell → World → option string * World.
Variable wait : World → World.

Lemma select_from_rows rs : ∀ i,
  (select_from i (needs_geocoding_mask <$> (county_of <$> rs)) rs).*2
  = filter (λ r : Row, needs_geocoding_mask (county_of r) = true) rs.
Proof.
  induction rs as [|r rs IH]; intros i; [done|].
  rewrite !fmap_cons. cbn [select_from].
  destruct (needs_geocoding_mask (county_of r)) eqn:Hsel.
  - rewrite filter_cons_True by done. rewrite fmap_cons. cbn. by rewrite IH.
  - rewrite filter_cons_False by congruence. apply IH.
Qed.

Lemma missing_rows_selected df :
  (select_rows (needs_geocoding_mask <$> (county_of <$> rows df)) (rows df)).*2
  = selected_rows df.
Proof. apply select_from_rows. Qed.

Lemma selected_rows_length df : Z.of_nat (length (selected_rows df)) = selected_count df.
Proof. reflexivity. Qed.

(** The loop with the instrumented geocoder, wait and callback. *)
Lemma process_rows_traced items : ∀ progress_num total_to_process (s : @State (World * Trace)),
  (∀ i row, (i, row) ∈ items → has_address row) →
  ∃ s',
    process_rows (traced_geocoder geocode_address) (traced_wait wait) (Some traced_callback)
                 items progress_num total_to_process s = (Ok tt, s') ∧
    lookups (world s').2 = lookups (world s).2 ++ (address_of <$> items.*2) ∧
    waits (world s').2 = (waits (world s).2 + length items)%nat ∧
    progress (world s').2
    = progress (world s).2
      ++ ((λ k, (k, total_to_process)) <$> seq progress_num (length items)).
Proof.
  induction items as [|[idx row] rest IH]; intros n t s Haddr.
  - exists s. cbn. rewrite !app_nil_r. split_and!; [done..|lia|done].
  - rewrite process_rows_cons.
    destruct (has_address_lookups row) as (Ha & Hb & Hc & Hd); [apply (Haddr idx); left|].
    rewrite (process_row_run _ idx row n t s _ _ _ _ Ha Hb Hc Hd).
    unfold traced_geocoder at 1.
    destruct (geocode_address _ _ _ _ _) as [county w].
    destruct (truthy county);
      (edestruct (IH (S n) t) as (s' & -> & Hl & Hw & Hp);
       [intros i r Hin; apply (Haddr i r); by right|]);
      exists s'; cbn in Hl, Hw, Hp |- *;
      rewrite Hl, Hw, Hp, <- !app_assoc; cbn;
      (split_and!; [done|reflexivity|lia|done]).
Qed.

(** X3: a run makes exactly one lookup and one wait for each selected
    row, in the order of the frame and with the address cells of that row,
    and calls the progress callback after each of them with the position
    [1, 2, ..., n] and the number [n] of selected rows; it is never called
    with [n = 0]. *)
Theorem process_dataframe_trace (s : @State (World * Trace)) :
  has_columns (frame s) required_columns = true →
  rectangular (frame s) = true →
  let n := length (selected_rows (frame s)) in
  ∃ s',
    process_dataframe (traced_geocoder geocode_address) (traced_wait wait)
                      (Some traced_callback) s = (Ok (frame s'), s') ∧
    lookups (world s').2 = lookups (world s).2 ++ (address_of <$> selected_rows (frame s)) ∧
    waits (world s').2 = (waits (world s).2 + n)%nat ∧
    progress (world s').2 = progress (world s).2 ++ ((λ k, (k, n)) <$> seq 1 n) ∧
    ∀ k m, (k, m) ∈ (λ k, (k, n)) <$> seq 1 n → (1 ≤ k ≤ m)%nat.
Proof.
  intros Hcols Hrect n.
  assert (∀ c, c ∈ required_columns → c ∈ columns (frame s)) as Hin.
  { intros c. by apply has_columns_elem. }
  rewrite process_dataframe_unfold by (apply Hin; set_solver). cbn zeta.
  match goal with
  | |- context [process_rows _ _ _ ?items ?k ?t ?s1] =>
      edestruct (process_rows_traced items k t s1) as (s' & Hrun & Hl & Hw & Hp)
  end.
  { intros i row [Hrow _]%missing_rows_elem.
    apply list_elem_of_lookup_2 in Hrow.
    split_and!; (apply (rectangular_lookup (frame s)); [done..|apply Hin; set_solver]). }
  rewrite Hrun. exists s'.
  rewrite missing_rows_selected in Hl.
  assert (length (select_rows (needs_geocoding_mask <$> (county_of <$> rows (frame s)))
                              (rows (frame s))) = n) as Hn.
  { unfold n. by rewrite <- missing_rows_selected, length_fmap. }
  rewrite Hn in Hw, Hp. cbn [world] in Hl, Hw, Hp.
  split_and!; [done..|].
  intros k m (k' & [= -> ->] & Hk%elem_of_seq)%list_elem_of_fmap. lia.
Qed.

(** A row without one of its address cells stops [process_row] before any
    lookup. *)
Lemma process_row_missing idx (row : Row) progress_num total_to_process
      (s : @State World) k :
  first_missing row = Some k →
  process_row geocode_address idx row progress_num total_to_process s
  = (Raise (KeyError k), s).
Proof.
  unfold first_missing, process_row, mbind, M_bind, lift, row_getitem. cbn [List.find].
  destruct (row !! "StreetAddress"); cbn; [|by intros [= <-]].
  destruct (row !! "City"); cbn; [|by intros [= <-]].
  destruct (row !! "State"); cbn; [|by intros [= <-]].
  destruct (row !! "Zipcode"); cbn; [done|by intros [= <-]].
Qed.

Lemma first_missing_rectangular df (r : Row) :
  rectangular df = true → r ∈ rows df → first_missing r = first_missing_column df.
Proof.
  intros Hrect Hr.
  assert (∀ c, bool_decide (r !! c = None) = bool_decide (c ∉ columns df)) as Heq.
  { intros c. apply bool_decide_ext.
    unfold rectangular in Hrect. rewrite forallb_forall in Hrect.
    apply list_elem_of_In in Hr. specialize (Hrect _ Hr).
    apply bool_decide_eq_true in Hrect.
    rewrite <- not_elem_of_dom, Hrect. by rewrite elem_of_list_to_set. }
  unfold first_missing, first_missing_column. cbn [List.find]. by rewrite !Heq.
Qed.

(** X4: on data without the county column the pipeline raises
    [KeyError("CountyName")] right after loading: the frame is the one that
    was read, "total" is set, every other counter is zero, and no lookup has
    been made. *)
Theorem process_csv_file_no_county_column input_file w df0 :
  "CountyName" ∉ columns input_file →
  process_csv_file geocode_address wait input_file (fresh w df0)
  = (Raise (KeyError "CountyName"),
     mkState w (mkStats (len input_file) 0 0 0 0) input_file).
Proof.
  intros Hc. unfold process_csv_file, load_csv, fresh.
  unfold mbind at 1 2 3 4, M_bind at 1 2 3 4; cbn.
  by rewrite process_dataframe_no_column.
Qed.

(** X5: on data that has the county column but lacks an address column,
    the run succeeds without a lookup when no row is selected; otherwise it
    raises [KeyError] for the first missing one of StreetAddress, City,
    State, Zipcode at the first selected row, after "needs_geocoding" and
    "already_had_county" have been set, with no lookup made and the frame
    untouched. *)
Theorem process_dataframe_no_address_column progress_callback (s : @State World) k :
  "CountyName" ∈ columns (frame s) →
  rectangular (frame s) = true →
  first_missing_column (frame s) = Some k →
  let counted :=
    mkState (world s)
            (mkStats (total (stats s)) (selected_count (frame s)) (geocoded (stats s))
                     (failed (stats s)) (len (frame s) - selected_count (frame s)))
            (frame s) in
  process_dataframe geocode_address wait progress_callback s
  = match selected_rows (frame s) with
    | [] => (Ok (frame s), counted)
    | _ :: _ => (Raise (KeyError k), counted)
    end.
Proof.
  intros Hc Hrect Hk counted.
  rewrite process_dataframe_unfold by done. cbn zeta.
  rewrite <- missing_rows_selected.
  pose proof (missing_rows_elem (frame s)) as Helem.
  destruct (select_rows _ _) as [|[idx row] rest]; [done|].
  rewrite process_rows_cons, (process_row_missing _ _ _ _ _ k); [done|].
  destruct (Helem idx row) as [Hrow _]; [left|].
  rewrite (first_missing_rectangular (frame s)); [done..|].
  by apply list_elem_of_lookup_2 in Hrow.
Qed.

(** [process_csv_file] from any state of the processor. *)
Lemma process_csv_file_run input_file (s : @State World) :
  has_columns input_file required_columns = true →
  rectangular input_file = true →
  ∃ s',
    process_csv_file geocode_address wait input_file s = (Ok (frame s'), s') ∧
    total (stats s') = len input_file ∧
    needs_geocoding (stats s') = selected_count input_file ∧
    already_had_county (stats s') = len input_file - selected_count input_file ∧
    geocoded (stats s') + failed (stats s')
    = geocoded (stats s) + failed (stats s) + selected_count input_file.
Proof.
  intros Hcols Hrect. unfold process_csv_file, load_csv.
  unfold mbind at 1 2 3 4, M_bind at 1 2 3 4; cbn.
  edestruct (process_dataframe_run geocode_address wait None)
    as (s' & -> & Ht & Hn & Ha & Hg & Hf & Hsum); [exact Hcols | exact Hrect |].
  exists s'. cbn in *. split_and!; done.
Qed.

(** X6: the counters belong to the processor, not to the run.  When one
    processor handles two files in turn, "total", "needs_geocoding" and
    "already_had_county" describe the second file alone, while "geocoded"
    and "failed" have kept counting: together they are the selected rows of
    both files. *)
Theorem process_csv_file_reused first_file second_file w df0 :
  has_columns first_file required_columns = true →
  rectangular first_file = true →
  has_columns second_file required_columns = true →
  rectangular second_file = true →
  ∃ s1 s2,
    process_csv_file geocode_address wait first_file (fresh w df0) = (Ok (frame s1), s1) ∧
    process_csv_file geocode_address wait second_file s1 = (Ok (frame s2), s2) ∧
    total (stats s2) = len second_file ∧
    needs_geocoding (stats s2) = selected_count second_file ∧
    already_had_county (stats s2) = len second_file - selected_count second_file ∧
    geocoded (stats s2) + failed (stats s2)
    = selected_count first_file + selected_count second_file.
Proof.
  intros Hc1 Hr1 Hc2 Hr2.
  destruct (process_csv_file_run first_file (fresh w df0) Hc1 Hr1)
    as (s1 & Hrun1 & _ & _ & _ & Hsum1).
  destruct (process_csv_file_run second_file s1 Hc2 Hr2)
    as (s2 & Hrun2 & Ht & Hn & Ha & Hsum2).
  exists s1, s2. cbn in Hsum1. split_and!; [done..|lia].
Qed.

End RunFacts.

(** ** The caching geocoder of the examples *)

(** A key outside [D] adds one to the keys that are outside [D]. *)
Lemma size_fresh_key (k : string) (K D : gset string) :
  k ∉ D → size (({[k]} ∪ K) ∖ D) = S (size (K ∖ ({[k]} ∪ D))).
Proof.
  intros Hk.
  assert (({[k]} ∪ K) ∖ D = {[k]} ∪ (K ∖ ({[k]} ∪ D))) as ->.
  { apply set_eq; intros x. destruct (decide (x = k)); set_solver. }
  rewrite size_union by set_solver. by rewrite size_singleton.
Qed.

Section CacheFacts.
Import Geocoder Examples.
Local Open Scope list_scope.

Variable http : list (list (string * cell)) → list (string * cell) → api_outcome.

(** A lookup whose key is cached answers from the cache and sends
    nothing. *)
Lemma cached_geocode_address_hit a b c d (s : Cached) v :
  cache s !! cache_key a b c d = Some v →
  cached_geocode_address http a b c d s = (Ok v, s).
Proof. intros H. unfold cached_geocode_address. by rewrite H. Qed.

(** A lookup whose key is not cached sends one request and stores what the
    base class returns, [None] included. *)
Lemma cached_geocode_address_miss a b c d (s : Cached) :
  cache s !! cache_key a b c d = None →
  ∃ v,
    geocode_address succeeds (http (sent s)) a b c d = Ok v ∧
    cached_geocode_address http a b c d s
    = (Ok v, mkCached (<[cache_key a b c d := v]> (cache s))
                      (sent s ++ [params a b c d])).
Proof.
  intros H. unfold cached_geocode_address, census_lookup. rewrite H.
  destruct (geocode_address_returns (http (sent s)) a b c d) as [v Hv].
  exists v. by rewrite Hv.
Qed.

Lemma cached_lookups_run addresses : ∀ s : Cached,
  ∃ vs s',
    cached_lookups http addresses s = (Ok vs, s') ∧
    length (sent s')
    = (length (sent s) + size (distinct_keys addresses ∖ dom (cache s)))%nat ∧
    dom (cache s') = dom (cache s) ∪ distinct_keys addresses ∧
    cache s ⊆ cache s' ∧
    vs = (λ address, default JNull (cache s' !! address_key address)) <$> addresses.
Proof.
  induction addresses as [|[[[a b] c] d] rest IH]; intros s.
  - exists [], s. unfold distinct_keys. cbn.
    split_and!; [done| |set_solver|done|done].
    replace (∅ ∖ dom (cache s)) with (∅ : gset string) by set_solver.
    rewrite size_empty. lia.
  - cbn [cached_lookups].
    destruct (cache s !! cache_key a b c d) as [hit|] eqn:Hkey.
    + rewrite (cached_geocode_address_hit _ _ _ _ _ _ Hkey).
      destruct (IH s) as (vs & s' & -> & Hsent & Hdom & Hsub & Hvs).
      exists (hit :: vs), s'.
      assert (cache_key a b c d ∈ dom (cache s)) as Hin by (apply elem_of_dom; eauto).
      unfold distinct_keys in *. rewrite fmap_cons, list_to_set_cons. cbn [address_key].
      split_and!; [done| |set_solver|done|].
      * rewrite Hsent. do 2 f_equal. set_solver.
      * rewrite fmap_cons. cbn [address_key].
        rewrite (lookup_weaken _ _ _ _ Hkey Hsub). cbn. by rewrite <- Hvs.
    + destruct (cached_geocode_address_miss a b c d s Hkey) as (v & _ & ->).
      destruct (IH (mkCached (<[cache_key a b c d := v]> (cache s))
                            (sent s ++ [params a b c d])))
        as (vs & s' & -> & Hsent & Hdom & Hsub & Hvs).
      exists (v :: vs), s'. cbn [cache sent] in *.
      assert (cache_key a b c d ∉ dom (cache s)) as Hnin by (by apply not_elem_of_dom).
      unfold distinct_keys in *. rewrite fmap_cons, list_to_set_cons. cbn [address_key].
      rewrite dom_insert_L in Hsent, Hdom.
      split_and!; [done| |set_solver| |].
      * rewrite Hsent, length_app. cbn [length].
        rewrite size_fresh_key by done. lia.
      * etrans; [|exact Hsub]. by apply insert_subseteq.
      * rewrite fmap_cons. cbn [address_key].
        rewrite (lookup_weaken (<[cache_key a b c d := v]> (cache s)) (cache s')
                               (cache_key a b c d) v);
          [|by rewrite lookup_insert_eq|done].
        cbn. by rewrite <- Hvs.
Qed.

(** X7: through a caching geocoder that starts with an empty cache, a
    series of lookups sends as many requests as the series has distinct
    cache keys; the lookups all return, and each returns what the cache
    holds for its key at the end, so lookups with the same key get the same
    answer. *)
Theorem cached_lookups_requests addresses :
  ∃ vs s',
    cached_lookups http addresses (mkCached ∅ []) = (Ok vs, s') ∧
    length (sent s') = size (distinct_keys addresses) ∧
    dom (cache s') = distinct_keys addresses ∧
    vs = (λ address, default JNull (cache s' !! address_key address)) <$> addresses.
Proof.
  destruct (cached_lookups_run addresses (mkCached ∅ []))
    as (vs & s' & Hrun & Hsent & Hdom & _ & Hvs).
  exists vs, s'. cbn [cache sent length] in *. rewrite dom_empty_L in Hsent, Hdom.
  rewrite difference_empty_L in Hsent. rewrite union_empty_l_L in Hdom.
  split_and!; done.
Qed.

Lemma geocode_address_failed o a b c d :
  transport_error (o (params a b c d)) = true →
  geocode_address succeeds o a b c d = Ok JNull.
Proof.
  rewrite geocode_address_caught. intros Herr. f_equal.
  unfold geocode_address_try.
  destruct (o _) as [| |status [data|]]; cbn in *; try reflexivity.
  - rewrite orb_false_r in Herr. unfold raise_for_status. by rewrite Herr.
  - unfold raise_for_status. by destruct ((400 <=? status) && (status <? 600)).
Qed.

(** X8: a failure is cached like an answer.  When the first request for
    an address fails (no connection, timeout, status 400 to 599, or a body
    that is not JSON), the second lookup of that address returns [None]
    again without sending a request, whatever the network would answer by
    then. *)
Theorem cached_failure_sticks a b c d :
  transport_error (http [] (params a b c d)) = true →
  cached_lookups http [(a, b, c, d); (a, b, c, d)] (mkCached ∅ [])
  = (Ok [JNull; JNull],
     mkCached {[ cache_key a b c d := JNull ]} [params a b c d]).
Proof.
  intros Herr. cbn [cached_lookups].
  destruct (cached_geocode_address_miss a b c d (mkCached ∅ [])) as (v & Hv & ->); [done|].
  cbn [sent cache] in *. rewrite (geocode_address_failed _ _ _ _ _ Herr) in Hv.
  injection Hv as <-.
  rewrite (cached_geocode_address_hit a b c d _ JNull) by apply lookup_insert_eq.
  done.
Qed.

(** X9: the cache key joins the four parts with a bar and so does not
    tell apart addresses whose parts contain bars: the second of two
    addresses with equal keys gets the answer of the first, with no request
    of its own; such addresses exist. *)
Theorem cached_key_clash :
  (∀ first second,
     address_key first = address_key second →
     ∃ v s',
       cached_lookups http [first; second] (mkCached ∅ []) = (Ok [v; v], s') ∧
       sent s' = [address_params first]) ∧
  (∃ first second, first ≠ second ∧ address_key first = address_key second).
Proof.
  split.
  - intros [[[a b] c] d] [[[a' b'] c'] d'] Hkey. cbn [address_key] in Hkey.
    cbn [cached_lookups].
    destruct (cached_geocode_address_miss a b c d (mkCached ∅ [])) as (v & _ & ->); [done|].
    cbn [sent cache].
    rewrite (cached_geocode_address_hit a' b' c' d' _ v)
      by (rewrite <- Hkey; apply lookup_insert_eq).
    by exists v, (mkCached (<[cache_key a b c d := v]> ∅) [params a b c d]).
  - exists (Str "1 Main St|Apt 2", Str "Atlanta", Str "GA", Str "30303"),
           (Str "1 Main St", Str "Apt 2|Atlanta", Str "GA", Str "30303").
    split; [discriminate | reflexivity].
Qed.

End CacheFacts.

(** ** The frequency tables of [analyze_csv] *)

Lemma len_minus_null_count_eq df :
  Z.of_nat (length (filter (λ r : Row, isna (county_of r) = false) (rows df)))
  + null_count df = len df.
Proof. rewrite <- len_minus_null_count. lia. Qed.

Section ReportFacts.
Import Reports.
Local Open Scope list_scope.

(** The table holds, for each text of the column, the number of cells with
    that text, and nothing else. *)
Lemma value_counts_lookup col k :
  value_counts col !! k
  = match length (filter (λ v, v = Str k) col) with
    | O => None
    | S n => Some (S n)
    end.
Proof.
  induction col as [|v col IH]; [done|].
  cbn [value_counts foldr]. fold (value_counts col).
  destruct v as [|s].
  - rewrite filter_cons_False by done. exact IH.
  - destruct (decide (s = k)) as [->|Hne].
    + rewrite lookup_insert_eq, filter_cons_True by done. cbn [length].
      rewrite IH. by destruct (length (filter _ col)).
    + rewrite lookup_insert_ne by done.
      rewrite filter_cons_False by congruence. exact IH.
Qed.

Lemma group_rows_column k rs :
  length (Utils.group_rows k rs) = length (filter (λ v, v = Str k) (county_of <$> rs)).
Proof.
  unfold Utils.group_rows. induction rs as [|r rs IH]; [done|].
  rewrite fmap_cons.
  destruct (decide (r !! "CountyName" = Some (Str k))) as [H|H].
  - rewrite !filter_cons_True; [cbn; by rewrite IH| |done].
    unfold county_of. by rewrite H.
  - rewrite !filter_cons_False; [done| |done].
    unfold county_of. destruct (r !! "CountyName") as [v|]; cbn; congruence.
Qed.

Lemma group_rows_key_nonempty df k :
  k ∈ Utils.group_keys (county_of <$> rows df) →
  (0 < length (Utils.group_rows k (rows df)))%nat.
Proof.
  intros Hk%group_keys_elem. rewrite group_rows_column.
  induction (county_of <$> rows df) as [|v col IH]; [by apply elem_of_nil in Hk|].
  apply elem_of_cons in Hk as [<- | Hk].
  - rewrite filter_cons_True by done. cbn. lia.
  - specialize (IH Hk). destruct (decide (v = Str k)).
    + rewrite filter_cons_True by done. cbn. lia.
    + by rewrite filter_cons_False.
Qed.

Lemma analyze_csv_tables_Ok df :
  "CountyName" ∈ columns df → "City" ∈ columns df → "Zipcode" ∈ columns df →
  ∃ types,
    analyze_csv_tables df
    = Ok (mkTables (len df) (value_counts (county_of <$> rows df)) (null_count df) types).
Proof.
  intros H1 H2 H3. unfold analyze_csv_tables.
  rewrite (getcol_Ok _ _ H1), (getcol_Ok _ _ H2), (getcol_Ok _ _ H3). cbn.
  change (λ r : Row, default NaN (r !! "CountyName")) with county_of.
  rewrite <- list_fmap_compose, sum_true_fmap.
  change (Z.of_nat (length (filter _ (rows df)))) with (null_count df).
  destruct (bool_decide ("HomeType" ∈ columns df)) eqn:Hh; cbn; [|eauto].
  apply bool_decide_eq_true in Hh. rewrite (getcol_Ok _ _ Hh). cbn. eauto.
Qed.

(** X10: on data without a price column, the county table of
    [analyze_csv] agrees with the split of [export_by_county]: its keys are the group keys, the count of a county
    is the number of rows in that county's group, and the counts together
    with the number of rows without a county make up the total. *)
Theorem analyze_csv_counties df :
  "CountyName" ∈ columns df → "City" ∈ columns df → "Zipcode" ∈ columns df →
  "Price" ∉ columns df →
  ∃ t,
    analyze_csv_tables df = Ok t ∧
    total_properties t = len df ∧
    missing_county t = null_count df ∧
    (∀ k, k ∈ Utils.group_keys (county_of <$> rows df) ↔ is_Some (counties t !! k)) ∧
    (∀ k n, counties t !! k = Some n →
            n = length (Utils.group_rows k (rows df)) ∧ (0 < n)%nat) ∧
    Z.of_nat (sum_list_with (λ k, default 0%nat (counties t !! k))
                            (Utils.group_keys (county_of <$> rows df)))
    + missing_county t = total_properties t.
Proof.
  intros H1 H2 H3 _.
  destruct (analyze_csv_tables_Ok df H1 H2 H3) as [types ->].
  eexists. split; [done|]. cbn [total_properties missing_county counties].
  assert (∀ k n, value_counts (county_of <$> rows df) !! k = Some n →
                 n = length (Utils.group_rows k (rows df)) ∧ (0 < n)%nat) as Hcount.
  { intros k n. rewrite value_counts_lookup, group_rows_column.
    destruct (length _); [done|]. intros [= <-]. split; [done|lia]. }
  split_and!; [done|done| |exact Hcount|].
  - intros k. split.
    + intros Hk%group_rows_key_nonempty.
      rewrite value_counts_lookup, <- group_rows_column.
      destruct (length _); [lia|eauto].
    + intros [n Hn]. destruct (Hcount k n Hn) as [-> Hpos].
      apply group_keys_elem.
      rewrite group_rows_column in Hpos.
      destruct (filter _ _) as [|v l] eqn:Hf; [cbn in Hpos; lia|].
      assert (v ∈ filter (λ v, v = Str k) (county_of <$> rows df)) as Hv
        by (rewrite Hf; left).
      apply list_elem_of_filter in Hv as [-> Hv]. done.
  - rewrite <- len_minus_null_count_eq.
    assert (sum_list_with (λ k, default 0%nat (value_counts (county_of <$> rows df) !! k))
                          (Utils.group_keys (county_of <$> rows df))
            = sum_list_with (λ k, length (Utils.group_rows k (rows df)))
                            (Utils.group_keys (county_of <$> rows df))) as ->.
    { induction (Utils.group_keys (county_of <$> rows df)) as [|k ks IH]; [done|].
      cbn [sum_list_with]. rewrite IH. f_equal.
      rewrite value_counts_lookup, <- group_rows_column. by destruct (length _). }
    rewrite sum_groups.
    + lia.
    + apply group_keys_NoDup.
    + intros r s Hr Hs. apply group_keys_elem.
      apply list_elem_of_fmap. exists r. split; [|done].
      unfold county_of. by rewrite Hs.
Qed.

End ReportFacts.

(** ** The command line of utils.py *)

Section CliFacts.
Import Cli.
Local Open Scope list_scope.

(** X11: what the script does for every argument list.  Without an
    argument it prints the help.  With [compare] as first argument it
    prints the usage of the comparison when nothing follows, compares the
    next two paths when at least two follow, and raises [IndexError] when
    exactly one path follows: the guard of [cli_compare] admits three
    arguments where four are read.  With any other first argument it
    reports on that path, so the usage text of [cli_analyze] is never
    printed and a file named [compare] cannot be analysed. *)
Theorem cli_main_cases argv :
  main argv
  = match argv with
    | [] | [_] => Ok PrintHelp
    | _ :: command :: rest =>
        if String.eqb command "compare" then
          match rest with
          | [] => Ok PrintUsageCompare
          | [_] => Raise IndexError
          | original :: updated :: _ => Ok (CompareCsvs original updated)
          end
        else Ok (GenerateReport command)
    end ∧
  (∀ e, main argv = Raise e ↔ e = IndexError ∧ ∃ script path, argv = [script; "compare"; path]) ∧
  main argv ≠ Ok PrintUsageAnalyze ∧
  main argv ≠ Ok (GenerateReport "compare").
Proof.
  assert (main argv
          = match argv with
            | [] | [_] => Ok PrintHelp
            | _ :: command :: rest =>
                if String.eqb command "compare" then
                  match rest with
                  | [] => Ok PrintUsageCompare
                  | [_] => Raise IndexError
                  | original :: updated :: _ => Ok (CompareCsvs original updated)
                  end
                else Ok (GenerateReport command)
            end) as Hmain.
  { destruct argv as [|script [|command [|a [|b rest]]]]; try reflexivity;
      unfold main, cli_compare, cli_analyze; cbn; by destruct (String.eqb command "compare"). }
  split; [exact Hmain|]. rewrite Hmain. clear Hmain.
  destruct argv as [|script [|command rest]].
  - split_and!; [|done..]. intros e. split; [done|]. by intros (_ & ? & ? & [=]).
  - split_and!; [|done..]. intros e. split; [done|]. by intros (_ & ? & ? & [=]).
  - destruct (String.eqb command "compare") eqn:Hcmd.
    + apply String.eqb_eq in Hcmd as ->.
      destruct rest as [|a [|b rest]].
      * split_and!; [|done..]. intros e. split; [done|]. by intros (_ & ? & ? & [=]).
      * split_and!; [|done..]. intros e. split.
        -- intros [= <-]. eauto.
        -- by intros [-> _].
      * split_and!; [|done..]. intros e. split; [done|]. by intros (_ & ? & ? & [=]).
    + apply String.eqb_neq in Hcmd.
      split_and!; [|done|congruence]. intros e. split; [done|].
      intros (_ & ? & ? & [= -> -> ->]). done.
Qed.

End CliFacts.

(** ** The configuration *)

Section ConfigFacts.
Import Config.

Variable float_of_text : string → option float.

(** X12: [Config()] succeeds exactly when the text of the delay is a number
    and CENSUS_URL is set to a text that is not empty; the delay is read
    from API_DELAY, or from ["0.5"] when the variable is not set, and it is
    converted before the endpoint is checked, so a bad delay is the error
    reported even when the endpoint is missing as well.  A loaded
    configuration returns the endpoint and the delay of the environment. *)
Theorem config_init_cases env :
  let delay_text := default "0.5" (env !! "API_DELAY") in
  ((∃ c, init float_of_text env = inr c) ↔
   is_Some (float_of_text delay_text) ∧
   ∃ url, env !! "CENSUS_URL" = Some url ∧ url ≠ "") ∧
  (float_of_text delay_text = None →
   init float_of_text env = inl (could_not_convert delay_text)) ∧
  (∀ c, init float_of_text env = inr c →
        get_census_url c = env !! "CENSUS_URL" ∧
        float_of_text delay_text = Some (get_api_delay c)).
Proof.
  intros delay_text. unfold init. fold delay_text.
  destruct (float_of_text delay_text) as [delay|] eqn:Hdelay.
  - unfold _validate.
    destruct (env !! "CENSUS_URL") as [url|] eqn:Hurl.
    + destruct (String.eqb url "") eqn:Hempty.
      * apply String.eqb_eq in Hempty as ->.
        split_and!; [split|done|done].
        -- by intros [c ?].
        -- by intros (_ & url & [= <-] & ?).
      * apply String.eqb_neq in Hempty.
        split_and!; [split; [eauto|eauto]|done|].
        intros c [= <-]. done.
    + split_and!; [split|done|done].
      * by intros [c ?].
      * by intros (_ & url & ? & _).
  - split_and!; [split|done|done].
    + by intros [c ?].
    + by intros ([? ?] & _).
Qed.

(** X13: the third endpoint is read from the variable DEALB_COUNTY_URL.
    Setting DEKALB_COUNTY_URL changes nothing in the configuration. *)
Theorem config_ignores_DEKALB_COUNTY_URL env url :
  init float_of_text (<["DEKALB_COUNTY_URL" := url]> env) = init float_of_text env.
Proof. unfold init. by rewrite !lookup_insert_ne. Qed.

End ConfigFacts.

(** ** DataCleaner: what each transform leaves behind *)

Section CleanerFacts.
Import Utils.
Local Open Scope list_scope.

Lemma filter_chars_all p s :
  Forall (λ c, p c = true) (String.list_ascii_of_string (PyStr.filter_chars p s)).
Proof.
  induction s as [|c s IH]; cbn; [constructor|].
  destruct (p c) eqn:Hc; [|done]. cbn. by constructor.
Qed.

(** A row of the rewritten frame is the row of the frame with the one
    cell rewritten. *)
Lemma map_column_row name (fn : cell → cell) df i (r : Row) :
  rows df !! i = Some r →
  rows (map_column name fn df) !! i = Some (alter fn name r).
Proof. intros Hr. unfold map_column. cbn. by rewrite list_lookup_fmap, Hr. Qed.

(** X14: [clean_phone_numbers] keeps the shape of the frame and every
    cell outside the phone column; after it every phone cell is a text of
    digits only.  A null phone is no longer null: it has become the empty
    text. *)
Theorem clean_phone_numbers_cells df i (r : Row) :
  "BrokerPhoneNumber" ∈ columns df →
  rows df !! i = Some r →
  columns (clean_phone_numbers df) = columns df ∧
  length (rows (clean_phone_numbers df)) = length (rows df) ∧
  ∃ r' : Row,
    rows (clean_phone_numbers df) !! i = Some r' ∧
    (∀ c, c ≠ "BrokerPhoneNumber" → r' !! c = r !! c) ∧
    (∀ v, r' !! "BrokerPhoneNumber" = Some v →
          ∃ digits, v = Str digits ∧
            Forall (λ c, PyStr.is_digit c = true) (String.list_ascii_of_string digits)) ∧
    (r !! "BrokerPhoneNumber" = Some NaN → r' !! "BrokerPhoneNumber" = Some (Str "")).
Proof.
  intros Hc Hr. unfold clean_phone_numbers. rewrite bool_decide_eq_true_2 by done.
  split_and!; [done | cbn; by rewrite length_fmap |].
  eexists. split; [by apply map_column_row|]. split_and!.
  - intros c Hne. by rewrite lookup_alter_ne.
  - intros v. rewrite lookup_alter_eq.
    destruct (r !! "BrokerPhoneNumber") as [v0|]; [|done]. intros [= <-].
    eexists. split; [done|]. apply filter_chars_all.
  - intros Hnull. by rewrite lookup_alter_eq, Hnull.
Qed.

(** X15: [normalize_addresses] keeps the shape of the frame, every cell
    outside the address column and every null address; an address that is
    a text is trimmed and title-cased.  When the address is ASCII text
    (and the character database has the rules of ASCII), the result is
    ASCII text without white space at its ends, and title-casing it again
    changes nothing. *)
Theorem normalize_addresses_cells u df i (r : Row) :
  "StreetAddress" ∈ columns df →
  rows df !! i = Some r →
  columns (normalize_addresses u df) = columns df ∧
  length (rows (normalize_addresses u df)) = length (rows df) ∧
  ∃ r' : Row,
    rows (normalize_addresses u df) !! i = Some r' ∧
    (∀ c, c ≠ "StreetAddress" → r' !! c = r !! c) ∧
    (r !! "StreetAddress" = Some NaN → r' !! "StreetAddress" = Some NaN) ∧
    (∀ s, r !! "StreetAddress" = Some (Str s) →
          ∃ s', r' !! "StreetAddress" = Some (Str s') ∧
                s' = PyStr.title u (PyStr.strip s) ∧
                (ascii_rules u → is_ascii s = true →
                 is_ascii s' = true ∧ PyStr.strip s' = s' ∧ PyStr.title u s' = s')).
Proof.
  intros Hc Hr. unfold normalize_addresses. rewrite bool_decide_eq_true_2 by done.
  split_and!; [done | cbn; by rewrite length_fmap |].
  eexists. split; [by apply map_column_row|]. split_and!.
  - intros c Hne. by rewrite lookup_alter_ne.
  - intros Hnull. by rewrite lookup_alter_eq, Hnull.
  - intros s Hs. rewrite lookup_alter_eq, Hs. cbn.
    eexists. split_and!; [done..|].
    intros Hu Hascii.
    by destruct (title_strip_ascii u s Hu Hascii) as (_ & ? & ? & ?).
Qed.

(** *** The fill, cell by cell *)

Lemma fill_row_cons cols c d items (r : Row) :
  fill_row cols ((c, d) :: items) r
  = fill_row cols items (if bool_decide (c ∈ cols) then alter (fillna d) c r else r).
Proof. reflexivity. Qed.

Lemma fill_row_text cols items : ∀ (r : Row) c v,
  r !! c = Some (Str v) → fill_row cols items r !! c = Some (Str v).
Proof.
  induction items as [|[c' d] items IH]; intros r c v Hr; [done|].
  rewrite fill_row_cons. apply IH.
  destruct (bool_decide (c' ∈ cols)); [|done].
  rewrite lookup_alter. case_decide; [|done]. subst c'. by rewrite Hr.
Qed.

Lemma fill_row_absent cols items : ∀ (r : Row) c,
  r !! c = None → fill_row cols items r !! c = None.
Proof.
  induction items as [|[c' d] items IH]; intros r c Hr; [done|].
  rewrite fill_row_cons. apply IH.
  destruct (bool_decide (c' ∈ cols)); [|done].
  rewrite lookup_alter. case_decide; [|done]. subst c'. by rewrite Hr.
Qed.

Lemma fill_row_unlisted cols items : ∀ (r : Row) c,
  c ∉ items.*1 ∨ c ∉ cols → fill_row cols items r !! c = r !! c.
Proof.
  induction items as [|[c' d] items IH]; intros r c Hc; [done|].
  rewrite fill_row_cons, IH.
  - case_bool_decide as Hcols; [|done].
    rewrite lookup_alter_ne; [done|]. intros ->.
    destruct Hc as [Hc|Hc]; [|done]. apply Hc. cbn. left.
  - destruct Hc as [Hc|Hc]; [left|by right].
    intros Hin. apply Hc. cbn. by right.
Qed.

Lemma fill_row_default cols items : ∀ (r : Row) c d,
  NoDup items.*1 → (c, d) ∈ items → c ∈ cols → r !! c = Some NaN →
  fill_row cols items r !! c = Some (Str d).
Proof.
  induction items as [|[c' d'] items IH]; intros r c d Hnd Hin Hc Hr.
  - by apply elem_of_nil in Hin.
  - rewrite fill_row_cons. cbn in Hnd. apply NoDup_cons in Hnd as [Hc' Hnd].
    apply elem_of_cons in Hin as [[= <- <-] | Hin].
    + apply fill_row_text. rewrite bool_decide_eq_true_2 by done.
      by rewrite lookup_alter_eq, Hr.
    + assert (c ≠ c') as Hne.
      { intros ->. apply Hc'. apply list_elem_of_fmap. by exists (c', d). }
      apply IH; [done..|].
      destruct (bool_decide (c' ∈ cols)); [|done]. by rewrite lookup_alter_ne.
Qed.

(** X16: [fill_missing_values] keeps the shape of the frame, every cell
    that holds a text, and every cell of a column that is not listed or not
    in the frame; a null cell of a listed column of the frame gets the
    default of that column.  Without defaults the frame stays as it is. *)
Theorem fill_missing_values_cells df defaults i (r : Row) :
  let items := default [] defaults in
  NoDup items.*1 →
  rows df !! i = Some r →
  columns (fill_missing_values df defaults) = columns df ∧
  length (rows (fill_missing_values df defaults)) = length (rows df) ∧
  (items = [] → fill_missing_values df defaults = df) ∧
  ∃ r' : Row,
    rows (fill_missing_values df defaults) !! i = Some r' ∧
    (∀ c v, r !! c = Some (Str v) → r' !! c = Some (Str v)) ∧
    (∀ c, c ∉ items.*1 ∨ c ∉ columns df → r' !! c = r !! c) ∧
    (∀ c d, (c, d) ∈ items → c ∈ columns df → r !! c = Some NaN →
            r' !! c = Some (Str d)).
Proof.
  intros items Hnd Hr.
  rewrite fill_missing_values_items, fill_items_rows. fold items. cbn [columns rows].
  split_and!; [done | by rewrite length_fmap | |].
  - intros ->. unfold fill_row. cbn. rewrite list_fmap_id. by destruct df.
  - eexists. split; [by rewrite list_lookup_fmap, Hr|]. split_and!.
    + intros c v. apply fill_row_text.
    + intros c. apply fill_row_unlisted.
    + intros c d. by apply fill_row_default.
Qed.

(** X17: the cleaning of the phone numbers and the normalisation of the
    addresses work on different columns and can be applied in either
    order. *)
Theorem clean_normalize_commute u df :
  clean_phone_numbers (normalize_addresses u df)
  = normalize_addresses u (clean_phone_numbers df).
Proof.
  unfold clean_phone_numbers, normalize_addresses.
  destruct (bool_decide ("BrokerPhoneNumber" ∈ columns df)) eqn:Hp,
           (bool_decide ("StreetAddress" ∈ columns df)) eqn:Ha;
    rewrite ?columns_map_column, ?Hp, ?Ha; try done.
  unfold map_column. cbn [columns rows]. f_equal.
  rewrite <- !list_fmap_compose. apply list_fmap_ext. intros _ r _. cbn.
  by rewrite alter_alter_ne.
Qed.

(** X18: the order of cleaning and filling matters for the phone column.
    Once [clean_phone_numbers] has run, no phone cell is null, so a default
    for BrokerPhoneNumber given to [fill_missing_values] afterwards is never
    used: the phone column is the one that the cleaning produced. *)
Theorem fill_after_clean_phone df defaults i (r : Row) :
  "BrokerPhoneNumber" ∈ columns df →
  rows (clean_phone_numbers df) !! i = Some r →
  ∃ r' : Row,
    rows (fill_missing_values (clean_phone_numbers df) defaults) !! i = Some r' ∧
    r' !! "BrokerPhoneNumber" = r !! "BrokerPhoneNumber".
Proof.
  intros Hc Hr.
  rewrite fill_missing_values_items, fill_items_rows. cbn [rows].
  eexists. split; [by rewrite list_lookup_fmap, Hr|].
  revert Hr. unfold clean_phone_numbers. rewrite bool_decide_eq_true_2 by done.
  unfold map_column. cbn [rows columns]. rewrite list_lookup_fmap.
  destruct (rows df !! i) as [r0|]; [|done]. intros [= <-].
  rewrite lookup_alter_eq.
  destruct (r0 !! "BrokerPhoneNumber") as [v|] eqn:Hv.
  - apply fill_row_text. by rewrite lookup_alter_eq, Hv.
  - apply fill_row_absent. by rewrite lookup_alter_eq, Hv.
Qed.

End CleanerFacts.

(** ** The split by county and the files on disk *)

Section ExportMore.
Import Utils.
Local Open Scope list_scope.

(** X20: [export_by_county] writes files named after the counties and
    nothing else, in the order of the keys, and it stops at the first
    exception.  For the counties [written] whose file it has written when
    it ends: each such file is on disk and holds the group of one of
    these counties, whose rows are rows of the data with that county;
    every other file is as it was.  When it returns, it has written a
    file for every key and lists their names.  When it raises, the
    exception is that of [makedirs], or the [KeyError] for data without
    the county column (no file written in these two cases), or that of
    the first file that could not be created (as for a county name with a
    slash, when the output directory has no such subdirectory), or that
    of [print] after the last file written. *)
Theorem export_by_county_files makedirs create print df output_dir
    (disk : gmap string DataFrame) :
  let keys := group_keys (county_of <$> rows df) in
  let run := export_by_county makedirs create print df output_dir disk in
  ∃ written rest,
    keys = written ++ rest ∧
    (∀ file, file ∈ county_filename output_dir <$> written →
       ∃ county,
         county ∈ written ∧
         file = county_filename output_dir county ∧
         run.2 !! file = Some (mkDataFrame (columns df) (group_rows county (rows df))) ∧
         ∀ r : Row, r ∈ group_rows county (rows df) →
                    r ∈ rows df ∧ county_of r = Str county) ∧
    (∀ file, file ∉ county_filename output_dir <$> written →
       run.2 !! file = disk !! file) ∧
    match run.1 with
    | Ok files_created =>
        makedirs output_dir = Ok tt ∧ "CountyName" ∈ columns df ∧
        rest = [] ∧ files_created = county_filename output_dir <$> keys
    | Raise e =>
        (makedirs output_dir = Raise e ∧ written = []) ∨
        (e = KeyError "CountyName" ∧ ("CountyName" ∉ columns df) ∧ written = []) ∨
        (∃ county rest',
           rest = county :: rest' ∧ create (county_filename output_dir county) = Raise e) ∨
        (∃ done county,
           written = done ++ [county] ∧
           print (Created (county_filename output_dir county)
                          (len (mkDataFrame (columns df) (group_rows county (rows df)))))
           = Raise e)
    end.
Proof.
  intros keys run. subst run. unfold export_by_county.
  destruct (makedirs output_dir) as [[]|e] eqn:Hmakedirs.
  2:{ exists [], keys. cbn. split_and!; [done| |done|by left].
      intros file Hfile. by apply elem_of_nil in Hfile. }
  unfold getcol. case_bool_decide as Hc.
  2:{ exists [], keys. cbn. split_and!; [done| |done|right; by left].
      intros file Hfile. by apply elem_of_nil in Hfile. }
  change (λ r : Row, default NaN (r !! "CountyName")) with county_of. fold keys.
  destruct (export_groups_run create print df output_dir keys [] disk)
    as (written & rest & Hkeys & Hdisk & Hres).
  exists written, rest. rewrite Hdisk. split_and!; [done| | |].
  - intros file Hfile.
    destruct (written_files_group df output_dir written file disk Hfile)
      as (k & Hk & -> & Hlookup).
    exists k. split_and!; [done..|].
    unfold group_rows. intros r [Hr Hin]%list_elem_of_filter.
    split; [done|]. unfold county_of. by rewrite Hr.
  - intros file Hfile. by apply written_files_other.
  - destruct (export_groups _ _ _ _ _ _ _).1 as [files_created|e].
    + by destruct Hres as [-> ->].
    + destruct Hres as [Hres|Hres]; [right; right; by left | by do 3 right].
Qed.

(** A county name with a slash in an output directory without
    subdirectories: the run ends with [OSError] at that county.  Its file
    and those of the counties after it are not written; the files of the
    counties before it are. *)
Example export_by_county_slash :
  export_by_county succeeds (Demo.flat "out") succeeds
                   (Sample.properties [Str "Fulton"; Str "A/B"]) "out" ∅
  = (Raise OSError, ∅) ∧
  export_by_county succeeds (Demo.flat "out") succeeds
                   (Sample.properties [Str "Fulton"; Str "Z/B"]) "out" ∅
  = (Raise OSError, {[ "out/Fulton.csv" := Sample.properties [Str "Fulton"] ]}).
Proof. split; vm_compute; reflexivity. Qed.

End ExportMore.

(** ** The properties above at sample data *)

Section Instances.
Import DataProcessor.
Local Open Scope list_scope.

Lemma process_csv_file_stateless_witness :
  ∃ s',
    process_csv_file (stateless Demo.DeKalb) Sample.no_wait Sample.three_rows
                     (fresh () (mkDataFrame [] []))
    = (Ok (mkDataFrame (columns Sample.three_rows)
                       (enrich_row Demo.DeKalb <$> rows Sample.three_rows)), s') ∧
    frame s' = mkDataFrame (columns Sample.three_rows)
                           (enrich_row Demo.DeKalb <$> rows Sample.three_rows) ∧
    stats s' = mkStats (len Sample.three_rows) (selected_count Sample.three_rows)
                       (answered_count Demo.DeKalb Sample.three_rows)
                       (unanswered_count Demo.DeKalb Sample.three_rows)
                       (len Sample.three_rows - selected_count Sample.three_rows).
Proof. apply process_csv_file_stateless; reflexivity. Defined.

Lemma process_dataframe_stateless_twice_witness :
  ∃ s1 s2 : @State unit,
    process_dataframe (stateless Demo.DeKalb) Sample.no_wait None
                      (fresh () Sample.three_rows) = (Ok (frame s1), s1) ∧
    process_dataframe (stateless Demo.DeKalb) Sample.no_wait None s1 = (Ok (frame s2), s2) ∧
    frame s2 = frame s1.
Proof. apply process_dataframe_stateless_twice; reflexivity. Defined.

Lemma process_dataframe_trace_witness :
  ∃ s',
    process_dataframe (traced_geocoder (Sample.always None)) (traced_wait Sample.no_wait)
                      (Some traced_callback)
                      (fresh ((), mkTrace [] 0 []) Sample.three_rows) = (Ok (frame s'), s') ∧
    lookups (world s').2 = [] ++ (address_of <$> selected_rows Sample.three_rows) ∧
    waits (world s').2 = (0 + length (selected_rows Sample.three_rows))%nat ∧
    progress (world s').2
    = [] ++ ((λ k, (k, length (selected_rows Sample.three_rows)))
               <$> seq 1 (length (selected_rows Sample.three_rows))) ∧
    ∀ k m, (k, m) ∈ (λ k, (k, length (selected_rows Sample.three_rows)))
                      <$> seq 1 (length (selected_rows Sample.three_rows)) →
           (1 ≤ k ≤ m)%nat.
Proof.
  apply (process_dataframe_trace (Sample.always None) Sample.no_wait
           (fresh ((), mkTrace [] 0 []) Sample.three_rows)); reflexivity.
Defined.

Lemma process_csv_file_no_county_column_witness :
  process_csv_file (Sample.always None) Sample.no_wait Demo.contacts
                   (fresh () (mkDataFrame [] []))
  = (Raise (KeyError "CountyName"),
     mkState () (mkStats (len Demo.contacts) 0 0 0 0) Demo.contacts).
Proof.
  apply process_csv_file_no_county_column.
  apply (bool_decide_unpack _). reflexivity.
Defined.

Lemma process_dataframe_no_address_column_witness :
  process_dataframe (Sample.always None) Sample.no_wait None
                    (fresh () (Demo.no_street [Str "Fulton"; NaN]))
  = (Raise (KeyError "StreetAddress"),
     mkState () (mkStats 0 1 0 0 1) (Demo.no_street [Str "Fulton"; NaN])).
Proof.
  apply (process_dataframe_no_address_column (Sample.always None) Sample.no_wait None
           (fresh () (Demo.no_street [Str "Fulton"; NaN])) "StreetAddress").
  - apply (bool_decide_unpack _). reflexivity.
  - reflexivity.
  - reflexivity.
Defined.

Lemma process_csv_file_reused_witness :
  ∃ s1 s2 : @State unit,
    process_csv_file (Sample.always None) Sample.no_wait Sample.three_rows
                     (fresh () (mkDataFrame [] [])) = (Ok (frame s1), s1) ∧
    process_csv_file (Sample.always None) Sample.no_wait Sample.three_rows s1
    = (Ok (frame s2), s2) ∧
    total (stats s2) = len Sample.three_rows ∧
    needs_geocoding (stats s2) = selected_count Sample.three_rows ∧
    already_had_county (stats s2) = len Sample.three_rows - selected_count Sample.three_rows ∧
    geocoded (stats s2) + failed (stats s2)
    = selected_count Sample.three_rows + selected_count Sample.three_rows.
Proof. apply process_csv_file_reused; reflexivity. Defined.

Lemma cached_failure_sticks_witness :
  Examples.cached_lookups Demo.offline
    [(Sample.street, Sample.city, Sample.state, Sample.zipcode);
     (Sample.street, Sample.city, Sample.state, Sample.zipcode)]
    (Examples.mkCached ∅ [])
  = (Ok [Geocoder.JNull; Geocoder.JNull],
     Examples.mkCached
       {[ Examples.cache_key Sample.street Sample.city Sample.state Sample.zipcode
          := Geocoder.JNull ]}
       [Geocoder.params Sample.street Sample.city Sample.state Sample.zipcode]).
Proof. apply cached_failure_sticks. reflexivity. Defined.

Lemma cached_key_clash_witness :
  ∃ v s',
    Examples.cached_lookups Demo.offline
      [(Str "1 Main St|Apt 2", Str "Atlanta", Str "GA", Str "30303");
       (Str "1 Main St", Str "Apt 2|Atlanta", Str "GA", Str "30303")]
      (Examples.mkCached ∅ []) = (Ok [v; v], s') ∧
    Examples.sent s'
    = [address_params (Str "1 Main St|Apt 2", Str "Atlanta", Str "GA", Str "30303")].
Proof. apply (proj1 (cached_key_clash Demo.offline)). reflexivity. Defined.

Lemma analyze_csv_counties_witness :
  ∃ t,
    Reports.analyze_csv_tables Sample.three_rows = Ok t ∧
    Reports.total_properties t = len Sample.three_rows ∧
    Reports.missing_county t = null_count Sample.three_rows ∧
    (∀ k, k ∈ Utils.group_keys (county_of <$> rows Sample.three_rows)
          ↔ is_Some (Reports.counties t !! k)) ∧
    (∀ k n, Reports.counties t !! k = Some n →
            n = length (Utils.group_rows k (rows Sample.three_rows)) ∧ (0 < n)%nat) ∧
    Z.of_nat (sum_list_with (λ k, default 0%nat (Reports.counties t !! k))
                            (Utils.group_keys (county_of <$> rows Sample.three_rows)))
    + Reports.missing_county t = Reports.total_properties t.
Proof.
  apply analyze_csv_counties;
    [apply (bool_decide_unpack _); reflexivity..|].
  intros Hprice. apply (bool_decide_eq_true_2 _) in Hprice.
  vm_compute in Hprice. discriminate Hprice.
Defined.

Lemma config_init_cases_witness :
  Config.init Demo.half_second (<["API_DELAY" := "soon"]> Demo.environment)
  = inl (Config.could_not_convert "soon").
Proof.
  pose proof (proj1 (proj2 (config_init_cases Demo.half_second
                              (<["API_DELAY" := "soon"]> Demo.environment)))) as H.
  cbn zeta in H. rewrite H; vm_compute; reflexivity.
Defined.

Lemma clean_phone_numbers_cells_witness :
  columns (Utils.clean_phone_numbers Demo.contacts) = columns Demo.contacts ∧
  length (rows (Utils.clean_phone_numbers Demo.contacts)) = length (rows Demo.contacts) ∧
  ∃ r' : Row,
    rows (Utils.clean_phone_numbers Demo.contacts) !! 1%nat = Some r' ∧
    (∀ c, c ≠ "BrokerPhoneNumber" → r' !! c = Demo.contact NaN NaN !! c) ∧
    (∀ v, r' !! "BrokerPhoneNumber" = Some v →
          ∃ digits, v = Str digits ∧
            Forall (λ c, PyStr.is_digit c = true) (String.list_ascii_of_string digits)) ∧
    (Demo.contact NaN NaN !! "BrokerPhoneNumber" = Some NaN →
     r' !! "BrokerPhoneNumber" = Some (Str "")).
Proof.
  apply clean_phone_numbers_cells; [apply (bool_decide_unpack _)|]; reflexivity.
Defined.

Lemma normalize_addresses_cells_witness :
  columns (Utils.normalize_addresses Demo.latin Demo.contacts) = columns Demo.contacts ∧
  length (rows (Utils.normalize_addresses Demo.latin Demo.contacts))
  = length (rows Demo.contacts) ∧
  ∃ r' : Row,
    rows (Utils.normalize_addresses Demo.latin Demo.contacts) !! 0%nat = Some r' ∧
    (∀ c, c ≠ "StreetAddress" →
          r' !! c = Demo.contact (Str "  12 oak st  ") (Str "(404) 555-0100") !! c) ∧
    (Demo.contact (Str "  12 oak st  ") (Str "(404) 555-0100") !! "StreetAddress" = Some NaN →
     r' !! "StreetAddress" = Some NaN) ∧
    (∀ s, Demo.contact (Str "  12 oak st  ") (Str "(404) 555-0100") !! "StreetAddress"
          = Some (Str s) →
          ∃ s', r' !! "StreetAddress" = Some (Str s') ∧
                s' = PyStr.title Demo.latin (PyStr.strip s) ∧
                (ascii_rules Demo.latin → is_ascii s = true →
                 is_ascii s' = true ∧ PyStr.strip s' = s' ∧ PyStr.title Demo.latin s' = s')).
Proof.
  apply normalize_addresses_cells; [apply (bool_decide_unpack _)|]; reflexivity.
Defined.

Example normalize_addresses_contacts :
  Utils.normalize_addresses Demo.latin Demo.contacts
  = mkDataFrame ["StreetAddress"; "BrokerPhoneNumber"]
                [ Demo.contact (Str "12 Oak St") (Str "(404) 555-0100");
                  Demo.contact NaN NaN ].
Proof. vm_compute. reflexivity. Qed.

Lemma fill_missing_values_cells_witness :
  Utils.fill_missing_values Demo.contacts (Some [("BrokerPhoneNumber", "unlisted")])
  = mkDataFrame ["StreetAddress"; "BrokerPhoneNumber"]
                [ Demo.contact (Str "  12 oak st  ") (Str "(404) 555-0100");
                  Demo.contact NaN (Str "unlisted") ] ∧
  columns (Utils.fill_missing_values Demo.contacts (Some [("BrokerPhoneNumber", "unlisted")]))
  = columns Demo.contacts.
Proof.
  split; [vm_compute; reflexivity|].
  apply (fill_missing_values_cells Demo.contacts (Some [("BrokerPhoneNumber", "unlisted")])
           1%nat (Demo.contact NaN NaN)).
  - cbn. apply NoDup_singleton.
  - reflexivity.
Defined.

Lemma fill_after_clean_phone_witness :
  ∃ r' : Row,
    rows (Utils.fill_missing_values (Utils.clean_phone_numbers Demo.contacts)
            (Some [("BrokerPhoneNumber", "unlisted")])) !! 1%nat = Some r' ∧
    r' !! "BrokerPhoneNumber" = Demo.contact NaN (Str "") !! "BrokerPhoneNumber".
Proof.
  apply (fill_after_clean_phone Demo.contacts (Some [("BrokerPhoneNumber", "unlisted")])
           1%nat (Demo.contact NaN (Str ""))).
  - apply (bool_decide_unpack _). reflexivity.
  - vm_compute. reflexivity.
Defined.

Lemma export_by_county_groups_witness :
  ∃ disk',
    Utils.export_by_county succeeds (Demo.flat "Data/by_county") succeeds
                           Sample.three_rows "Data/by_county" ∅
    = (Ok (Utils.county_filename "Data/by_county"
             <$> Utils.group_keys (county_of <$> rows Sample.three_rows)), disk') ∧
    (NoDup (Utils.county_filename "Data/by_county"
              <$> Utils.group_keys (county_of <$> rows Sample.three_rows)) →
     ∀ k, k ∈ Utils.group_keys (county_of <$> rows Sample.three_rows) →
       disk' !! Utils.county_filename "Data/by_county" k
       = Some (mkDataFrame (columns Sample.three_rows)
                           (Utils.group_rows k (rows Sample.three_rows)))) ∧
    Z.of_nat (sum_list_with (λ k, length (Utils.group_rows k (rows Sample.three_rows)))
                            (Utils.group_keys (county_of <$> rows Sample.three_rows)))
    = len Sample.three_rows - null_count Sample.three_rows.
Proof.
  apply (export_by_county_groups succeeds (Demo.flat "Data/by_county") succeeds
           Sample.three_rows "Data/by_county" ∅).
  - apply (bool_decide_unpack _). reflexivity.
  - reflexivity.
  - intros k Hk. vm_compute in Hk.
    repeat (apply elem_of_cons in Hk as [-> | Hk]; [vm_compute; reflexivity|]).
    by apply elem_of_nil in Hk.
  - reflexivity.
Defined.

End Instances.
